(** * faba_ntag: NTAG page layout, NDEF text record and write/verify protocol

    A shallow embedding of [faba_ntag.py].  Python objects are modelled as
    follows.

    - a byte (an element of a [bytearray], or an [int] of a byte image,
      which only ever holds values 0..255) is a [Byte.byte];
    - a [str] is the list of its Unicode code points, [list Z];
    - the dict [NTAGData.pages] is a [gmap nat (list byte)];
    - the PN532 driver and the file system are an interface [Env] over an
      arbitrary device state; every call made to them, every [logging]
      record of level info or above and every [print] is appended to a
      trace, in program order ([logging.debug] records are left out);
    - a byte image is the list of its bytes, and where the source treats a
      [list] and a [bytearray] differently (padding the last page in the
      serializers) the functions take the Python type of the image as a
      further argument;
    - an exception is the outcome [Raise]; the two loops of [detect_card],
      which have no bound in the source, take a fuel argument and end in
      [OutOfFuel] when it is spent; the loop of [parse_text] is given one
      unit of fuel per stored page and one more, which is proved
      sufficient. *)

From Stdlib Require Import ZArith NArith Strings.String Strings.Ascii Strings.Byte Lia.
From stdpp Require Import base option list gmap pretty sorting.

Open Scope Z_scope.

(** ** Bytes *)

#[global] Instance byte_eq_decision : EqDecision byte := Byte.byte_eq_dec.

Definition byte_val (b : byte) : Z := Z.of_N (Byte.to_N b).

(** The byte whose value is [z mod 256]. *)
Definition byte_of_Z (z : Z) : byte :=
  default x00 (Byte.of_N (Z.to_N (z mod 256))).

(** ** Python lists and strings *)

(** A [str]: the sequence of its code points. *)
Abbreviation str := (list Z).

(** A string literal of the source (ASCII only). *)
Definition lit (s : string) : str :=
  (fun a => Z.of_N (N_of_ascii a)) <$> list_ascii_of_string s.

(** [l[a:b]] for [0 <= a]. *)
Definition slice {A} (l : list A) (a b : nat) : list A :=
  take (b - a) (drop a l).

(** [l * k]: [k] copies of [l], none when [k <= 0]. *)
Definition list_mul {A} (l : list A) (k : Z) : list A :=
  concat (replicate (Z.to_nat k) l).

(** [sep.join(parts)] *)
Fixpoint str_join (sep : str) (parts : list str) : str :=
  match parts with
  | [] => []
  | [p] => p
  | p :: rest => p ++ sep ++ str_join sep rest
  end.

(** [s.startswith(prefix)] *)
Fixpoint startswith (s prefix : str) : bool :=
  match prefix, s with
  | [], _ => true
  | c :: prefix', d :: s' => bool_decide (c = d) && startswith s' prefix'
  | _ :: _, [] => false
  end.

(** One hexadecimal digit, as a code point: [0-9A-F] and [0-9a-f]. *)
Definition hex_digit_upper (n : Z) : Z := if n <? 10 then 48 + n else 55 + n.
Definition hex_digit_lower (n : Z) : Z := if n <? 10 then 48 + n else 87 + n.

(** [f"{byte:02X}"] and [f"{byte:02x}"] for a byte. *)
Definition fmt_02X (b : byte) : str :=
  [hex_digit_upper (byte_val b / 16); hex_digit_upper (byte_val b mod 16)].
Definition fmt_02x (b : byte) : str :=
  [hex_digit_lower (byte_val b / 16); hex_digit_lower (byte_val b mod 16)].

(** [string.printable]: digits, letters, punctuation and whitespace. *)
Definition string_printable : str :=
  lit "0123456789abcdefghijklmnopqrstuvwxyzABCDEFGHIJKLMNOPQRSTUVWXYZ"
  ++ [33; 34; 35; 36; 37; 38; 39; 40; 41; 42; 43; 44; 45; 46; 47;
      58; 59; 60; 61; 62; 63; 64; 91; 92; 93; 94; 95; 96; 123; 124; 125; 126]
  ++ [32; 9; 10; 13; 11; 12].

(** ** Codecs *)

(** [str.encode('utf-8')] of one code point; [None] where Python raises
    [UnicodeEncodeError] (a surrogate). *)
Definition utf8_encode_char (c : Z) : option (list byte) :=
  if c <? 0 then None
  else if c <? 0x80 then Some [byte_of_Z c]
  else if c <? 0x800 then
    Some [byte_of_Z (0xC0 + c / 64); byte_of_Z (0x80 + c mod 64)]
  else if (0xD800 <=? c) && (c <=? 0xDFFF) then None
  else if c <? 0x10000 then
    Some [byte_of_Z (0xE0 + c / 4096); byte_of_Z (0x80 + (c / 64) mod 64);
          byte_of_Z (0x80 + c mod 64)]
  else if c <? 0x110000 then
    Some [byte_of_Z (0xF0 + c / 262144); byte_of_Z (0x80 + (c / 4096) mod 64);
          byte_of_Z (0x80 + (c / 64) mod 64); byte_of_Z (0x80 + c mod 64)]
  else None.

Fixpoint utf8_encode (s : str) : option (list byte) :=
  match s with
  | [] => Some []
  | c :: s' =>
      match utf8_encode_char c, utf8_encode s' with
      | Some bs, Some rest => Some (bs ++ rest)
      | _, _ => None
      end
  end.

Definition in_range (lo hi : Z) (b : byte) : bool :=
  (lo <=? byte_val b) && (byte_val b <=? hi).

(** The low six bits of a continuation byte. *)
Definition cont (b : byte) : Z := byte_val b - 0x80.

(** [bytes.decode('utf-8')], strict: the well-formed byte sequences of the
    Unicode standard; [None] where Python raises [UnicodeDecodeError]. *)
Fixpoint utf8_decode (l : list byte) : option str :=
  match l with
  | [] => Some []
  | b0 :: r0 =>
      if in_range 0x00 0x7F b0 then cons (byte_val b0) <$> utf8_decode r0
      else if in_range 0xC2 0xDF b0 then
        match r0 with
        | b1 :: r1 =>
            if in_range 0x80 0xBF b1
            then cons ((byte_val b0 - 0xC0) * 64 + cont b1) <$> utf8_decode r1
            else None
        | _ => None
        end
      else if in_range 0xE0 0xEF b0 then
        match r0 with
        | b1 :: b2 :: r2 =>
            if in_range (if bool_decide (b0 = xe0) then 0xA0 else 0x80)
                        (if bool_decide (b0 = xed) then 0x9F else 0xBF) b1
               && in_range 0x80 0xBF b2
            then cons ((byte_val b0 - 0xE0) * 4096 + cont b1 * 64 + cont b2)
                   <$> utf8_decode r2
            else None
        | _ => None
        end
      else if in_range 0xF0 0xF4 b0 then
        match r0 with
        | b1 :: b2 :: b3 :: r3 =>
            if in_range (if bool_decide (b0 = xf0) then 0x90 else 0x80)
                        (if bool_decide (b0 = xf4) then 0x8F else 0xBF) b1
               && in_range 0x80 0xBF b2 && in_range 0x80 0xBF b3
            then cons ((byte_val b0 - 0xF0) * 262144 + cont b1 * 4096
                       + cont b2 * 64 + cont b3) <$> utf8_decode r3
            else None
        | _ => None
        end
      else None
  end.

(** The 16-bit code units of a byte string, least significant byte first;
    [None] when a byte is left over. *)
Fixpoint utf16_units (l : list byte) : option (list Z) :=
  match l with
  | [] => Some []
  | lo :: hi :: r => cons (byte_val lo + 256 * byte_val hi) <$> utf16_units r
  | [_] => None
  end.

(** Code units to code points; a surrogate that is not part of a pair is
    an error. *)
Fixpoint utf16_points (fuel : nat) (us : list Z) : option str :=
  match fuel, us with
  | _, [] => Some []
  | O, _ => None
  | S fuel', u :: r =>
      if (0xD800 <=? u) && (u <=? 0xDBFF) then
        match r with
        | v :: r' =>
            if (0xDC00 <=? v) && (v <=? 0xDFFF)
            then cons (0x10000 + (u - 0xD800) * 1024 + (v - 0xDC00))
                   <$> utf16_points fuel' r'
            else None
        | [] => None
        end
      else if (0xDC00 <=? u) && (u <=? 0xDFFF) then None
      else cons u <$> utf16_points fuel' r
  end.

(** [bytes.decode('UTF-16')] on a host of little-endian byte order.  A
    leading byte order mark is removed and selects the byte order; without
    one the host's order is used. *)
Definition utf16_decode (l : list byte) : option str :=
  match l with
  | xff :: xfe :: r => utf16_units r ≫= fun us => utf16_points (length us) us
  | xfe :: xff :: r =>
      utf16_units r ≫= fun us =>
      let swapped := (fun u => (u mod 256) * 256 + u / 256) <$> us in
      utf16_points (length swapped) swapped
  | _ => utf16_units l ≫= fun us => utf16_points (length us) us
  end.

(** [bytes.decode('ascii')] *)
Definition ascii_decode (l : list byte) : option str :=
  if forallb (in_range 0x00 0x7F) l then Some (byte_val <$> l) else None.

Inductive encoding := UTF8 | UTF16.

Definition decode (e : encoding) (l : list byte) : option str :=
  match e with
  | UTF8 => utf8_decode l
  | UTF16 => utf16_decode l
  end.

(** ** Tag variants *)

(** The values the source gives to [ntag.type]. *)
Inductive tag_type := NTAG203 | NTAG213 | NTAG215 | NTAG216 | Unknown.

#[global] Instance tag_type_eq_decision : EqDecision tag_type.
Proof. solve_decision. Defined.

Definition type_name (t : tag_type) : str :=
  match t with
  | NTAG203 => lit "NTAG203"
  | NTAG213 => lit "NTAG213"
  | NTAG215 => lit "NTAG215"
  | NTAG216 => lit "NTAG216"
  | Unknown => lit "Unknown"
  end.

(** ** Observable behaviour: the trace *)

(** What a call to the driver gives back: a value, or [Fault] when the call
    raises. *)
Inductive reply (A : Type) := Reply (a : A) | Fault.
Arguments Reply {A} a.
Arguments Fault {A}.

Inductive level := Info | Warning | Error.

(** One constructor per message of a [logging] or [print] call, carrying
    the values the message interpolates; the three serializers share
    theirs, the extension of the file name telling them apart. *)
Inductive message :=
  | MsgWaiting
  | MsgUID (uid : list byte)
  | MsgType (t : tag_type) (cc_byte : byte)
  | MsgPages (n : nat)
  | MsgErrorReadingPage (page : nat)
  | MsgPageNotFound (page_number : nat)
  | MsgFailedToReadPage6
  | MsgNoTextRecord (type_field : byte)
  | MsgInsufficientData
  | MsgFabaID (id : str)
  | MsgNoValidFabaID
  | MsgWritingTag (uid : list byte)
  | MsgSuccessfullyWritten
  | MsgFailedWritingPage (block_num : nat)
  | MsgErrorWritingPage (block_num : nat)
  | MsgUidNotMatching
  | MsgFailedToReadPage (block_num : nat)
  | MsgMismatch (block_num : nat) (expected_hex read_hex : str)
  | MsgSavingFiles
  | MsgSaved (filename : str)
  | MsgFailedToWriteFile (filename : str)
  | MsgUnexpectedError.

(** What [with open(filename, "w") as f: f.write(content)] comes to: the
    file is written, or an [OSError] is raised, or an exception of another
    class (a [ValueError] for a name that holds a NUL character). *)
Inductive file_result := Written | OSError | OtherError.

#[global] Instance file_result_eq_decision : EqDecision file_result.
Proof. solve_decision. Defined.

Inductive event :=
  | Poll (r : reply (option (list byte)))
  | ReadBlock (page : nat) (r : reply (option (list byte)))
  | WriteBlock (page : nat) (data : list byte) (r : reply bool)
  | WriteFile (filename : str) (content : str) (r : file_result)
  | Log (l : level) (m : message)
  | Stdout (m : message).

(** ** The driver and the file system *)

(** [D] is the state of everything outside the program: the reader, the
    tag in its field, the disk.  [read_passive_target] gives the UID or
    [None] on a timeout; [ntag2xx_read_block] the four bytes of a page or
    [None]; [ntag2xx_write_block] whether the tag acknowledged;
    [write_file] what opening and writing the file comes to. *)
Class Env (D : Type) := {
  read_passive_target : D -> reply (option (list byte)) * D;
  ntag2xx_read_block : nat -> D -> reply (option (list byte)) * D;
  ntag2xx_write_block : nat -> list byte -> D -> reply bool * D;
  write_file : str -> str -> D -> file_result * D
}.

(** ** Computations *)

Inductive exn :=
  | TypeError | IndexError | ValueError | UnicodeDecodeError
  | UnicodeEncodeError | DriverError.

Inductive outcome (A : Type) :=
  | Ret (a : A)
  | Raise (e : exn)
  | OutOfFuel.
Arguments Ret {A} a.
Arguments Raise {A} e.
Arguments OutOfFuel {A}.

Record world (D : Type) := World { hw : D; trace : list event }.
Arguments World {D} hw trace.
Arguments hw {D} w.
Arguments trace {D} w.

Definition M (D A : Type) : Type := world D -> outcome A * world D.

Definition ret {D A} (a : A) : M D A := fun w => (Ret a, w).

Definition bind {D A B} (m : M D A) (k : A -> M D B) : M D B :=
  fun w =>
    match m w with
    | (Ret a, w') => k a w'
    | (Raise e, w') => (Raise e, w')
    | (OutOfFuel, w') => (OutOfFuel, w')
    end.

Notation "x <- m ;; k" := (bind m (fun x => k))
  (at level 100, m at next level, right associativity).
Notation "m ;;; k" := (bind m (fun _ => k))
  (at level 100, right associativity).

Definition raise {D A} (e : exn) : M D A := fun w => (Raise e, w).

Definition out_of_fuel {D A} : M D A := fun w => (OutOfFuel, w).

(** [try: m except Exception as e: h e] *)
Definition try_except {D A} (m : M D A) (h : exn -> M D A) : M D A :=
  fun w =>
    match m w with
    | (Raise e, w') => h e w'
    | r => r
    end.

Definition emit {D} (e : event) : M D unit :=
  fun w => (Ret tt, World (hw w) (trace w ++ [e])).

Definition logging {D} (l : level) (m : message) : M D unit := emit (Log l m).

Definition print {D} (m : message) : M D unit := emit (Stdout m).

(** A value that Python would compute or raise on. *)
Definition lift {D A} (e : exn) (o : option A) : M D A :=
  match o with
  | Some a => ret a
  | None => raise e
  end.

(** [l[i]] *)
Definition item {D} (l : list byte) (i : nat) : M D byte :=
  lift IndexError (l !! i).

Section Calls.
Context {D : Type} `{Env D}.

(** A driver call: the call and its answer go to the trace; a fault is
    raised in the caller. *)
Definition call {A} (op : D -> reply A * D) (ev : reply A -> event) : M D A :=
  fun w =>
    let '(r, d) := op (hw w) in
    let w' := World d (trace w ++ [ev r]) in
    match r with
    | Reply a => (Ret a, w')
    | Fault => (Raise DriverError, w')
    end.

Definition pn532_read_passive_target : M D (option (list byte)) :=
  call read_passive_target Poll.

Definition pn532_ntag2xx_read_block (page : nat) : M D (option (list byte)) :=
  call (ntag2xx_read_block page) (ReadBlock page).

Definition pn532_ntag2xx_write_block (page : nat) (data : list byte) : M D bool :=
  call (ntag2xx_write_block page data) (WriteBlock page data).

(** [with open(filename, "w") as f: f.write(content)]; an exception it
    raises is part of the result, for the [except] clauses that follow. *)
Definition open_write (filename content : str) : M D file_result :=
  fun w =>
    let '(r, d) := write_file filename content (hw w) in
    (Ret r, World d (trace w ++ [WriteFile filename content r])).
End Calls.

(** ** class NTAGData *)

Module NTAGData.

Record t := Make {
  pages : gmap nat (list byte);
  uid : option (list byte);
  type : tag_type;
  size : nat;
  code : option str
}.

(** [__init__]; the attribute [code] does not exist yet. *)
Definition init : t :=
  {| pages := ∅; uid := None; type := Unknown; size := 0%nat; code := None |}.

Definition set_pages (self : t) (p : gmap nat (list byte)) : t :=
  {| pages := p; uid := uid self; type := type self; size := size self;
     code := code self |}.

Definition set_uid (self : t) (u : option (list byte)) : t :=
  {| pages := pages self; uid := u; type := type self; size := size self;
     code := code self |}.

Definition set_type (self : t) (ty : tag_type) : t :=
  {| pages := pages self; uid := uid self; type := ty; size := size self;
     code := code self |}.

Definition set_size (self : t) (n : nat) : t :=
  {| pages := pages self; uid := uid self; type := type self; size := n;
     code := code self |}.

Definition set_code (self : t) (c : str) : t :=
  {| pages := pages self; uid := uid self; type := type self;
     size := size self; code := Some c |}.

Definition add_page (self : t) (page : nat) (data : list byte) : t :=
  set_pages self (<[page := data]> (pages self)).

Definition read_page {D} (self : t) (page_number : nat)
  : M D (option (list byte)) :=
  match pages self !! page_number with
  | Some page_data => ret (Some page_data)
  | None => print (MsgPageNotFound page_number) ;;; ret None
  end.

End NTAGData.

(** ** The functions of the module *)

(** [bytes.hex()] *)
Definition hex (l : list byte) : str := concat (fmt_02x <$> l).

Definition hex_value (c : Z) : option Z :=
  if (48 <=? c) && (c <=? 57) then Some (c - 48)
  else if (97 <=? c) && (c <=? 102) then Some (c - 87)
  else if (65 <=? c) && (c <=? 70) then Some (c - 55)
  else None.

(** [[int(hex_data[i:i+2], 16) for i in range(0, len(hex_data), 2)]];
    [None] where [int] raises. *)
Fixpoint int_pairs (hex_data : str) : option (list byte) :=
  match hex_data with
  | [] => Some []
  | [c] => (fun v => [byte_of_Z v]) <$> hex_value c
  | c1 :: c2 :: rest =>
      match hex_value c1, hex_value c2, int_pairs rest with
      | Some v1, Some v2, Some r => Some (byte_of_Z (16 * v1 + v2) :: r)
      | _, _, _ => None
      end
  end.

(** The successive slices [l[i:i+4]] for [i in range(0, len(l), 4)]. *)
Fixpoint chunks4 {A} (l : list A) : list (list A) :=
  match l with
  | [] => []
  | a :: b :: c :: d :: rest => [a; b; c; d] :: chunks4 rest
  | short => [short]
  end.

(** The Python type of a byte image: the [list] that [create_byte_array]
    builds, or the [bytearray] that [get_all_bytes] returns. *)
Inductive seq_type := PyList | PyBytearray.

#[global] Instance seq_type_eq_decision : EqDecision seq_type.
Proof. solve_decision. Defined.

(** [chunk + [0] * (4 - len(chunk))] *)
Definition zero_padded (chunk : list byte) : list byte :=
  chunk ++ list_mul [x00] (4 - Z.of_nat (length chunk)).

(** [if len(chunk) < 4: chunk += [0] * (4 - len(chunk))]: a chunk of a
    list is extended with zeros; a chunk of a [bytearray] does not take a
    list, and [+=] raises [TypeError] ([None]). *)
Definition pad4 (kind : seq_type) (chunk : list byte) : option (list byte) :=
  if bool_decide (length chunk < 4)%nat then
    match kind with
    | PyList => Some (zero_padded chunk)
    | PyBytearray => None
    end
  else Some chunk.

(** The chunks of an image as the loop of [save_raw] and of [save_flipper]
    leaves them, [None] when padding raises. *)
Definition padded_chunks (kind : seq_type) (byte_array : list byte)
  : option (list (list byte)) :=
  mapM (pad4 kind) (chunks4 byte_array).

(** [chr(byte) in string.printable and byte >= 0x20] *)
Definition printable (b : byte) : bool :=
  bool_decide (byte_val b ∈ string_printable) && (0x20 <=? byte_val b).

Definition encode_faba_id (id : str) : str :=
  lit "en02190530" ++ id ++ lit "00".

Section Program.
Context {D : Type} `{Env D}.

(** The loop [while True] of [wait_for_card]. *)
Fixpoint wait_loop (fuel : nat) : M D (list byte) :=
  match fuel with
  | O => out_of_fuel
  | S fuel' =>
      uid <- pn532_read_passive_target ;;
      match uid with
      | Some (b :: l) => logging Info (MsgUID (b :: l)) ;;; ret (b :: l)
      | _ => wait_loop fuel'
      end
  end.

Definition wait_for_card (fuel : nat) : M D (list byte) :=
  logging Info MsgWaiting ;;;
  wait_loop fuel.

Definition read_page (page : nat) : M D (option (list byte)) :=
  try_except (pn532_ntag2xx_read_block page)
    (fun e => logging Warning (MsgErrorReadingPage page) ;;; ret None).

(** The loop [while True] of [detect_card]: the store filled so far and
    the index of the first page that could not be read. *)
Fixpoint read_all_pages (fuel : nat) (page : nat) (ntag : NTAGData.t)
  : M D (NTAGData.t * nat) :=
  match fuel with
  | O => out_of_fuel
  | S fuel' =>
      data <- read_page page ;;
      match data with
      | Some (b :: l) =>
          read_all_pages fuel' (page + 1) (NTAGData.add_page ntag page (b :: l))
      | _ => ret (ntag, page)
      end
  end.

(** The branches on [cc_byte] of [detect_card]: the type and the value
    [page] has after them. *)
Definition verify_cc (cc_byte : byte) (page : nat) : tag_type * nat :=
  if bool_decide (cc_byte = x12) then
    if bool_decide (page = 42%nat) then (NTAG203, page)
    else if bool_decide (page = 45%nat) then (NTAG213, page)
    else (NTAG213, 45%nat)
  else if bool_decide (cc_byte = x3e) then
    if bool_decide (page = 135%nat) then (NTAG215, page)
    else (NTAG215, 135%nat)
  else if bool_decide (cc_byte = x6d) then
    if bool_decide (page = 231%nat) then (NTAG216, page)
    else (NTAG216, 231%nat)
  else (Unknown, page).

Definition detect_card (fuel : nat) (ntag : NTAGData.t)
  : M D (NTAGData.t * bool) :=
  uid <- wait_for_card fuel ;;
  let ntag := NTAGData.set_uid ntag (Some uid) in
  r <- read_all_pages fuel 0 ntag ;;
  let '(ntag, page) := r in
  page3 <- NTAGData.read_page ntag 3 ;;
  cc_byte <- match page3 with
             | None => raise TypeError
             | Some p => item p 2
             end ;;
  let '(ty, page) := verify_cc cc_byte page in
  let ntag := NTAGData.set_size (NTAGData.set_type ntag ty) page in
  logging Info (MsgType ty cc_byte) ;;;
  logging Info (MsgPages page) ;;;
  ret (ntag, true).

(** The loop [for byte in page_data] of [parse_text]. *)
Fixpoint take_payload (page_data full_payload : list byte)
    (remaining_bytes : Z) : list byte * Z :=
  match page_data with
  | [] => (full_payload, remaining_bytes)
  | b :: rest =>
      if bool_decide (remaining_bytes = 0) || bool_decide (b = xfe)
      then (full_payload, remaining_bytes)
      else take_payload rest (full_payload ++ [b]) (remaining_bytes - 1)
  end.

(** The loop [while remaining_bytes > 0] of [parse_text].  Every turn
    that does not leave the loop finds one more page in the store, so
    one unit of fuel per stored page and one more are enough. *)
Fixpoint read_payload (fuel : nat) (ntag : NTAGData.t)
    (full_payload : list byte) (next_page : nat) (remaining_bytes : Z)
  : M D (list byte) :=
  match fuel with
  | O => out_of_fuel
  | S fuel' =>
      if 0 <? remaining_bytes then
        page_data <- NTAGData.read_page ntag next_page ;;
        match page_data with
        | None => ret full_payload
        | Some page_data =>
            let '(full_payload, remaining_bytes) :=
              take_payload page_data full_payload remaining_bytes in
            read_payload fuel' ntag full_payload (next_page + 1) remaining_bytes
        end
      else ret full_payload
  end.

Definition parse_text (ntag : NTAGData.t) : M D NTAGData.t :=
  page6 <- NTAGData.read_page ntag 6 ;;
  match page6 with
  | None => logging Error MsgFailedToReadPage6 ;;; ret ntag
  | Some page6 =>
      ndef_header <- item page6 0 ;;
      payload_length <- item page6 1 ;;
      type_field <- item page6 2 ;;
      status_byte <- item page6 3 ;;
      (if bool_decide (type_field ≠ x54)
       then logging Info (MsgNoTextRecord type_field)
       else ret tt) ;;;
      let lang_length := Z.land (byte_val status_byte) 0x3F in
      let encoding :=
        if bool_decide (Z.land (byte_val status_byte) 0x80 ≠ 0)
        then UTF16 else UTF8 in
      full_payload <-
        read_payload (S (size (NTAGData.pages ntag))) ntag [] 7
          (byte_val payload_length) ;;
      if Z.of_nat (length full_payload) <? lang_length then
        logging Error MsgInsufficientData ;;; ret ntag
      else
        lang_code <- lift UnicodeDecodeError
          (ascii_decode (take (Z.to_nat lang_length) full_payload)) ;;
        text_content <- lift UnicodeDecodeError
          (decode encoding (drop (Z.to_nat lang_length) full_payload)) ;;
        if startswith text_content (lit "02190530")
           && (12 <=? Z.of_nat (length text_content))
        then
          let extracted_id := slice text_content 8 12 in
          let ntag := NTAGData.set_code ntag extracted_id in
          logging Info (MsgFabaID extracted_id) ;;; ret ntag
        else logging Info MsgNoValidFabaID ;;; ret ntag
  end.

Definition size_to_mlen : gmap nat byte :=
  <[42%nat := x6d]> (<[45%nat := xa0]> (<[135%nat := xe0]> (<[231%nat := xfa]> ∅))).

(** The two loops of [create_byte_array] that copy pages of the store,
    an absent page or one that is not four bytes long being replaced by
    zeros. *)
Fixpoint copy_pages (ntag : NTAGData.t) (indices : list nat)
    (acc : list byte) : M D (list byte) :=
  match indices with
  | [] => ret acc
  | i :: rest =>
      page <- NTAGData.read_page ntag i ;;
      match page with
      | Some p =>
          if bool_decide (length p = 4%nat)
          then copy_pages ntag rest (acc ++ p)
          else copy_pages ntag rest (acc ++ list_mul [x00] 4)
      | None => copy_pages ntag rest (acc ++ list_mul [x00] 4)
      end
  end.

Definition create_byte_array (input_str : str) (ntag : NTAGData.t)
  : M D (list byte) :=
  let mlen := default xa0 (size_to_mlen !! NTAGData.size ntag) in
  let page04 := [x01; x03; mlen; x0c] in
  let page05 := [x34; x03; x15; xd1] in
  let page06 := [x01; x11; x54; x02] in
  let page11 := [xfe; x00; x00; x00] in
  pages0_3 <- copy_pages ntag (seq 0 4) [] ;;
  pages7_10 <-
    match input_str with
    | _ :: _ =>
        encoded <- lift UnicodeEncodeError (utf8_encode input_str) ;;
        let hex_data := hex encoded in
        lift ValueError (int_pairs hex_data)
    | [] => copy_pages ntag (seq 7 4) []
    end ;;
  let last5 := [x00; x00; x00; xbd;
                x04; x00; x00; xff;
                x00; x00; x00; x00;
                x00; x00; x00; x00;
                x00; x00; x00; x00] in
  ret (pages0_3 ++ page04 ++ page05 ++ page06 ++ pages7_10 ++ page11
       ++ list_mul (list_mul [x00] (Z.of_nat (NTAGData.size ntag) - 17)) 4
       ++ last5).

(** The loop of [write_blocks]; [return False] inside it ends the
    function. *)
Fixpoint write_loop (byte_array : list byte) (blocks : list nat) : M D bool :=
  match blocks with
  | [] => ret true
  | block_num :: rest =>
      let start_idx := (block_num * 4)%nat in
      let end_idx := (start_idx + 4)%nat in
      let block_data := slice byte_array start_idx end_idx in
      returned <-
        try_except
          (wr <- pn532_ntag2xx_write_block block_num block_data ;;
           if bool_decide (wr = false)
           then logging Error (MsgFailedWritingPage block_num) ;;; ret (Some false)
           else ret None)
          (fun e => logging Error (MsgErrorWritingPage block_num) ;;; ret (Some false)) ;;
      match returned with
      | Some b => ret b
      | None => write_loop byte_array rest
      end
  end.

Definition write_blocks (byte_array : list byte) (start end_ : nat)
    (ntag : NTAGData.t) : M D bool :=
  uid <- pn532_read_passive_target ;;
  if bool_decide (uid = NTAGData.uid ntag)
  then write_loop byte_array (seq start (end_ + 1 - start))
  else logging Error MsgUidNotMatching ;;; ret false.

(** The loop of [verify_blocks]. *)
Fixpoint verify_loop (byte_array : list byte) (blocks : list nat) : M D bool :=
  match blocks with
  | [] => ret true
  | block_num :: rest =>
      let start_idx := (block_num * 4)%nat in
      let end_idx := (start_idx + 4)%nat in
      let expected_data := slice byte_array start_idx end_idx in
      read_data <- read_page block_num ;;
      match read_data with
      | None => logging Error (MsgFailedToReadPage block_num) ;;; ret false
      | Some read_data =>
          let expected_hex := str_join (lit " ") (fmt_02X <$> expected_data) in
          let read_hex := str_join (lit " ") (fmt_02X <$> read_data) in
          if bool_decide (expected_hex ≠ read_hex)
          then logging Error (MsgMismatch block_num expected_hex read_hex) ;;;
               ret false
          else verify_loop byte_array rest
      end
  end.

Definition verify_blocks (byte_array : list byte) (start end_ : nat)
  : M D bool :=
  verify_loop byte_array (seq start (end_ + 1 - start)).

(** The three serializers; each ends the name with its own extension.
    [save] is what follows the computation of the content in each of them:
    the file is opened and written, and the outcome is logged by the
    [try] of the serializer, an [OSError] and any other exception each
    by its own [except] clause; none of them is raised again. *)
Definition save (filename content : str) : M D bool :=
  r <- open_write filename content ;;
  match r with
  | Written => logging Info (MsgSaved filename) ;;; ret true
  | OSError => logging Error (MsgFailedToWriteFile filename) ;;; ret false
  | OtherError => logging Error MsgUnexpectedError ;;; ret false
  end.

(** [except Exception as e: logging.error(f"Unexpected error: {e}")], then
    [return False]. *)
Definition unexpected (e : exn) : M D bool :=
  logging Error MsgUnexpectedError ;;; ret false.

Definition save_raw (kind : seq_type) (byte_array : list byte) (filename : str)
  : M D bool :=
  let filename := filename ++ lit ".raw" in
  try_except
    (chunks <- lift TypeError (padded_chunks kind byte_array) ;;
     let lines := (fun chunk => concat (fmt_02X <$> chunk)) <$> chunks in
     save filename (str_join [10] lines))
    unexpected.

Definition save_ndef (byte_array : list byte) (filename : str) : M D bool :=
  let ndef_bytes := slice byte_array 23 44 in
  let hex_string := concat (fmt_02x <$> ndef_bytes) in
  let filename := filename ++ lit ".ndef" in
  save filename (lit "<NdefMessage>" ++ hex_string ++ lit "</NdefMessage>").

(** Iterating [ntag.uid] when it is [None] raises [TypeError] inside the
    [try], as padding a chunk of a [bytearray] does. *)
Definition save_flipper (kind : seq_type) (byte_array : list byte)
    (ntag : NTAGData.t) (filename : str) : M D bool :=
  let filename := filename ++ lit ".nfc" in
  try_except
    (uid <- lift TypeError (NTAGData.uid ntag) ;;
     let lines :=
       [ lit "Filetype: Flipper NFC device";
         lit "Version: 4";
         lit "# Device type can be ISO14443-3A, ISO14443-3B, ISO14443-4A, ISO14443-4B, ISO15693-3, FeliCa, NTAG/Ultralight, Mifare Classic, Mifare Plus, Mifare DESFire, SLIX, ST25TB, EMV";
         lit "Device type: NTAG/Ultralight";
         lit "# UID is common for all formats";
         lit "UID: " ++ str_join (lit " ") (fmt_02X <$> uid);
         lit "# ISO14443-3A specific data";
         lit "ATQA: 00 44";
         lit "SAK: 00";
         lit "# NTAG/Ultralight specific data";
         lit "Data format version: 2";
         lit "NTAG/Ultralight type: " ++ type_name (NTAGData.type ntag);
         lit "Signature:" ++ list_mul (lit " 00") 32;
         lit "Mifare version: 00 53 04 02 01 00 0F 03";
         lit "Counter 0: 0";
         lit "Tearing 0: 00";
         lit "Counter 1: 0";
         lit "Tearing 1: 00";
         lit "Counter 2: 0";
         lit "Tearing 2: 00";
         lit "Pages total: " ++ lit (pretty (NTAGData.size ntag));
         lit "Pages read: " ++ lit (pretty (NTAGData.size ntag)) ] in
     chunks <- lift TypeError (padded_chunks kind byte_array) ;;
     let lines :=
       lines
       ++ imap (fun i chunk =>
                  lit "Page " ++ lit (pretty i) ++ lit ": "
                  ++ str_join (lit " ") (fmt_02X <$> chunk))
               chunks
       ++ [ lit "Failed authentication attempts: 0" ] in
     save filename (str_join [10] lines))
    unexpected.

(** [kind] is the Python type of [byte_array]: a list in [write_ntag] and
    [crete_ntag], a [bytearray] where [main] dumps
    [ntag.get_all_bytes()]. *)
Definition dump_ntag (kind : seq_type) (byte_array : list byte)
    (ntag : NTAGData.t) : M D unit :=
  if 43 <? Z.of_nat (length byte_array) then
    let filename_bytes := slice byte_array 38 42 in
    let filename :=
      concat ((fun b => if printable b then [byte_val b] else [])
                <$> filename_bytes) in
    filename <-
      (if bool_decide (filename = [])
       then uid <- lift TypeError (NTAGData.uid ntag) ;;
            ret (concat (fmt_02X <$> uid))
       else ret filename) ;;
    logging Info MsgSavingFiles ;;;
    save_raw kind byte_array filename ;;;
    save_ndef byte_array filename ;;;
    save_flipper kind byte_array ntag filename ;;;
    ret tt
  else ret tt.

Definition read_ntag (ntag : NTAGData.t) : M D NTAGData.t := parse_text ntag.

Definition write_ntag (id : str) (ntag : NTAGData.t) : M D unit :=
  uid <- lift TypeError (NTAGData.uid ntag) ;;
  logging Info (MsgWritingTag uid) ;;;
  logging Info (MsgFabaID id) ;;;
  let text := encode_faba_id id in
  byte_array <- create_byte_array text ntag ;;
  written <- write_blocks byte_array 4 11 ntag ;;
  if written then
    verified <- verify_blocks byte_array 4 11 ;;
    if verified then
      logging Info MsgSuccessfullyWritten ;;;
      dump_ntag PyList byte_array ntag
    else ret tt
  else ret tt.

End Program.

(** ** Reading a trace *)

Definition written_pages (tr : list event) : list nat :=
  omap (fun e => match e with WriteBlock p _ _ => Some p | _ => None end) tr.

Definition read_back_pages (tr : list event) : list nat :=
  omap (fun e => match e with ReadBlock p _ => Some p | _ => None end) tr.

Definition saved_files (tr : list event) : list str :=
  omap (fun e => match e with WriteFile f _ _ => Some f | _ => None end) tr.

(** The record a serializer logs once [open_write] has answered. *)
Definition outcome_record (filename : str) (r : file_result) : event :=
  match r with
  | Written => Log Info (MsgSaved filename)
  | OSError => Log Error (MsgFailedToWriteFile filename)
  | OtherError => Log Error MsgUnexpectedError
  end.

(** The image is a list, or it ends with a complete page: the condition
    under which the padding step of the serializers does not raise. *)
Definition pads (kind : seq_type) (byte_array : list byte) : Prop :=
  kind = PyList \/ (length byte_array mod 4 = 0)%nat.

Definition is_read (e : event) : Prop :=
  match e with ReadBlock _ _ => True | _ => False end.

(** An event that is not a page write. *)
Definition quiet (e : event) : Prop :=
  match e with WriteBlock _ _ _ => False | _ => True end.

(** The events a run of [m] adds to the trace form a list in [L]. *)
Definition produces {D A} (L : list event -> Prop) (m : M D A) : Prop :=
  forall w r w', m w = (r, w') -> exists tr, trace w' = trace w ++ tr /\ L tr.

(** Every event that [m] adds to the trace satisfies [P]. *)
Definition emits {D A} (P : event -> Prop) (m : M D A) : Prop :=
  produces (Forall P) m.

(** The trace of reading back [blocks] and finding in each the bytes of
    [byte_array]. *)
Definition ok_reads (byte_array : list byte) (blocks : list nat) : list event :=
  (fun p => ReadBlock p (Reply (Some (slice byte_array (p * 4) (p * 4 + 4)))))
    <$> blocks.

(** ** A byte image as a page store *)

(** The pages of an image put into the store one after the other, as the
    detection pass does with the pages it reads. *)
Fixpoint load_pages (page : nat) (chunks : list (list byte))
    (ntag : NTAGData.t) : NTAGData.t :=
  match chunks with
  | [] => ntag
  | data :: rest => load_pages (page + 1) rest (NTAGData.add_page ntag page data)
  end.

Definition load_image (image : list byte) (ntag : NTAGData.t) : NTAGData.t :=
  load_pages 0 (chunks4 image) (NTAGData.set_pages ntag ∅).

(** ** A simulated reader *)

(** A tag that stays in the field: its UID, its memory as a list of pages,
    and a disk that accepts every file.  A page beyond the memory is
    neither read nor written. *)
Record sim := Sim { sim_uid : list byte; sim_mem : list (list byte) }.

#[global] Instance sim_env : Env sim := {
  read_passive_target d := (Reply (Some (sim_uid d)), d);
  ntag2xx_read_block page d := (Reply (sim_mem d !! page), d);
  ntag2xx_write_block page data d :=
    if bool_decide (page < length (sim_mem d))%nat
    then (Reply true, Sim (sim_uid d) (<[page := data]> (sim_mem d)))
    else (Reply false, d);
  write_file _ _ d := (Written, d)
}.

Definition sim_world (uid : list byte) (mem : list (list byte)) : world sim :=
  World (Sim uid mem) [].

Definition uid_a : list byte := [x04; x74; x2f; xf1; x78; x00; x00].
Definition uid_b : list byte := [x04; x11; x22; x33; x44; x55; x66].

(** Memory of [n] pages: a Capability Container with byte [cc] in page 3,
    zeros elsewhere. *)
Definition blank_mem (cc : byte) (n : nat) : list (list byte) :=
  <[3%nat := [xe1; x10; cc; x00]]> (replicate n [x00; x00; x00; x00]).

(** ** Example tags and images *)

(** A clone that answers 100 page reads and announces an NTAG215. *)
Definition tag_215_clone : world sim := sim_world uid_a (blank_mem x3e 100).

(** A tag of which only pages 0 and 1 can be read. *)
Definition tag_two_pages : world sim :=
  sim_world uid_a [[x04; x74; x2f; xd7]; [xf1; x78; x00; x00]].

(** An NTAG213, and the store a detection pass fills from it. *)
Definition tag_213 : world sim := sim_world uid_a (blank_mem x12 45).

Definition detected_213 : NTAGData.t :=
  match detect_card 46 NTAGData.init tag_213 with
  | (Ret (ntag, _), _) => ntag
  | _ => NTAGData.init
  end.

(** A tag of 16 pages whose capability byte, [0x06], is none of the three
    known ones, and the store a detection pass fills from it. *)
Definition tag_16_pages : world sim := sim_world uid_a (blank_mem x06 16).

Definition detected_16 : NTAGData.t :=
  match detect_card 17 NTAGData.init tag_16_pages with
  | (Ret (ntag, _), _) => ntag
  | _ => NTAGData.init
  end.

(** Another tag put on the reader in place of [tag_213]. *)
Definition tag_other : world sim := sim_world uid_b (blank_mem x12 45).

(** An image whose page 8 is [11 22 33 44], and a tag that holds
    [11 22 33 00] there. *)
Definition verify_image : list byte :=
  list_mul [x00] 32 ++ [x11; x22; x33; x44] ++ list_mul [x00] 12.

Definition tag_bad_page_8 : world sim :=
  sim_world uid_a
    (replicate 8 [x00; x00; x00; x00] ++ [[x11; x22; x33; x00]]
     ++ replicate 3 [x00; x00; x00; x00]).


(** Pages 6 to 12 as [write_ntag] leaves them for the identifier 1234,
    followed by a page 12 that holds [41 42 43 44]. *)
Definition ntag_terminated : NTAGData.t :=
  NTAGData.set_pages NTAGData.init
    (<[6%nat := [x01; x11; x54; x02]]>
       (<[7%nat := [x65; x6e; x30; x32]]>
          (<[8%nat := [x31; x39; x30; x35]]>
             (<[9%nat := [x33; x30; x31; x32]]>
                (<[10%nat := [x33; x34; x30; x30]]>
                   (<[11%nat := [xfe; x00; x00; x00]]>
                      (<[12%nat := [x41; x42; x43; x44]]> ∅))))))).

(** An image of 48 bytes whose bytes 38 to 41 are [31 00 32 33], and one
    of 43 bytes. *)
Definition image_mixed : list byte :=
  list_mul [x00] 38 ++ [x31; x00; x32; x33] ++ list_mul [x00] 6.


(** The first 46 bytes of [image_mixed]: the last page has two bytes. *)
Definition image_ragged : list byte := take 46 image_mixed.


(** Four Arabic-Indic digits; the pattern [\d{4}] of the command line
    accepts them. *)
Definition id_arabic_indic : str := [0x661; 0x662; 0x663; 0x664].


(** ** The rest of the module: dumping the store, erasing, creating a file *)

(** [sorted(self.pages)]: the indices of the store in ascending order. *)
Definition sorted_pages (pages : gmap nat (list byte)) : list nat :=
  merge_sort le (map_to_list pages).*1.

(** [NTAGData.get_all_bytes] *)
Definition get_all_bytes (self : NTAGData.t) : list byte :=
  concat ((fun page => default [] (NTAGData.pages self !! page))
            <$> sorted_pages (NTAGData.pages self)).

(** The records that [erase_ntag] and [crete_ntag] log are not among the
    constructors of [message]: they go, with their text, to the console,
    which is one more part of the state outside the program. *)
Class Console (D : Type) := {
  console_log : level -> str -> D -> D
}.

Definition logging_text {D} `{Console D} (l : level) (text : str) : M D unit :=
  fun w => (Ret tt, World (console_log l text (hw w)) (trace w)).

(** The image that [erase_ntag] builds. *)
Definition erase_image (ntag : NTAGData.t) : list byte :=
  let '(page04, page05) :=
    match NTAGData.type ntag with
    | NTAG203 | NTAG213 => ([x01; x03; xa0; x0c], [x34; x03; x00; xfe])
    | NTAG215 | NTAG216 => ([x03; x00; xfe; x00], [x00; x00; x00; x00])
    | Unknown => ([x00; x00; x00; x00], [x00; x00; x00; x00])
    end in
  let last5 := [x00; x00; x00; xbd;
                x04; x00; x00; xff;
                x00; x00; x00; x00;
                x00; x00; x00; x00;
                x00; x00; x00; x00] in
  list_mul [x00] 16 ++ page04 ++ page05
  ++ list_mul (list_mul [x00] (Z.of_nat (NTAGData.size ntag) - 11)) 4 ++ last5.

(** The table [ntag_specs] of [crete_ntag]: for each name, the type it
    stands for, [capc], [mlen] and [ntag_size]. *)
Definition ntag_specs : list (str * (tag_type * byte * byte * nat)) :=
  [ (lit "NTAG203", (NTAG203, x12, x6d, 42%nat));
    (lit "NTAG213", (NTAG213, x12, xa0, 45%nat));
    (lit "NTAG215", (NTAG215, x3e, xe0, 135%nat));
    (lit "NTAG216", (NTAG216, x6d, xfa, 231%nat)) ].

(** [ntag_specs[type]], [None] when [type not in ntag_specs]. *)
Definition ntag_spec (type : str) : option (tag_type * byte * byte * nat) :=
  (fun found => found.2.2) <$> list_find (fun entry => entry.1 = type) ntag_specs.

(** [a ^ b] on bytes. *)
Definition byte_xor (a b : byte) : byte :=
  byte_of_Z (Z.lxor (byte_val a) (byte_val b)).

Section Program2.
Context {D : Type} `{Env D} `{Console D}.

(** [ntag.size - 1] is taken in [nat]: for a size of 0 Python passes -1 and
    the model 0, and both make [range(4, end + 1)] empty. *)
Definition erase_ntag (ntag : NTAGData.t) : M D unit :=
  logging_text Info (lit "Erasing NTAG") ;;;
  uid <- lift TypeError (NTAGData.uid ntag) ;;
  logging_text Info (lit "  UID :   " ++ str_join (lit " ") (fmt_02X <$> uid)) ;;;
  logging_text Info (lit "  Type:   " ++ type_name (NTAGData.type ntag)) ;;;
  let erase := erase_image ntag in
  written <- write_blocks erase 4 (NTAGData.size ntag - 1) ntag ;;
  if written then
    verified <- verify_blocks erase 4 (NTAGData.size ntag - 1) ;;
    if verified then logging_text Info (lit "NTAG successfully erased")
    else ret tt
  else ret tt.

(** [ntag.type = type] stores the name, which at that point is one of the
    four keys of the table: the model stores the type of that name. *)
Definition crete_ntag (uid : list byte) (type : str) (id : str) : M D unit :=
  logging_text Info (lit "  UID:    " ++ str_join (lit " ") (fmt_02X <$> uid)) ;;;
  logging_text Info (lit "  Type:   " ++ type) ;;;
  logging_text Info (lit "  FabaID: " ++ id) ;;;
  match uid with
  | [u0; u1; u2; u3; u4; u5; u6] =>
      let CT := x88 in
      let bcc0 := byte_xor (byte_xor (byte_xor CT u0) u1) u2 in
      let bcc1 := byte_xor (byte_xor (byte_xor u3 u4) u5) u6 in
      let page00 := [u0; u1; u2; bcc0] in
      let page01 := [u3; u4; u5; u6] in
      let page02 := [bcc1; x48; x00; x00] in
      match ntag_spec type with
      | None => raise ValueError
      | Some (ty, capc, mlen, ntag_size) =>
          let page03 := [xe1; x10; capc; x00] in
          let page04 := [x01; x03; mlen; x0c] in
          let ntag := NTAGData.init in
          let ntag := NTAGData.set_uid ntag (Some uid) in
          let ntag := NTAGData.set_type ntag ty in
          let ntag := NTAGData.set_size ntag ntag_size in
          let ntag := NTAGData.add_page ntag 0 page00 in
          let ntag := NTAGData.add_page ntag 1 page01 in
          let ntag := NTAGData.add_page ntag 2 page02 in
          let ntag := NTAGData.add_page ntag 3 page03 in
          let ntag := NTAGData.add_page ntag 4 page04 in
          let text := encode_faba_id id in
          byte_array <- create_byte_array text ntag ;;
          dump_ntag PyList byte_array ntag
      end
  | _ => raise ValueError
  end.

End Program2.

(** ** More ways to read a trace *)

(** The trace of writing [blocks] from [byte_array], every write
    acknowledged. *)
Definition ok_writes (byte_array : list byte) (blocks : list nat) : list event :=
  (fun p => WriteBlock p (slice byte_array (p * 4) (p * 4 + 4)) (Reply true))
    <$> blocks.

(** A log record or a line on the standard output. *)
Definition is_console (e : event) : Prop :=
  match e with Log _ _ | Stdout _ => True | _ => False end.

(** An event that is not the writing of a file. *)
Definition no_file (e : event) : Prop :=
  match e with WriteFile _ _ _ => False | _ => True end.

(** ** A simulated reader with a console *)

Record sim_c := SimC { sim_base : sim; sim_console : list (level * str) }.

#[global] Instance sim_c_env : Env sim_c := {
  read_passive_target d :=
    let '(r, b) := read_passive_target (sim_base d) in (r, SimC b (sim_console d));
  ntag2xx_read_block page d :=
    let '(r, b) := ntag2xx_read_block page (sim_base d) in
    (r, SimC b (sim_console d));
  ntag2xx_write_block page data d :=
    let '(r, b) := ntag2xx_write_block page data (sim_base d) in
    (r, SimC b (sim_console d));
  write_file f c d :=
    let '(r, b) := write_file f c (sim_base d) in (r, SimC b (sim_console d))
}.

#[global] Instance sim_c_console : Console sim_c := {
  console_log l text d := SimC (sim_base d) (sim_console d ++ [(l, text)])
}.

Definition sim_c_world (uid : list byte) (mem : list (list byte)) : world sim_c :=
  World (SimC (Sim uid mem) []) [].

(** ** Reading a run, and more example tags *)

(** An event that does not involve the reader. *)
Definition off_tag (e : event) : Prop :=
  match e with Log _ _ | Stdout _ | WriteFile _ _ _ => True | _ => False end.

(** [m] leaves the state of the reader and of the disk as it finds it. *)
Definition offline {D A} (m : M D A) : Prop :=
  forall w r w', m w = (r, w') -> hw w' = hw w.

(** A reader of eight pages: pages 8 and above are not acknowledged. *)
Definition tag_8_pages : world sim := sim_world uid_a (blank_mem x12 8).

(** [Q] holds of every value that [m] returns. *)
Definition returns {D A} (Q : A -> Prop) (m : M D A) : Prop :=
  forall w a w', m w = (Ret a, w') -> Q a.

(** A poll of the field or a log record. *)
Definition polling (e : event) : Prop :=
  match e with Poll _ | Log _ _ => True | _ => False end.

(** What the polls of a trace reported, in order. *)
Definition polled (tr : list event) : list (reply (option (list byte))) :=
  omap (fun e => match e with Poll r => Some r | _ => None end) tr.

(** The trace of reading the pages [page], [page + 1], ... and getting
    [datas] for them. *)
Definition reads_from (page : nat) (datas : list (list byte)) : list event :=
  imap (fun k data => ReadBlock (page + k) (Reply (Some data))) datas.

(** An event of the write phase: neither a page read back nor a file. *)
Definition writing (e : event) : Prop :=
  match e with ReadBlock _ _ | WriteFile _ _ _ => False | _ => True end.

(** The state of the console after the three records that [erase_ntag]
    starts with. *)
Definition erase_banner {D} `{Console D} (ntag : NTAGData.t) (uid : list byte)
    (d : D) : D :=
  console_log Info (lit "  Type:   " ++ type_name (NTAGData.type ntag))
    (console_log Info (lit "  UID :   " ++ str_join (lit " ") (fmt_02X <$> uid))
       (console_log Info (lit "Erasing NTAG") d)).

(** A tag of unknown type on which detection found four pages. *)
Definition ntag_4_pages : NTAGData.t :=
  NTAGData.set_size (NTAGData.set_uid NTAGData.init (Some uid_a)) 4.

(** The state of the console after the three records that [crete_ntag]
    starts with. *)
Definition crete_banner {D} `{Console D} (uid : list byte) (type id : str)
    (d : D) : D :=
  console_log Info (lit "  FabaID: " ++ id)
    (console_log Info (lit "  Type:   " ++ type)
       (console_log Info (lit "  UID:    " ++ str_join (lit " ") (fmt_02X <$> uid)) d)).

(** The five last pages of an image: dynamic lock bytes, configuration,
    password. *)
Definition last5 : list byte :=
  [x00; x00; x00; xbd; x04; x00; x00; xff; x00; x00; x00; x00;
   x00; x00; x00; x00; x00; x00; x00; x00].

(** A text record whose header announces a payload of one byte and a
    language code of two. *)
Definition ntag_short_header : NTAGData.t :=
  NTAGData.add_page NTAGData.init 6 [x01; x01; x54; x02].

(** The record of the identifier 1234 followed by a page 12 that starts
    with [0xE9]. *)
Definition ntag_page_12_high : NTAGData.t :=
  NTAGData.add_page ntag_terminated 12 [xe9; x00; x00; x00].

(** The tag of 16 pages and a tag of four pages on a reader with a
    console, and a console with no tag on the reader. *)
Definition tag_16_pages_c : world sim_c := sim_c_world uid_a (blank_mem x06 16).
Definition tag_4_pages_c : world sim_c := sim_c_world uid_a (blank_mem x00 4).
Definition no_tag : world sim_c := sim_c_world [] [].

(** * Properties *)

(** ** Bytes and hexadecimal text *)

Lemma byte_val_range b : 0 <= byte_val b <= 255.
Proof. unfold byte_val. pose proof (Byte.to_N_bounded b). lia. Qed.

Lemma byte_of_Z_val b : byte_of_Z (byte_val b) = b.
Proof.
  unfold byte_of_Z. pose proof (byte_val_range b).
  rewrite Z.mod_small by lia. unfold byte_val. rewrite N2Z.id, Byte.of_to_N. done.
Qed.

Lemma byte_val_of_Z z : 0 <= z < 256 -> byte_val (byte_of_Z z) = z.
Proof.
  intros Hz. unfold byte_of_Z, byte_val. rewrite Z.mod_small by lia.
  destruct (Byte.of_N (Z.to_N z)) as [b|] eqn:E; simpl.
  - apply Byte.to_of_N in E. lia.
  - apply Byte.of_N_None_iff in E. lia.
Qed.

Lemma int_pairs_fmt_02X b : int_pairs (fmt_02X b) = Some [b].
Proof. destruct b; reflexivity. Qed.

Lemma int_pairs_fmt_02x b rest : int_pairs (fmt_02x b ++ rest) = cons b <$> int_pairs rest.
Proof. destruct b; simpl; destruct (int_pairs rest); reflexivity. Qed.

Lemma int_pairs_hex l : int_pairs (hex l) = Some l.
Proof.
  induction l as [|b l IH]; [done|].
  change (hex (b :: l)) with (fmt_02x b ++ hex l).
  rewrite int_pairs_fmt_02x, IH. done.
Qed.

Lemma fmt_02X_inj a b : fmt_02X a = fmt_02X b -> a = b.
Proof.
  intros E. pose proof (int_pairs_fmt_02X a) as Ha. rewrite E, int_pairs_fmt_02X in Ha. congruence.
Qed.

Lemma join_hex_inj (a b : list byte) :
  str_join (lit " ") (fmt_02X <$> a) = str_join (lit " ") (fmt_02X <$> b) -> a = b.
Proof.
  revert b. induction a as [|x a IH]; intros [|y b] E.
  - done.
  - exfalso. destruct b; simpl in E; discriminate.
  - exfalso. destruct a; simpl in E; discriminate.
  - destruct a as [|x' a], b as [|y' b].
    + simpl in E. f_equal. by apply fmt_02X_inj.
    + exfalso. simpl in E. discriminate.
    + exfalso. simpl in E. discriminate.
    + change (fmt_02X x ++ lit " " ++ str_join (lit " ") (fmt_02X <$> (x' :: a))
              = fmt_02X y ++ lit " " ++ str_join (lit " ") (fmt_02X <$> (y' :: b))) in E.
      assert (fmt_02X x = fmt_02X y /\ str_join (lit " ") (fmt_02X <$> (x' :: a)) = str_join (lit " ") (fmt_02X <$> (y' :: b))) as [E1 E2].
      { unfold fmt_02X in *. simpl in E. injection E as -> -> E. split; [done|]. exact E. }
      f_equal; [by apply fmt_02X_inj | by apply IH].
Qed.

(** ** Computations and their traces *)

Section Monad.
Context {D : Type}.

Lemma bind_ret_eq {A B} (m : M D A) (k : A -> M D B) w a w' :
  m w = (Ret a, w') -> bind m k w = k a w'.
Proof. intros E. unfold bind. by rewrite E. Qed.

Lemma bind_raise_eq {A B} (m : M D A) (k : A -> M D B) w e w' :
  m w = (Raise e, w') -> bind m k w = (Raise e, w').
Proof. intros E. unfold bind. by rewrite E. Qed.

End Monad.

Section Emits.
Context {D : Type} `{Env D}.
Variable P : event -> Prop.

Lemma emits_ret {A} (a : A) : emits P (ret (D:=D) a).
Proof. intros w r w' [= <- <-]. exists []. by rewrite app_nil_r. Qed.

Lemma emits_raise {A} e : emits P (raise (D:=D) (A:=A) e).
Proof. intros w r w' [= <- <-]. exists []. by rewrite app_nil_r. Qed.

Lemma emits_out_of_fuel {A} : emits P (out_of_fuel (D:=D) (A:=A)).
Proof. intros w r w' [= <- <-]. exists []. by rewrite app_nil_r. Qed.

Lemma emits_lift {A} e (o : option A) : emits P (lift (D:=D) e o).
Proof. destruct o; [apply emits_ret | apply emits_raise]. Qed.

Lemma emits_bind {A B} (m : M D A) (k : A -> M D B) :
  emits P m -> (forall a, emits P (k a)) -> emits P (bind m k).
Proof.
  intros Hm Hk w r w'' E. unfold bind in E.
  destruct (m w) as [o w'] eqn:Em.
  destruct (Hm _ _ _ Em) as (tr1 & E1 & F1).
  destruct o as [a| |].
  - destruct (Hk a _ _ _ E) as (tr2 & E2 & F2).
    exists (tr1 ++ tr2). rewrite E2, E1, app_assoc. split; [done|]. by apply Forall_app.
  - injection E as <- <-. eauto.
  - injection E as <- <-. eauto.
Qed.

Lemma emits_try_except {A} (m : M D A) (h : exn -> M D A) :
  emits P m -> (forall e, emits P (h e)) -> emits P (try_except m h).
Proof.
  intros Hm Hh w r w'' E. unfold try_except in E.
  destruct (m w) as [o w'] eqn:Em.
  destruct (Hm _ _ _ Em) as (tr1 & E1 & F1).
  destruct o as [a|e|].
  - injection E as <- <-. eauto.
  - destruct (Hh e _ _ _ E) as (tr2 & E2 & F2).
    exists (tr1 ++ tr2). rewrite E2, E1, app_assoc. split; [done|]. by apply Forall_app.
  - injection E as <- <-. eauto.
Qed.

Lemma emits_emit e : P e -> emits P (emit (D:=D) e).
Proof. intros He w r w' [= <- <-]. exists [e]. split; [done|]. by constructor. Qed.

Lemma emits_call {A} (op : D -> reply A * D) ev :
  (forall r, P (ev r)) -> emits P (call op ev).
Proof.
  intros He w r w' E. unfold call in E.
  destruct (op (hw w)) as [a d]. exists [ev a].
  split; [|by constructor]. destruct a; injection E as <- <-; done.
Qed.

Lemma emits_open_write f c :
  (forall ok, P (WriteFile f c ok)) -> emits P (open_write f c).
Proof.
  intros He w r w' E. unfold open_write in E.
  destruct (write_file f c (hw w)) as [ok d]. injection E as <- <-.
  exists [WriteFile f c ok]. split; [done|]. by constructor.
Qed.
End Emits.

Ltac emits_step :=
  match goal with
  | |- emits _ (bind _ _) => apply emits_bind; [| intros ?]
  | |- emits _ (ret _) => apply emits_ret
  | |- emits _ (raise _) => apply emits_raise
  | |- emits _ out_of_fuel => apply emits_out_of_fuel
  | |- emits _ (lift _ _) => apply emits_lift
  | |- emits _ (item _ _) => apply emits_lift
  | |- emits _ (try_except _ _) => apply emits_try_except; [| intros ?]
  | |- emits _ (logging _ _) => apply emits_emit; exact I
  | |- emits _ (print _) => apply emits_emit; exact I
  | |- emits _ (call _ _) => apply emits_call; intros ?; exact I
  | |- emits _ (open_write _ _) => apply emits_open_write; intros ?; exact I
  | |- emits _ (match ?x with _ => _ end) => destruct x
  | |- emits _ (let '(_, _) := ?x in _) => destruct x
  | |- produces (Forall ?P) ?m => change (emits P m)
  | |- emits _ _ => solve [auto with emits]
  end.

Create HintDb emits.

Ltac emits_auto := repeat emits_step.

Section Traces.
Context {D : Type} `{Env D}.

Lemma NTAGData_read_page_quiet ntag p : emits quiet (NTAGData.read_page (D:=D) ntag p).
Proof. unfold NTAGData.read_page. emits_auto. Qed.
End Traces.

#[global] Hint Resolve NTAGData_read_page_quiet : emits.

(** ** Detection *)

Section Detect.
Context {D : Type} `{Env D}.

Lemma wait_loop_mono fuel fuel' w r w' :
  wait_loop fuel w = (r, w') -> r ≠ OutOfFuel -> (fuel <= fuel')%nat ->
  wait_loop fuel' w = (r, w').
Proof.
  revert fuel' w. induction fuel as [|fuel IH]; intros fuel' w E Hr Hle.
  - injection E as <- <-. done.
  - destruct fuel' as [|fuel']; [lia|].
    simpl in *. unfold bind in *.
    destruct (pn532_read_passive_target w) as [[[[|b l]|]| |] w1]; try done;
      apply IH; auto with lia.
Qed.

Lemma wait_for_card_mono fuel fuel' w r w' :
  wait_for_card fuel w = (r, w') -> r ≠ OutOfFuel -> (fuel <= fuel')%nat ->
  wait_for_card fuel' w = (r, w').
Proof.
  unfold wait_for_card. erewrite !bind_ret_eq by reflexivity.
  apply wait_loop_mono.
Qed.

Lemma read_all_pages_mono fuel fuel' page ntag w r w' :
  read_all_pages fuel page ntag w = (r, w') -> r ≠ OutOfFuel ->
  (fuel <= fuel')%nat -> read_all_pages fuel' page ntag w = (r, w').
Proof.
  revert fuel' page ntag w. induction fuel as [|fuel IH]; intros fuel' page ntag w E Hr Hle.
  - injection E as <- <-. done.
  - destruct fuel' as [|fuel']; [lia|].
    simpl in *. unfold bind in *.
    destruct (read_page page w) as [[[[|b l]|]| |] w1]; try done;
      apply IH; auto with lia.
Qed.

(** Pages below the first index read are left as they were. *)
Lemma read_all_pages_below fuel page ntag w nt page' w' :
  read_all_pages fuel page ntag w = (Ret (nt, page'), w') ->
  (page <= page')%nat /\
  (forall k, (k < page)%nat \/ (page' <= k)%nat ->
     NTAGData.pages nt !! k = NTAGData.pages ntag !! k) /\
  (forall k, (page <= k < page')%nat -> is_Some (NTAGData.pages nt !! k)).
Proof.
  revert page ntag w. induction fuel as [|fuel IH]; intros page ntag w E.
  - discriminate.
  - simpl in E. unfold bind in E.
    destruct (read_page page w) as [[[[|b l]|]| |] w1]; try discriminate;
      try (injection E as <- <- <-; split; [lia|]; split; [done|intros; lia]).
    apply IH in E as (Hle & Hout & Hin).
    split; [lia|]. split.
    + intros k Hk. rewrite Hout by lia. simpl. apply lookup_insert_ne. lia.
    + intros k Hk. destruct (decide (k = page)) as [->|].
      * rewrite Hout by lia. simpl. rewrite lookup_insert_eq. eauto.
      * apply Hin. lia.
Qed.

(** C1.  When a card answers the poll and the sequential read stops at
    index [page] (the observed count) with a page 3 of four bytes in the
    store, [detect_card] returns, and the type and size it sets depend on
    the capability byte [cc] as follows: [0x12] gives NTAG203 with 42 pages
    when [page] is 42 and NTAG213 with 45 pages for every other [page];
    [0x3E] gives NTAG215 with 135 pages and [0x6D] gives NTAG216 with 231
    pages, whatever [page] is; any other byte gives Unknown with [page]
    pages.  More fuel gives the same result. *)
Theorem detect_card_canonical fuel ntag w uid w1 nt page w2 b0 b1 cc b3 :
  wait_for_card fuel w = (Ret uid, w1) ->
  read_all_pages fuel 0 (NTAGData.set_uid ntag (Some uid)) w1 = (Ret (nt, page), w2) ->
  NTAGData.pages nt !! 3%nat = Some [b0; b1; cc; b3] ->
  exists ty n,
    (cc = x12 -> page = 42%nat -> ty = NTAG203 /\ n = 42%nat) /\
    (cc = x12 -> page ≠ 42%nat -> ty = NTAG213 /\ n = 45%nat) /\
    (cc = x3e -> ty = NTAG215 /\ n = 135%nat) /\
    (cc = x6d -> ty = NTAG216 /\ n = 231%nat) /\
    (cc ≠ x12 -> cc ≠ x3e -> cc ≠ x6d -> ty = Unknown /\ n = page) /\
    forall fuel', (fuel <= fuel')%nat ->
      detect_card fuel' ntag w =
        (Ret (NTAGData.set_size (NTAGData.set_type nt ty) n, true),
         World (hw w2)
           (trace w2 ++ [Log Info (MsgType ty cc); Log Info (MsgPages n)])).
Proof.
  intros Hw Hr H3.
  destruct (verify_cc cc page) as [ty n] eqn:Ecc. exists ty, n.
  repeat split.
  1-10: unfold verify_cc in Ecc; intros; repeat case_bool_decide;
    simplify_eq; done.
  intros fuel' Hle. unfold detect_card.
  erewrite bind_ret_eq by (eapply wait_for_card_mono; eauto).
  erewrite bind_ret_eq by (eapply read_all_pages_mono; eauto).
  unfold NTAGData.read_page. rewrite H3.
  erewrite bind_ret_eq by reflexivity.
  erewrite bind_ret_eq by reflexivity. rewrite Ecc.
  unfold bind, logging, emit, ret. simpl. by rewrite <- app_assoc.
Qed.

(** C10.  With a store that has no page 3 when detection starts, as the
    fresh [NTAGData()] of [main]: if the sequential read stops at an index
    [page <= 3], [detect_card] prints that page 3 is not found and raises
    [TypeError] (subscripting [None]) instead of returning a type; and
    whenever [detect_card] returns, page 3 is in the store. *)
Theorem detect_card_needs_page3 fuel ntag w :
  NTAGData.pages ntag !! 3%nat = None ->
  (forall uid w1 nt page w2,
     wait_for_card fuel w = (Ret uid, w1) ->
     read_all_pages fuel 0 (NTAGData.set_uid ntag (Some uid)) w1 = (Ret (nt, page), w2) ->
     (page <= 3)%nat ->
     detect_card fuel ntag w =
       (Raise TypeError, World (hw w2) (trace w2 ++ [Stdout (MsgPageNotFound 3)]))) /\
  (forall nt b w', detect_card fuel ntag w = (Ret (nt, b), w') ->
     is_Some (NTAGData.pages nt !! 3%nat)).
Proof.
  intros Hnone. split.
  - intros uid w1 nt page w2 Hw Hr Hle. unfold detect_card.
    erewrite bind_ret_eq by eauto. erewrite bind_ret_eq by eauto.
    apply read_all_pages_below in Hr as (_ & Hout & _).
    unfold NTAGData.read_page. rewrite Hout by lia. simpl. rewrite Hnone.
    reflexivity.
  - intros nt b w' E. unfold detect_card in E. unfold bind at 1 in E.
    destruct (wait_for_card fuel w) as [[uid| |] w1]; try discriminate.
    unfold bind at 1 in E.
    destruct (read_all_pages _ _ _ w1) as [[[nt1 page]| |] w2]; try discriminate.
    unfold NTAGData.read_page in E.
    destruct (NTAGData.pages nt1 !! 3%nat) as [p3|] eqn:E3; [|discriminate].
    unfold bind at 1 in E. simpl in E. unfold bind at 1 in E.
    destruct (item p3 2 w2) as [[c| |] w3]; try discriminate.
    destruct (verify_cc c page) as [ty n]. simpl in E.
    unfold bind, logging, emit, ret in E. simpl in E. injection E as <- <- <-.
    simpl. rewrite E3. eauto.
Qed.
End Detect.

(** A clone whose capability byte is [0x3E] and that answers 100 page reads
    is an NTAG215 of 135 pages. *)
Lemma detect_card_canonical_witness :
  exists nt w',
    detect_card 101 NTAGData.init tag_215_clone = (Ret (nt, true), w') /\
    NTAGData.pages nt !! 3%nat = Some [xe1; x10; x3e; x00] /\
    NTAGData.type nt = NTAG215 /\ NTAGData.size nt = 135%nat.
Proof.
  set (w1 := World (Sim uid_a (blank_mem x3e 100))
               [Log Info MsgWaiting; Poll (Reply (Some uid_a));
                Log Info (MsgUID uid_a)]).
  assert (E1 : wait_for_card 101 tag_215_clone = (Ret uid_a, w1)) by (vm_compute; reflexivity).
  destruct (read_all_pages 101 0 (NTAGData.set_uid NTAGData.init (Some uid_a)) w1)
    as [r2 w2] eqn:E2.
  assert (exists nt, r2 = Ret (nt, 100%nat) /\
            NTAGData.pages nt !! 3%nat = Some [xe1; x10; x3e; x00]) as (nt & -> & H3).
  { vm_compute in E2. injection E2 as <- <-. eexists. split; [reflexivity|].
    vm_compute; reflexivity. }
  destruct (detect_card_canonical 101 NTAGData.init tag_215_clone uid_a w1 nt 100 w2
              xe1 x10 x3e x00 E1 E2 H3)
    as (ty & n & _ & _ & H215 & _ & _ & Hrun).
  destruct (H215 eq_refl) as [-> ->].
  eexists _, _. split; [apply (Hrun 101%nat); lia|]. split; [exact H3|]. split; reflexivity.
Defined.

(** A tag that answers two page reads: detection raises. *)
Lemma detect_card_needs_page3_witness :
  NTAGData.pages NTAGData.init !! 3%nat = None /\
  exists w', detect_card 10 NTAGData.init tag_two_pages = (Raise TypeError, w') /\
    read_back_pages (trace w') = [0; 1; 2]%nat.
Proof.
  split; [reflexivity|].
  set (w1 := World (Sim uid_a (sim_mem (hw tag_two_pages)))
               [Log Info MsgWaiting; Poll (Reply (Some uid_a));
                Log Info (MsgUID uid_a)]).
  assert (E1 : wait_for_card 10 tag_two_pages = (Ret uid_a, w1))
    by (vm_compute; reflexivity).
  destruct (read_all_pages 10 0 (NTAGData.set_uid NTAGData.init (Some uid_a)) w1)
    as [r2 w2] eqn:E2.
  assert (exists nt, r2 = Ret (nt, 2%nat) /\
            read_back_pages (trace w2) = [0; 1; 2]%nat) as (nt & -> & Htr).
  { vm_compute in E2. injection E2 as <- <-. eexists. split; reflexivity. }
  destruct (detect_card_needs_page3 10 NTAGData.init tag_two_pages eq_refl)
    as [Hraise _].
  eexists. split; [apply (Hraise uid_a w1 nt 2%nat w2 E1 E2); lia|].
  cbn [trace]. unfold read_back_pages in *. rewrite omap_app, Htr. reflexivity.
Defined.

(** ** Write and verify *)

Section WriteVerify.
Context {D : Type} `{Env D}.

Lemma read_page_run page (w : world D) :
  exists got tail,
    ntag2xx_read_block page (hw w) = (got, hw (read_page page w).2) /\
    trace (read_page page w).2 = trace w ++ ReadBlock page got :: tail /\
    (read_page page w).1 = Ret (match got with Reply o => o | Fault => None end) /\
    tail = match got with
           | Reply _ => []
           | Fault => [Log Warning (MsgErrorReadingPage page)]
           end.
Proof.
  unfold read_page, try_except, pn532_ntag2xx_read_block, call.
  destruct (ntag2xx_read_block page (hw w)) as [[o|] d]; simpl.
  - exists (Reply o), []. done.
  - exists Fault, [Log Warning (MsgErrorReadingPage page)].
    rewrite <- app_assoc. done.
Qed.

Lemma verify_loop_run byte_array blocks (w : world D) r w' :
  verify_loop byte_array blocks w = (r, w') ->
  exists k, (k <= length blocks)%nat /\
    ((r = Ret true /\ k = length blocks /\
      trace w' = trace w ++ ok_reads byte_array blocks) \/
     (r = Ret false /\ exists p got tail,
        blocks !! k = Some p /\
        trace w' = trace w ++ ok_reads byte_array (take k blocks)
                     ++ ReadBlock p got :: tail /\
        got ≠ Reply (Some (slice byte_array (p * 4) (p * 4 + 4))) /\
        Forall (fun e => ¬ is_read e) tail /\
        (forall data, got = Reply (Some data) ->
           tail = [Log Error (MsgMismatch p
                     (str_join (lit " ") (fmt_02X <$> slice byte_array (p * 4) (p * 4 + 4)))
                     (str_join (lit " ") (fmt_02X <$> data)))]))).
Proof.
  revert w. induction blocks as [|p blocks IH]; intros w E.
  - injection E as <- <-. exists 0%nat. split; [done|]. left.
    rewrite app_nil_r. done.
  - simpl in E. unfold bind at 1 in E.
    destruct (read_page_run p w) as (got & tail & _ & Htr & Hres & Htail).
    destruct (read_page p w) as [o w1]. simpl in *. subst o.
    destruct got as [[data|]|].
    + (* a page came back *)
      subst tail. case_bool_decide as Hcmp.
      * (* the hex strings differ *)
        unfold bind, logging, emit, ret in E. simpl in E. injection E as <- <-.
        exists 0%nat. split; [lia|]. right. split; [done|].
        eexists p, (Reply (Some data)), _. simpl.
        split; [done|]. split; [by rewrite Htr, <- app_assoc|].
        split; [intros [= ->]; by apply Hcmp|].
        split; [repeat constructor; simpl; tauto|].
        by intros ? [= <-].
      * apply join_hex_inj in Hcmp. subst data.
        destruct (IH _ E) as (k & Hk & Hcase). exists (S k). split; [simpl; lia|].
        destruct Hcase as [(-> & -> & Htr')|(-> & q & got & tail & Hq & Htr' & Hne & Hquiet & Hmis)].
        -- left. split; [done|]. split; [done|]. rewrite Htr', Htr, <- app_assoc. done.
        -- right. split; [done|]. exists q, got, tail. split; [done|].
           split; [|done]. rewrite Htr', Htr, <- app_assoc. done.
    + subst tail. unfold bind, logging, emit, ret in E. simpl in E. injection E as <- <-.
      exists 0%nat. split; [lia|]. right. split; [done|].
      eexists p, (Reply None), _. simpl.
      split; [done|]. split; [by rewrite Htr, <- app_assoc|].
      split; [done|]. split; [repeat constructor; simpl; tauto|]. done.
    + subst tail. unfold bind, logging, emit, ret in E. simpl in E. injection E as <- <-.
      exists 0%nat. split; [lia|]. right. split; [done|].
      eexists p, Fault, _. simpl.
      split; [done|]. split; [by rewrite Htr, <- !app_assoc|].
      split; [done|]. split; [repeat constructor; simpl; tauto|]. done.
Qed.
End WriteVerify.

(** ** What the write path sends to the tag *)

Lemma written_pages_app t1 t2 :
  written_pages (t1 ++ t2) = written_pages t1 ++ written_pages t2.
Proof. apply omap_app. Qed.

Lemma written_pages_quiet tr : Forall quiet tr -> written_pages tr = [].
Proof.
  induction 1 as [|e tr He _ IH]; [done|].
  destruct e; simpl in *; done.
Qed.

Section Protocol.
Context {D : Type} `{Env D}.

Lemma produces_bind {A B} (L1 L2 L : list event -> Prop) (m : M D A) (k : A -> M D B) :
  produces L1 m -> (forall a, produces L2 (k a)) ->
  (forall t1, L1 t1 -> L t1) ->
  (forall t1 t2, L1 t1 -> L2 t2 -> L (t1 ++ t2)) ->
  produces L (bind m k).
Proof.
  intros Hm Hk Hstop Hcat w r w'' E. unfold bind in E.
  destruct (m w) as [o w'] eqn:Em.
  destruct (Hm _ _ _ Em) as (tr1 & E1 & F1).
  destruct o as [a| |].
  - destruct (Hk a _ _ _ E) as (tr2 & E2 & F2).
    exists (tr1 ++ tr2). rewrite E2, E1, app_assoc. auto.
  - injection E as <- <-. eauto.
  - injection E as <- <-. eauto.
Qed.

Lemma copy_pages_quiet ntag indices acc :
  emits quiet (copy_pages (D:=D) ntag indices acc).
Proof.
  revert acc. induction indices as [|i rest IH]; intros acc; simpl.
  - emits_auto.
  - emits_auto; apply IH.
Qed.

Lemma create_byte_array_quiet input_str ntag :
  emits quiet (create_byte_array (D:=D) input_str ntag).
Proof.
  unfold create_byte_array. emits_step; [apply copy_pages_quiet|].
  emits_step; [|emits_auto].
  destruct input_str; [apply copy_pages_quiet|]. emits_auto.
Qed.

Lemma read_page_quiet page : emits quiet (read_page (D:=D) page).
Proof. unfold read_page, pn532_ntag2xx_read_block. emits_auto. Qed.

Lemma verify_loop_quiet byte_array blocks :
  emits quiet (verify_loop (D:=D) byte_array blocks).
Proof.
  induction blocks as [|p rest IH]; simpl; [emits_auto|].
  emits_step; [apply read_page_quiet|].
  emits_step; [|emits_auto]. case_bool_decide; [emits_auto|apply IH].
Qed.

Lemma save_quiet filename content : emits quiet (save (D:=D) filename content).
Proof. unfold save. emits_auto. Qed.

Lemma dump_ntag_quiet kind byte_array ntag :
  emits quiet (dump_ntag (D:=D) kind byte_array ntag).
Proof.
  unfold dump_ntag, save_raw, save_ndef, save_flipper, unexpected.
  case_match; [|emits_auto].
  emits_step; [case_bool_decide; emits_auto|].
  emits_auto; apply save_quiet.
Qed.

Lemma write_loop_pages byte_array blocks :
  produces (fun tr => written_pages tr `prefix_of` blocks)
    (write_loop (D:=D) byte_array blocks).
Proof.
  induction blocks as [|p rest IH]; intros w r w' E.
  - injection E as <- <-. exists []. rewrite app_nil_r. split; [done|apply prefix_nil].
  - simpl in E.
    unfold bind at 1, try_except, bind at 1, pn532_ntag2xx_write_block, call in E.
    destruct (ntag2xx_write_block p _ (hw w)) as [[[|]|] d]; simpl in E.
    + destruct (IH _ _ _ E) as (tr & Htr & Hpre). simpl in Htr.
      exists (WriteBlock p (slice byte_array (p * 4) (p * 4 + 4)) (Reply true) :: tr).
      split; [by rewrite Htr, <- app_assoc|]. simpl. by apply prefix_cons.
    + injection E as <- <-. eexists [_; _]. simpl.
      split; [by rewrite <- app_assoc|]. simpl. apply prefix_cons, prefix_nil.
    + injection E as <- <-. eexists [_; _]. simpl.
      split; [by rewrite <- app_assoc|]. simpl. apply prefix_cons, prefix_nil.
Qed.

Lemma write_blocks_pages byte_array start end_ ntag :
  produces (fun tr => written_pages tr `prefix_of` seq start (end_ + 1 - start))
    (write_blocks (D:=D) byte_array start end_ ntag).
Proof.
  unfold write_blocks.
  eapply produces_bind with (L1 := Forall quiet).
  - unfold pn532_read_passive_target. emits_auto.
  - intros uid. case_bool_decide.
    + apply write_loop_pages.
    + intros w r w' E. unfold bind, logging, emit, ret in E. simpl in E.
      injection E as <- <-. eexists [_]. split; [done|]. apply prefix_nil.
  - intros t1 Hq. rewrite (written_pages_quiet _ Hq). apply prefix_nil.
  - intros t1 t2 Hq Hp. rewrite written_pages_app, (written_pages_quiet _ Hq). done.
Qed.

Lemma write_ntag_pages id ntag :
  produces (fun tr => written_pages tr `prefix_of` seq 4 8)
    (write_ntag (D:=D) id ntag).
Proof.
  set (L := fun tr => written_pages tr `prefix_of` seq 4 8).
  assert (HLq : forall t, Forall quiet t -> L t).
  { intros t Hq. unfold L. rewrite (written_pages_quiet _ Hq). apply prefix_nil. }
  assert (HLl : forall t1 t2, Forall quiet t1 -> L t2 -> L (t1 ++ t2)).
  { intros t1 t2 Hq Ht. unfold L. by rewrite written_pages_app, (written_pages_quiet _ Hq). }
  assert (HLr : forall t1 t2, L t1 -> Forall quiet t2 -> L (t1 ++ t2)).
  { intros t1 t2 Ht Hq. unfold L.
    by rewrite written_pages_app, (written_pages_quiet _ Hq), app_nil_r. }
  assert (Hquiet : forall A (m : M D A), emits quiet m -> produces L m).
  { intros A m Hm w r w' E. destruct (Hm _ _ _ E) as (tr & ? & ?). eauto. }
  unfold write_ntag.
  eapply produces_bind with (L1 := Forall quiet) (L2 := L);
    [emits_auto| |auto|auto]. intros uid.
  eapply produces_bind with (L1 := Forall quiet) (L2 := L);
    [emits_auto| |auto|auto]. intros _.
  eapply produces_bind with (L1 := Forall quiet) (L2 := L);
    [emits_auto| |auto|auto]. intros _.
  eapply produces_bind with (L1 := Forall quiet) (L2 := L);
    [apply create_byte_array_quiet| |auto|auto]. intros byte_array.
  eapply produces_bind with (L1 := L) (L2 := Forall quiet);
    [apply (write_blocks_pages byte_array 4 11 ntag)| |auto|auto].
  intros written. emits_step. destruct written; [|emits_auto].
  emits_step; [apply verify_loop_quiet|].
  emits_step; [|emits_auto]. emits_step; [emits_auto|]. apply dump_ntag_quiet.
Qed.
End Protocol.

(** ** The write and verify protocol *)

Section ProtocolClaims.
Context {D : Type} `{Env D}.

(** C5.  Let the poll at the start of [write_blocks] answer [uid].  If
    [uid] differs from the UID kept at detection, [write_blocks] returns
    [False], and the only events are the poll and the error record [UID
    not matching initial read]: no page write is issued.  In every run,
    a page write in the trace implies that the two UIDs are equal. *)
Theorem write_blocks_uid_check byte_array start end_ ntag (w : world D) uid d :
  read_passive_target (hw w) = (Reply uid, d) ->
  (uid ≠ NTAGData.uid ntag ->
   write_blocks byte_array start end_ ntag w =
     (Ret false,
      World d (trace w ++ [Poll (Reply uid); Log Error MsgUidNotMatching]))) /\
  (forall r w', write_blocks byte_array start end_ ntag w = (r, w') ->
     exists tr, trace w' = trace w ++ Poll (Reply uid) :: tr /\
       (written_pages tr ≠ [] -> uid = NTAGData.uid ntag)).
Proof.
  intros Hpoll.
  assert (Hne : uid ≠ NTAGData.uid ntag ->
    write_blocks byte_array start end_ ntag w =
      (Ret false,
       World d (trace w ++ [Poll (Reply uid); Log Error MsgUidNotMatching]))).
  { intros Hne. unfold write_blocks, bind at 1, pn532_read_passive_target, call.
    rewrite Hpoll. rewrite bool_decide_eq_false_2 by done.
    unfold bind, logging, emit, ret. simpl. by rewrite <- app_assoc. }
  split; [done|]. intros r w' E.
  destruct (decide (uid = NTAGData.uid ntag)) as [Heq|Hneq].
  - unfold write_blocks, bind at 1, pn532_read_passive_target, call in E.
    rewrite Hpoll in E. rewrite bool_decide_eq_true_2 in E by done.
    destruct (write_loop_pages _ _ _ _ _ E) as (tr & Htr & _). simpl in Htr.
    exists tr. rewrite Htr, <- app_assoc. done.
  - rewrite Hne in E by done. injection E as <- <-.
    exists [Log Error MsgUidNotMatching]. done.
Qed.

(** C6.  A run of [verify_blocks] over [start..end_] either returns [True],
    and then it has read every page of the range, in ascending order, and
    each read gave exactly the bytes of the image; or it returns [False],
    and then it has read the pages [start .. start + k] in ascending order,
    the first [k] of them gave the bytes of the image, page [start + k] did
    not (a failed read, or other bytes), nothing is read after it, and
    when bytes came back the run ends with the error record that names
    page [start + k] with the expected and the read bytes. *)
Theorem verify_blocks_first_mismatch byte_array start end_ (w : world D) r w' :
  verify_blocks byte_array start end_ w = (r, w') ->
  let n := (end_ + 1 - start)%nat in
  let expected p := slice byte_array (p * 4) (p * 4 + 4) in
  (r = Ret true /\ trace w' = trace w ++ ok_reads byte_array (seq start n)) \/
  (r = Ret false /\ exists k got tail,
     (k < n)%nat /\
     trace w' = trace w ++ ok_reads byte_array (seq start k)
                  ++ ReadBlock (start + k) got :: tail /\
     got ≠ Reply (Some (expected (start + k)%nat)) /\
     Forall (fun e => ¬ is_read e) tail /\
     (forall data, got = Reply (Some data) ->
        tail = [Log Error (MsgMismatch (start + k)
                  (str_join (lit " ") (fmt_02X <$> expected (start + k)%nat))
                  (str_join (lit " ") (fmt_02X <$> data)))])).
Proof.
  intros E n expected. unfold verify_blocks in E. fold n in E.
  destruct (verify_loop_run _ _ _ _ _ E) as (k & Hk & Hcase).
  rewrite length_seq in Hk.
  destruct Hcase as [(-> & _ & Htr)|(-> & p & got & tail & Hp & Htr & Hne & Hq & Hmis)].
  - by left.
  - right. split; [done|]. apply lookup_seq in Hp as [-> Hlt].
    exists k, got, tail. rewrite take_seq, Nat.min_l in Htr by lia. done.
Qed.

(** C8.  In every run of [write_ntag], the pages written to the tag are,
    in order, an initial part of 4, 5, ..., 11: no page below 4 and no page
    above 11 is ever written. *)
Theorem write_ntag_pages_4_to_11 id ntag (w : world D) r w' :
  write_ntag id ntag w = (r, w') ->
  exists tr, trace w' = trace w ++ tr /\
    written_pages tr `prefix_of` [4; 5; 6; 7; 8; 9; 10; 11]%nat /\
    forall p, p ∈ written_pages tr -> (4 <= p <= 11)%nat.
Proof.
  intros E. destruct (write_ntag_pages _ _ _ _ _ E) as (tr & Htr & Hpre).
  exists tr. split; [done|]. split; [done|].
  intros p Hp. destruct Hpre as [rest Hrest].
  assert (Hin : p ∈ seq 4 8) by (rewrite Hrest; set_solver).
  apply elem_of_seq in Hin. lia.
Qed.
End ProtocolClaims.

(** Another tag on the reader: nothing is written to it. *)
Lemma write_blocks_uid_check_witness :
  read_passive_target (hw tag_other) = (Reply (Some uid_b), hw tag_other) /\
  Some uid_b ≠ NTAGData.uid detected_213 /\
  exists w', write_blocks verify_image 4 11 detected_213 tag_other = (Ret false, w') /\
    written_pages (trace w') = [] /\ hw w' = hw tag_other.
Proof.
  assert (Hpoll : read_passive_target (hw tag_other)
                  = (Reply (Some uid_b), hw tag_other)) by reflexivity.
  split; [exact Hpoll|].
  assert (Hne : Some uid_b ≠ NTAGData.uid detected_213).
  { vm_compute. discriminate. }
  split; [exact Hne|].
  destruct (write_blocks_uid_check verify_image 4 11 detected_213 tag_other
              (Some uid_b) (hw tag_other) Hpoll) as [Hfail _].
  eexists. split; [exact (Hfail Hne)|]. split; reflexivity.
Defined.

(** Page 8 expected [11 22 33 44] and read back [11 22 33 00]: the run
    stops at page 8. *)
Lemma verify_blocks_first_mismatch_witness :
  exists w' k got tail,
    verify_blocks verify_image 4 11 tag_bad_page_8 = (Ret false, w') /\
    read_back_pages (trace w') = [4; 5; 6; 7; 8]%nat /\
    (k < 8)%nat /\
    trace w' = ok_reads verify_image (seq 4 k) ++ ReadBlock (4 + k) got :: tail /\
    got ≠ Reply (Some (slice verify_image ((4 + k) * 4) ((4 + k) * 4 + 4))) /\
    Forall (fun e => ¬ is_read e) tail.
Proof.
  destruct (verify_blocks verify_image 4 11 tag_bad_page_8) as [r w'] eqn:E.
  pose proof (verify_blocks_first_mismatch _ _ _ _ _ _ E) as Hspec.
  assert (Hr : r = Ret false /\ read_back_pages (trace w') = [4; 5; 6; 7; 8]%nat).
  { vm_compute in E. injection E as <- <-. split; vm_compute; reflexivity. }
  destruct Hr as [-> Hreads].
  destruct Hspec as [[Hr _]|(_ & k & got & tail & Hk & Htr & Hne & Hq & _)];
    [discriminate|].
  exists w', k, got, tail. split; [reflexivity|]. split; [exact Hreads|].
  split; [exact Hk|]. split; [exact Htr|]. split; [exact Hne|exact Hq].
Defined.

(** Writing the identifier 1234 to an NTAG213. *)
Lemma write_ntag_pages_4_to_11_witness :
  exists w', write_ntag (lit "1234") detected_213 tag_213 = (Ret tt, w') /\
    written_pages (trace w') = [4; 5; 6; 7; 8; 9; 10; 11]%nat /\
    forall p, p ∈ written_pages (trace w') -> (4 <= p <= 11)%nat.
Proof.
  destruct (write_ntag (lit "1234") detected_213 tag_213) as [r w'] eqn:E.
  destruct (write_ntag_pages_4_to_11 _ _ _ _ _ E) as (tr & Htr & _ & Hin).
  change (trace tag_213) with (@nil event) in Htr. rewrite app_nil_l in Htr.
  rewrite <- Htr in Hin. clear Htr.
  vm_compute in E. injection E as <- <-.
  eexists. split; [reflexivity|]. split; [vm_compute; reflexivity|]. exact Hin.
Defined.

(** ** The layout of a byte image *)

Lemma length_list_mul {A} (l : list A) k :
  length (list_mul l k) = (Z.to_nat k * length l)%nat.
Proof.
  unfold list_mul. induction (Z.to_nat k) as [|n IH]; [done|].
  simpl. rewrite length_app, IH. done.
Qed.

Lemma utf8_encode_ascii s :
  Forall (fun c => 0 <= c < 128) s -> utf8_encode s = Some (byte_of_Z <$> s).
Proof.
  induction 1 as [|c s Hc _ IH]; [done|].
  simpl. rewrite IH. unfold utf8_encode_char.
  destruct (Z.ltb_spec c 0); [lia|]. destruct (Z.ltb_spec c 128); [|lia]. done.
Qed.

Section Layout.
Context {D : Type} `{Env D}.

Lemma copy_pages_run ntag indices acc (w : world D) :
  exists out w', copy_pages ntag indices acc w = (Ret out, w') /\
    length out = (length acc + 4 * length indices)%nat.
Proof.
  revert acc w. induction indices as [|i rest IH]; intros acc w.
  - exists acc, w. simpl. split; [done|lia].
  - simpl. unfold bind at 1, NTAGData.read_page.
    destruct (NTAGData.pages ntag !! i) as [p|] eqn:Ep.
    + simpl. case_bool_decide as Hlen.
      * destruct (IH (acc ++ p) w) as (out & w' & -> & Hout).
        exists out, w'. split; [done|]. rewrite Hout, length_app. simpl. lia.
      * destruct (IH (acc ++ list_mul [x00] 4) w) as (out & w' & -> & Hout).
        exists out, w'. split; [done|]. rewrite Hout, length_app. simpl. lia.
    + unfold bind, print, emit, ret. simpl.
      match goal with |- context [copy_pages _ _ _ ?w1] =>
        destruct (IH (acc ++ list_mul [x00] 4) w1) as (out & w' & -> & Hout) end.
      exists out, w'. split; [done|]. rewrite Hout, length_app. simpl. lia.
Qed.

(** C2, amended.  With no payload, or with a payload string whose UTF-8
    encoding is 16 bytes long, [create_byte_array] returns an image of
    [4 * max size 17] bytes: [size * 4] bytes for every size from 17 on,
    and 68 bytes, the 17 fixed pages, for every size below 17, where the
    filler is empty. *)
Theorem create_byte_array_length input_str ntag (w : world D) :
  input_str = [] \/
  (exists payload, utf8_encode input_str = Some payload /\ length payload = 16%nat) ->
  exists image w',
    create_byte_array input_str ntag w = (Ret image, w') /\
    length image = (4 * (NTAGData.size ntag `max` 17))%nat.
Proof.
  intros Hin. unfold create_byte_array.
  destruct (copy_pages_run ntag (seq 0 4) [] w) as (p03 & w1 & E03 & L03).
  unfold bind at 1. rewrite E03.
  assert (exists p710 w2,
    (match input_str with
     | _ :: _ =>
         encoded <- lift UnicodeEncodeError (utf8_encode input_str) ;;
         lift ValueError (int_pairs (hex encoded))
     | [] => copy_pages ntag (seq 7 4) []
     end) w1 = (Ret p710, w2) /\ length p710 = 16%nat) as (p710 & w2 & E710 & L710).
  { destruct Hin as [->|(payload & Henc & Hlen)].
    - destruct (copy_pages_run ntag (seq 7 4) [] w1) as (out & w2 & E & L). eauto.
    - destruct input_str as [|c s]; [simpl in Henc; simplify_eq; done|].
      rewrite Henc. unfold bind, lift, ret. rewrite int_pairs_hex. eauto. }
  unfold bind at 1. rewrite E710. eexists _, w2. split; [reflexivity|].
  rewrite !length_app, !length_list_mul, L03, L710. simpl. lia.
Qed.
End Layout.

(** The text of the identifier 1234 on an NTAG213: 180 bytes. *)
Lemma create_byte_array_length_witness :
  utf8_encode (lit "en02190530123400")
    = Some [x65; x6e; x30; x32; x31; x39; x30; x35; x33; x30;
            x31; x32; x33; x34; x30; x30] /\
  exists image w',
    create_byte_array (lit "en02190530123400") detected_213 tag_213 = (Ret image, w') /\
    length image = (4 * 45)%nat.
Proof.
  assert (Henc : utf8_encode (lit "en02190530123400")
    = Some [x65; x6e; x30; x32; x31; x39; x30; x35; x33; x30;
            x31; x32; x33; x34; x30; x30]) by (vm_compute; reflexivity).
  split; [exact Henc|].
  destruct (create_byte_array_length (lit "en02190530123400") detected_213 tag_213)
    as (image & w' & E & Hlen).
  { right. eexists. split; [exact Henc|reflexivity]. }
  exists image, w'. split; [exact E|]. rewrite Hlen. vm_compute. reflexivity.
Defined.

(** C2 as stated fails.  For a tag detected with 16 pages and a payload of
    16 ASCII characters the image is 68 bytes long, not 64; and the 16 characters of the text
    of an identifier of Arabic-Indic digits encode to 20 bytes, so that the
    image of a tag of 45 pages is 184 bytes long, not 180. *)
Lemma create_byte_array_length_counterexample :
  (exists image w',
     NTAGData.type detected_16 = Unknown /\
     NTAGData.size detected_16 = 16%nat /\
     length (lit "en02190530123400") = 16%nat /\
     create_byte_array (lit "en02190530123400") detected_16 tag_16_pages
       = (Ret image, w') /\
     length image = 68%nat /\ length image ≠ (16 * 4)%nat) /\
  (exists image w',
     NTAGData.size detected_213 = 45%nat /\
     length (encode_faba_id id_arabic_indic) = 16%nat /\
     create_byte_array (encode_faba_id id_arabic_indic) detected_213 tag_213
       = (Ret image, w') /\
     length image = 184%nat /\ length image ≠ (45 * 4)%nat).
Proof.
  split.
  - destruct (create_byte_array (lit "en02190530123400") detected_16 tag_16_pages)
      as [r w'] eqn:E.
    vm_compute in E. injection E as <- <-.
    eexists _, _. split; [vm_compute; reflexivity|].
    split; [vm_compute; reflexivity|]. split; [reflexivity|].
    split; [reflexivity|]. split; [reflexivity|]. vm_compute. discriminate.
  - destruct (create_byte_array (encode_faba_id id_arabic_indic) detected_213 tag_213)
      as [r w'] eqn:E.
    vm_compute in E. injection E as <- <-.
    eexists _, _. split; [vm_compute; reflexivity|]. split; [reflexivity|].
    split; [reflexivity|]. split; [reflexivity|]. vm_compute. discriminate.
Qed.

(** ** The names of the dump files *)

Lemma printable_range b : printable b = true <-> 0x20 <= byte_val b <= 0x7E.
Proof.
  destruct b; vm_compute; split; intros; try discriminate; try reflexivity;
    try (split; discriminate); intuition congruence.
Qed.

Lemma printable_filter (l : list byte) :
  concat ((fun b => if printable b then [byte_val b] else []) <$> l)
  = byte_val <$> filter (fun b => 0x20 <= byte_val b <= 0x7E) l.
Proof.
  induction l as [|b l IH]; [done|].
  rewrite fmap_cons, filter_cons. simpl. rewrite IH.
  destruct (printable b) eqn:Eb; case_decide as Hb; try done.
  - apply printable_range in Eb. done.
  - apply printable_range in Hb. congruence.
Qed.

Lemma saved_files_app t1 t2 :
  saved_files (t1 ++ t2) = saved_files t1 ++ saved_files t2.
Proof. apply omap_app. Qed.

(** The chunks of an image hold four bytes each, but for the last one
    when the length of the image is not a multiple of four. *)
Lemma chunks4_length {A} (l : list A) : Forall (fun c => length c <= 4)%nat (chunks4 l).
Proof.
  assert (forall n (l : list A), (length l <= n)%nat ->
            Forall (fun c => length c <= 4)%nat (chunks4 l)) as Hn.
  { clear l. intros n. induction n as [n IH] using lt_wf_ind. intros l Hl.
    destruct l as [|a [|b [|c [|d rest]]]];
      try (repeat constructor; simpl; lia).
    change (chunks4 (a :: b :: c :: d :: rest)) with ([a; b; c; d] :: chunks4 rest).
    constructor; [simpl; lia|].
    apply (IH (length rest)); [simpl in Hl; lia|done]. }
  by apply (Hn (length l)).
Qed.

Lemma chunks4_whole {A} (l : list A) :
  (length l mod 4 = 0)%nat -> Forall (fun c => length c = 4%nat) (chunks4 l).
Proof.
  assert (forall n (l : list A), (length l <= n)%nat -> (length l mod 4 = 0)%nat ->
            Forall (fun c => length c = 4%nat) (chunks4 l)) as Hn.
  { clear l. intros n. induction n as [n IH] using lt_wf_ind. intros l Hl Hm.
    destruct l as [|a [|b [|c [|d rest]]]]; try discriminate; [constructor|].
    change (chunks4 (a :: b :: c :: d :: rest)) with ([a; b; c; d] :: chunks4 rest).
    constructor; [done|].
    apply (IH (length rest)); [simpl in Hl; lia|done|].
    change (length (a :: b :: c :: d :: rest)) with (4 + length rest)%nat in Hm.
    replace (4 + length rest)%nat with (length rest + 1 * 4)%nat in Hm by lia.
    by rewrite Nat.Div0.mod_add in Hm. }
  by apply (Hn (length l)).
Qed.

Lemma zero_padded_whole (chunk : list byte) :
  (4 <= length chunk)%nat -> zero_padded chunk = chunk.
Proof.
  intros Hc. unfold zero_padded, list_mul.
  replace (Z.to_nat (4 - Z.of_nat (length chunk))) with 0%nat by lia.
  apply app_nil_r.
Qed.

Lemma padded_chunks_pads kind byte_array :
  pads kind byte_array ->
  padded_chunks kind byte_array = Some (zero_padded <$> chunks4 byte_array).
Proof.
  intros Hp. apply mapM_Some_2, Forall2_fmap_r, Forall_Forall2_diag.
  destruct Hp as [->|Hm].
  - eapply Forall_impl; [apply chunks4_length|]. intros chunk Hc. cbv beta in Hc.
    unfold compose, pad4. case_bool_decide; [done|].
    by rewrite zero_padded_whole by lia.
  - eapply Forall_impl; [by apply chunks4_whole|]. intros chunk Hc. cbv beta in Hc.
    unfold compose, pad4. rewrite bool_decide_eq_false_2 by lia.
    by rewrite zero_padded_whole by lia.
Qed.

Lemma padded_chunks_ragged byte_array :
  (length byte_array mod 4 ≠ 0)%nat -> padded_chunks PyBytearray byte_array = None.
Proof.
  assert (forall n (l : list byte), (length l <= n)%nat -> (length l mod 4 ≠ 0)%nat ->
            padded_chunks PyBytearray l = None) as Hn.
  { intros n. induction n as [n IH] using lt_wf_ind. intros l Hl Hm.
    destruct l as [|a [|b [|c [|d rest]]]]; try reflexivity; [done|].
    unfold padded_chunks.
    change (chunks4 (a :: b :: c :: d :: rest)) with ([a; b; c; d] :: chunks4 rest).
    apply mapM_None_2, Exists_cons_tl, mapM_None_1.
    apply (IH (length rest)); [simpl in Hl; lia|done|].
    change (length (a :: b :: c :: d :: rest)) with (4 + length rest)%nat in Hm.
    replace (4 + length rest)%nat with (length rest + 1 * 4)%nat in Hm by lia.
    by rewrite Nat.Div0.mod_add in Hm. }
  by apply (Hn (length byte_array)).
Qed.

Lemma pads_dec kind byte_array :
  pads kind byte_array \/ (kind = PyBytearray /\ (length byte_array mod 4 ≠ 0)%nat).
Proof.
  unfold pads. destruct kind; [by left; left|].
  destruct (decide (length byte_array mod 4 = 0)%nat); [left; by right|by right].
Qed.

Section Dump.
Context {D : Type} `{Env D}.

Lemma save_run filename content (w : world D) :
  exists r d,
    write_file filename content (hw w) = (r, d) /\
    save filename content w =
      (Ret (bool_decide (r = Written)),
       World d (trace w ++ [WriteFile filename content r; outcome_record filename r])).
Proof.
  unfold save, bind at 1, open_write.
  destruct (write_file filename content (hw w)) as [r d].
  exists r, d. split; [done|].
  destruct r; unfold bind, logging, emit, ret; cbn [hw trace];
    rewrite <- app_assoc; reflexivity.
Qed.

(** [save_raw]: with the padding done, one attempt to write the file; with
    a chunk that cannot be padded, the error record and no attempt. *)
Lemma save_raw_run kind byte_array filename (w : world D) :
  (pads kind byte_array ->
   save_raw kind byte_array filename w =
     save (filename ++ lit ".raw")
       (str_join [10] ((fun chunk => concat (fmt_02X <$> chunk))
                         <$> (zero_padded <$> chunks4 byte_array))) w) /\
  (kind = PyBytearray -> (length byte_array mod 4 ≠ 0)%nat ->
   save_raw kind byte_array filename w =
     (Ret false, World (hw w) (trace w ++ [Log Error MsgUnexpectedError]))).
Proof.
  unfold save_raw, try_except. split.
  - intros Hp. rewrite (padded_chunks_pads _ _ Hp). cbn [lift].
    erewrite bind_ret_eq by reflexivity.
    match goal with |- context [save ?f ?c w] =>
      destruct (save_run f c w) as (r & d & _ & E) end.
    rewrite E. reflexivity.
  - intros -> Hm. rewrite (padded_chunks_ragged _ Hm). reflexivity.
Qed.

(** [save_flipper]: one attempt to write the file when the store has a UID
    and the padding is done, the error record and no attempt otherwise. *)
Lemma save_flipper_run kind byte_array ntag filename (w : world D) :
  (is_Some (NTAGData.uid ntag) -> pads kind byte_array ->
   exists content r d,
     save_flipper kind byte_array ntag filename w =
       (Ret (bool_decide (r = Written)),
        World d (trace w ++ [WriteFile (filename ++ lit ".nfc") content r;
                             outcome_record (filename ++ lit ".nfc") r]))) /\
  (NTAGData.uid ntag = None \/
   (kind = PyBytearray /\ (length byte_array mod 4 ≠ 0)%nat) ->
   save_flipper kind byte_array ntag filename w =
     (Ret false, World (hw w) (trace w ++ [Log Error MsgUnexpectedError]))).
Proof.
  unfold save_flipper, try_except. split.
  - intros [uid Huid] Hp. rewrite Huid, (padded_chunks_pads _ _ Hp). cbn [lift].
    do 2 erewrite bind_ret_eq by reflexivity.
    match goal with |- context [save ?f ?c w] =>
      destruct (save_run f c w) as (r & d & _ & E) end.
    eexists _, r, d. rewrite E. reflexivity.
  - intros [Huid|[-> Hm]].
    + rewrite Huid. reflexivity.
    + rewrite (padded_chunks_ragged _ Hm).
      destruct (NTAGData.uid ntag); reflexivity.
Qed.

(** A run of [dump_ntag] on an image of more than 43 bytes, once the name
    is made. *)
Lemma dump_ntag_run kind byte_array ntag (w : world D) name :
  43 < Z.of_nat (length byte_array) ->
  (let filename := concat ((fun b => if printable b then [byte_val b] else [])
                             <$> slice byte_array 38 42) in
   if bool_decide (filename = [])
   then uid <- lift TypeError (NTAGData.uid ntag) ;; ret (concat (fmt_02X <$> uid))
   else ret filename) w = (Ret name, w) ->
  exists w' tr, dump_ntag kind byte_array ntag w = (Ret tt, w') /\
    trace w' = trace w ++ tr /\
    (pads kind byte_array -> is_Some (NTAGData.uid ntag) ->
     saved_files tr = [name ++ lit ".raw"; name ++ lit ".ndef"; name ++ lit ".nfc"]) /\
    (pads kind byte_array -> NTAGData.uid ntag = None ->
     exists tr0, tr = tr0 ++ [Log Error MsgUnexpectedError] /\
       saved_files tr0 = [name ++ lit ".raw"; name ++ lit ".ndef"]) /\
    (kind = PyBytearray -> (length byte_array mod 4 ≠ 0)%nat ->
     exists tr0, tr = tr0 ++ [Log Error MsgUnexpectedError] /\
       saved_files tr0 = [name ++ lit ".ndef"]).
Proof.
  intros Hlen Hname. unfold dump_ntag.
  destruct (Z.ltb_spec 43 (Z.of_nat (length byte_array))); [|lia].
  cbv zeta in Hname. erewrite bind_ret_eq by exact Hname.
  erewrite bind_ret_eq by reflexivity. cbn [hw trace].
  set (w1 := World (hw w) (trace w ++ [Log Info MsgSavingFiles])).
  destruct (save_raw_run kind byte_array name w1) as [Hraw1 Hraw2].
  destruct (pads_dec kind byte_array) as [Hp|[Hk Hm]].
  - pose proof (Hraw1 Hp) as E1.
    match type of E1 with _ = save ?f ?c _ =>
      destruct (save_run f c w1) as (r1 & d1 & _ & E1') end.
    rewrite E1' in E1. clear E1'.
    erewrite bind_ret_eq by exact E1. unfold save_ndef.
    match goal with |- context [(save ?f ?c ;;; _) ?w2] =>
      destruct (save_run f c w2) as (r2 & d2 & _ & E2) end.
    erewrite bind_ret_eq by exact E2. cbn [hw trace] in *.
    match goal with |- context [(save_flipper _ _ _ _ ;;; _) ?w3] =>
      destruct (save_flipper_run kind byte_array ntag name w3) as [Hnfc1 Hnfc2] end.
    destruct (NTAGData.uid ntag) as [uid|] eqn:Huid.
    + destruct (Hnfc1 ltac:(eauto) Hp) as (c3 & r3 & d3 & E3).
      erewrite bind_ret_eq by exact E3. eexists _, _. split; [reflexivity|].
      subst w1. cbn [trace]. split; [rewrite <- !app_assoc; reflexivity|].
      split; [intros _ _; destruct r1, r2, r3; reflexivity|]. split; [discriminate|].
      intros -> Hm. destruct Hp as [|Hp]; [discriminate|]. by destruct Hm.
    + erewrite bind_ret_eq by (apply Hnfc2; by left).
      eexists _, _. split; [reflexivity|].
      subst w1. cbn [trace]. split; [rewrite <- !app_assoc; reflexivity|].
      split; [intros _ [? ?]; discriminate|]. split.
      * intros _ _. eexists. split; [rewrite !app_assoc; reflexivity|].
        rewrite !saved_files_app. destruct r1, r2; reflexivity.
      * intros -> Hm. destruct Hp as [|Hp]; [discriminate|]. by destruct Hm.
  - erewrite bind_ret_eq by (by apply Hraw2). unfold save_ndef.
    match goal with |- context [(save ?f ?c ;;; _) ?w2] =>
      destruct (save_run f c w2) as (r2 & d2 & _ & E2) end.
    erewrite bind_ret_eq by exact E2. cbn [hw trace] in *.
    match goal with |- context [(save_flipper _ _ _ _ ;;; _) ?w3] =>
      destruct (save_flipper_run kind byte_array ntag name w3) as [_ Hnfc2] end.
    erewrite bind_ret_eq by (apply Hnfc2; by right).
    eexists _, _. split; [reflexivity|].
    subst w1. cbn [trace]. split; [rewrite <- !app_assoc; reflexivity|].
    assert (Hno : pads kind byte_array -> False).
    { intros [Hk'|Hm']; [congruence|done]. }
    split; [intros Hp; by destruct Hno|]. split; [intros Hp; by destruct Hno|].
    intros _ _. eexists. split; [rewrite !app_assoc; reflexivity|].
    rewrite !saved_files_app. destruct r2; reflexivity.
Qed.

End Dump.



(** ** Decoding the text record *)

Section Decode.
Context {D : Type} `{Env D}.



Lemma read_payload_total fuel ntag full_payload next_page remaining_bytes (w : world D) :
  (size (filter (fun k => next_page <= k)%nat (dom (NTAGData.pages ntag))) < fuel)%nat ->
  (read_payload fuel ntag full_payload next_page remaining_bytes w).1 ≠ OutOfFuel.
Proof.
  revert full_payload next_page remaining_bytes w.
  induction fuel as [|fuel IH]; intros fp p rem w Hsize; [lia|].
  simpl. destruct (0 <? rem); [|done].
  unfold bind, NTAGData.read_page.
  destruct (NTAGData.pages ntag !! p) as [data|] eqn:Ep; [|done]. simpl.
  destruct (take_payload data fp rem) as [fp' rem'].
  apply IH.
  assert (filter (fun k => p + 1 <= k)%nat (dom (NTAGData.pages ntag))
          ⊂ filter (fun k => p <= k)%nat (dom (NTAGData.pages ntag))) as Hsub.
  { split.
    - intros k. rewrite !elem_of_filter. intros [? ?]. split; [lia|done].
    - intros Hsup. specialize (Hsup p). rewrite !elem_of_filter in Hsup.
      destruct Hsup as [? _]; [|lia]. split; [lia|]. apply elem_of_dom. eauto. }
  apply subset_size in Hsub. lia.
Qed.

End Decode.

Section TypeField.
Context {D : Type} `{Env D}.

End TypeField.


(** C4, on the code.  In [ntag_terminated] page 11 starts with the
    terminator [0xFE] when 16 of the 17 bytes announced by the header have
    been collected.  The loop leaves page 11 and goes on with page 12: the
    payload it returns ends with [0x41], the first byte of page 12.  The
    identifier found is still 1234. *)
Theorem read_payload_past_terminator :
  NTAGData.pages ntag_terminated !! 6%nat = Some [x01; x11; x54; x02] /\
  NTAGData.pages ntag_terminated !! 11%nat = Some [xfe; x00; x00; x00] /\
  NTAGData.pages ntag_terminated !! 12%nat = Some [x41; x42; x43; x44] /\
  read_payload (S (size (NTAGData.pages ntag_terminated))) ntag_terminated [] 7
    (byte_val x11) tag_213
  = (Ret [x65; x6e; x30; x32; x31; x39; x30; x35; x33; x30; x31; x32; x33; x34;
          x30; x30; x41], tag_213) /\
  exists w', parse_text ntag_terminated tag_213
    = (Ret (NTAGData.set_code ntag_terminated (lit "1234")), w').
Proof.
  split; [vm_compute; reflexivity|]. split; [vm_compute; reflexivity|].
  split; [vm_compute; reflexivity|]. split; [vm_compute; reflexivity|].
  eexists. vm_compute. reflexivity.
Qed.

(** ** Writing an identifier and reading it back *)

Lemma utf8_decode_ascii l :
  Forall (fun b => byte_val b < 128) l -> utf8_decode l = Some (byte_val <$> l).
Proof.
  induction 1 as [|b l Hb _ IH]; [done|].
  simpl. unfold in_range at 1. pose proof (byte_val_range b).
  destruct (Z.leb_spec 0 (byte_val b)); [|lia].
  destruct (Z.leb_spec (byte_val b) 127); [|lia]. simpl. by rewrite IH.
Qed.

Lemma take_payload_all page_data full_payload remaining_bytes :
  Forall (fun b => b ≠ xfe) page_data ->
  Z.of_nat (length page_data) <= remaining_bytes ->
  take_payload page_data full_payload remaining_bytes
  = (full_payload ++ page_data, remaining_bytes - Z.of_nat (length page_data)).
Proof.
  intros Hno. revert full_payload remaining_bytes.
  induction Hno as [|b l Hb _ IH]; intros fp rem Hlen.
  - simpl. rewrite app_nil_r. f_equal. lia.
  - simpl in *. rewrite bool_decide_eq_false_2 by lia.
    rewrite bool_decide_eq_false_2 by done. simpl.
    rewrite IH by lia. rewrite <- app_assoc. f_equal. lia.
Qed.

Lemma load_pages_lookup chunks page ntag k :
  NTAGData.pages (load_pages page chunks ntag) !! k
  = if decide (page <= k < page + length chunks)%nat
    then chunks !! (k - page)%nat
    else NTAGData.pages ntag !! k.
Proof.
  revert page ntag. induction chunks as [|c chunks IH]; intros page ntag.
  - simpl. case_decide; [lia|done].
  - simpl. rewrite IH. simpl.
    repeat case_decide; try lia.
    + replace (k - page)%nat with (S (k - (page + 1)))%nat by lia. done.
    + assert (k = page) as -> by lia. rewrite lookup_insert_eq, Nat.sub_diag. done.
    + rewrite lookup_insert_ne by lia. done.
Qed.

Lemma load_image_lookup image ntag k :
  NTAGData.pages (load_image image ntag) !! k = chunks4 image !! k.
Proof.
  unfold load_image. rewrite load_pages_lookup. simpl.
  case_decide as Hk.
  - by rewrite Nat.sub_0_r.
  - rewrite lookup_empty. symmetry. apply lookup_ge_None. lia.
Qed.

Section Fuel.
Context {D : Type} `{Env D}.

Lemma read_payload_fuel f1 f2 ntag full_payload next_page remaining_bytes (w : world D) :
  (read_payload f1 ntag full_payload next_page remaining_bytes w).1 ≠ OutOfFuel ->
  (read_payload f2 ntag full_payload next_page remaining_bytes w).1 ≠ OutOfFuel ->
  read_payload f1 ntag full_payload next_page remaining_bytes w
  = read_payload f2 ntag full_payload next_page remaining_bytes w.
Proof.
  revert f2 full_payload next_page remaining_bytes w.
  induction f1 as [|f1 IH]; intros f2 fp p rem w H1 H2; [done|].
  destruct f2 as [|f2]; [done|].
  simpl in *. destruct (0 <? rem); [|done].
  unfold bind, NTAGData.read_page in *.
  destruct (NTAGData.pages ntag !! p) as [data|]; [|done]. simpl in *.
  destruct (take_payload data fp rem) as [fp' rem']. by apply IH.
Qed.
End Fuel.

Lemma take_payload_zero page_data full_payload :
  take_payload page_data full_payload 0 = (full_payload, 0).
Proof. by destruct page_data. Qed.

Lemma digit_byte_not_terminator b : 48 <= byte_val b <= 57 -> b ≠ xfe.
Proof. intros Hb ->. vm_compute in Hb. destruct Hb as [_ Hb]. by apply Hb. Qed.

Ltac norm_rem :=
  match goal with
  | |- context [read_payload _ _ _ _ ?r _] =>
      let r' := eval vm_compute in r in change r with r'
  end.

Section WrittenRecord.
Context {D : Type} `{Env D}.

Lemma read_payload_step f ntag full_payload next_page remaining_bytes data (w : world D) :
  NTAGData.pages ntag !! next_page = Some data ->
  0 < remaining_bytes ->
  read_payload (S f) ntag full_payload next_page remaining_bytes w
  = read_payload f ntag (take_payload data full_payload remaining_bytes).1
      (next_page + 1) (take_payload data full_payload remaining_bytes).2 w.
Proof.
  intros Hp Hrem. simpl. destruct (Z.ltb_spec 0 remaining_bytes); [|lia].
  unfold bind, NTAGData.read_page. rewrite Hp. simpl.
  by destruct (take_payload data full_payload remaining_bytes).
Qed.

Lemma parse_text_faba_record ntag (w : world D) b0 b1 b2 b3 t1 t2 t3 rest12 :
  NTAGData.pages ntag !! 6%nat = Some [x01; x11; x54; x02] ->
  NTAGData.pages ntag !! 7%nat = Some [x65; x6e; x30; x32] ->
  NTAGData.pages ntag !! 8%nat = Some [x31; x39; x30; x35] ->
  NTAGData.pages ntag !! 9%nat = Some [x33; x30; b0; b1] ->
  NTAGData.pages ntag !! 10%nat = Some [b2; b3; x30; x30] ->
  NTAGData.pages ntag !! 11%nat = Some [xfe; t1; t2; t3] ->
  NTAGData.pages ntag !! 12%nat = Some (x00 :: rest12) ->
  Forall (fun b => 48 <= byte_val b <= 57) [b0; b1; b2; b3] ->
  parse_text ntag w =
    (Ret (NTAGData.set_code ntag (byte_val <$> [b0; b1; b2; b3])),
     World (hw w) (trace w ++ [Log Info (MsgFabaID (byte_val <$> [b0; b1; b2; b3]))])).
Proof.
  intros H6 H7 H8 H9 H10 H11 H12 Hd.
  apply Forall_cons in Hd as [Hb0 Hd]. apply Forall_cons in Hd as [Hb1 Hd].
  apply Forall_cons in Hd as [Hb2 Hd]. apply Forall_cons in Hd as [Hb3 _].
  pose proof (digit_byte_not_terminator _ Hb0).
  pose proof (digit_byte_not_terminator _ Hb1).
  pose proof (digit_byte_not_terminator _ Hb2).
  pose proof (digit_byte_not_terminator _ Hb3).
  assert (Hrun : read_payload 7 ntag [] 7 17 w =
    (Ret [x65; x6e; x30; x32; x31; x39; x30; x35; x33; x30; b0; b1; b2; b3;
          x30; x30; x00], w)).
  { assert (Hok : forall l : list byte,
      Forall (fun b => b = b0 \/ b = b1 \/ b = b2 \/ b = b3 \/ byte_val b < 128) l ->
      Forall (fun b => b ≠ xfe) l).
    { intros l Hl. eapply Forall_impl; [exact Hl|].
      intros b [->|[->|[->|[->|Hb]]]]; try done.
      intros ->. vm_compute in Hb. done. }
    rewrite (read_payload_step _ _ _ _ _ _ _ H7) by lia.
    rewrite take_payload_all by
      (first [apply Hok; repeat constructor; by vm_compute | simpl; lia]).
    cbn [fst snd length app]. norm_rem.
    rewrite (read_payload_step _ _ _ _ _ _ _ H8) by lia.
    rewrite take_payload_all by
      (first [apply Hok; repeat constructor; by vm_compute | simpl; lia]).
    cbn [fst snd length app]. norm_rem.
    rewrite (read_payload_step _ _ _ _ _ _ _ H9) by lia.
    rewrite take_payload_all by
      (first [apply Hok; repeat constructor; (by vm_compute) || tauto | simpl; lia]).
    cbn [fst snd length app]. norm_rem.
    rewrite (read_payload_step _ _ _ _ _ _ _ H10) by lia.
    rewrite take_payload_all by
      (first [apply Hok; repeat constructor; (by vm_compute) || tauto | simpl; lia]).
    cbn [fst snd length app]. norm_rem.
    rewrite (read_payload_step _ _ _ _ _ _ _ H11) by lia.
    change (take_payload [xfe; t1; t2; t3] ?fp 1) with (fp, 1).
    cbn [fst snd].
    rewrite (read_payload_step _ _ _ _ _ _ _ H12) by lia.
    change (take_payload (x00 :: rest12) ?fp 1)
      with (take_payload rest12 (fp ++ [x00]) 0).
    rewrite take_payload_zero. reflexivity. }
  unfold parse_text, bind at 1, NTAGData.read_page at 1. rewrite H6. cbn [ret].
  repeat (erewrite bind_ret_eq by reflexivity).
  change (byte_val x11) with 17.
  erewrite bind_ret_eq; cycle 1.
  { rewrite <- Hrun. apply read_payload_fuel.
    - apply read_payload_total.
      rewrite <- size_dom. apply le_n_S, subseteq_size.
      intros k. rewrite elem_of_filter. tauto.
    - by rewrite Hrun. }
  change (Z.land (byte_val x02) 63) with 2.
  change (Z.land (byte_val x02) 128) with 0.
  cbn [length]. change (Z.of_nat 17 <? 2) with false.
  rewrite bool_decide_eq_false_2 by (intros Hn; by apply Hn).
  cbv iota.
  change (Z.to_nat 2) with 2%nat. cbn [take drop].
  change (ascii_decode [x65; x6e]) with (Some [101; 110]).
  erewrite bind_ret_eq by reflexivity.
  unfold decode. rewrite utf8_decode_ascii.
  2: { repeat constructor; (vm_compute; done) || lia. }
  erewrite bind_ret_eq by reflexivity.
  reflexivity.
Qed.
End WrittenRecord.

Lemma trailer_head k last5 :
  exists rest, list_mul (list_mul [x00] k) 4 ++ x00 :: last5 = x00 :: rest.
Proof. unfold list_mul at 2. destruct (Z.to_nat k); simpl; eauto. Qed.

Section RoundTripClaim.
Context {D : Type} `{Env D}.

(** C3.  For every identifier [id] of four digits [0-9] and every tag,
    whatever its size (so for each of the four variants),
    [create_byte_array] returns an image for the text [encode_faba_id id],
    and [parse_text] on the store filled page by page from that image
    returns with [code] set to [id]. *)
Theorem faba_id_roundtrip id ntag (w : world D) ntag0 (w0 : world D) :
  length id = 4%nat ->
  Forall (fun c => 48 <= c <= 57) id ->
  exists image w1,
    create_byte_array (encode_faba_id id) ntag w = (Ret image, w1) /\
    parse_text (load_image image ntag0) w0 =
      (Ret (NTAGData.set_code (load_image image ntag0) id),
       World (hw w0) (trace w0 ++ [Log Info (MsgFabaID id)])).
Proof.
  intros Hlen Hdig.
  destruct id as [|d0 [|d1 [|d2 [|d3 [|]]]]]; try discriminate. clear Hlen.
  assert (Henc : utf8_encode (encode_faba_id [d0; d1; d2; d3])
    = Some ([x65; x6e; x30; x32; x31; x39; x30; x35; x33; x30]
            ++ [byte_of_Z d0; byte_of_Z d1; byte_of_Z d2; byte_of_Z d3]
            ++ [x30; x30])).
  { rewrite utf8_encode_ascii; [reflexivity|].
    unfold encode_faba_id. apply Forall_app. split; [repeat constructor; by vm_compute|].
    apply Forall_app. split; [|repeat constructor; by vm_compute].
    eapply Forall_impl; [exact Hdig|]. simpl. lia. }
  apply Forall_cons in Hdig as [Hd0 Hdig]. apply Forall_cons in Hdig as [Hd1 Hdig].
  apply Forall_cons in Hdig as [Hd2 Hdig]. apply Forall_cons in Hdig as [Hd3 _].
  pose proof (byte_val_of_Z d0 ltac:(lia)) as Hb0.
  pose proof (byte_val_of_Z d1 ltac:(lia)) as Hb1.
  pose proof (byte_val_of_Z d2 ltac:(lia)) as Hb2.
  pose proof (byte_val_of_Z d3 ltac:(lia)) as Hb3.
  revert Henc Hb0 Hb1 Hb2 Hb3.
  generalize (byte_of_Z d0) (byte_of_Z d1) (byte_of_Z d2) (byte_of_Z d3).
  intros b0 b1 b2 b3 Henc Hb0 Hb1 Hb2 Hb3.
  unfold create_byte_array.
  destruct (copy_pages_run ntag (seq 0 4) [] w) as (p03 & w1 & E03 & L03).
  erewrite bind_ret_eq by exact E03.
  change (encode_faba_id [d0; d1; d2; d3])
    with (101 :: (lit "n02190530" ++ [d0; d1; d2; d3] ++ lit "00")) at 1.
  cbv iota.
  change (101 :: (lit "n02190530" ++ [d0; d1; d2; d3] ++ lit "00"))
    with (encode_faba_id [d0; d1; d2; d3]).
  rewrite Henc.
  erewrite bind_ret_eq by (unfold bind, lift, ret; rewrite int_pairs_hex; reflexivity).
  eexists _, w1. split; [reflexivity|].
  destruct p03 as [|a0 [|a1 [|a2 [|a3 [|a4 [|a5 [|a6 [|a7 [|a8 [|a9 [|a10 [|a11
    [|a12 [|a13 [|a14 [|a15 [|]]]]]]]]]]]]]]]]]; try discriminate. clear L03.
  destruct (trailer_head (Z.of_nat (NTAGData.size ntag) - 17)
              [x00; x00; xbd; x04; x00; x00; xff; x00; x00; x00; x00;
               x00; x00; x00; x00; x00; x00; x00; x00]) as (rest & ->).
  assert (Hd : Forall (fun b => 48 <= byte_val b <= 57) [b0; b1; b2; b3]).
  { repeat (apply Forall_cons; split; [cbv beta; lia|]). constructor. }
  rewrite <- Hb0, <- Hb1, <- Hb2, <- Hb3.
  change [byte_val b0; byte_val b1; byte_val b2; byte_val b3]
    with (byte_val <$> [b0; b1; b2; b3]).
  destruct rest as [|r1 [|r2 [|r3 rest]]];
    (eapply parse_text_faba_record; [..|exact Hd];
     rewrite load_image_lookup; reflexivity).
Qed.
End RoundTripClaim.

(** The identifier 1234 on an NTAG213. *)
Lemma faba_id_roundtrip_witness :
  length (lit "1234") = 4%nat /\
  Forall (fun c => 48 <= c <= 57) (lit "1234") /\
  exists image w1,
    create_byte_array (encode_faba_id (lit "1234")) detected_213 tag_213
      = (Ret image, w1) /\
    NTAGData.code (NTAGData.init) = None /\
    exists nt w2,
      parse_text (load_image image NTAGData.init) tag_213 = (Ret nt, w2) /\
      NTAGData.code nt = Some (lit "1234").
Proof.
  assert (Hd : Forall (fun c => 48 <= c <= 57) (lit "1234")).
  { repeat (apply Forall_cons; split; [vm_compute; split; discriminate|]). constructor. }
  split; [reflexivity|]. split; [exact Hd|].
  destruct (faba_id_roundtrip (lit "1234") detected_213 tag_213 NTAGData.init tag_213
              eq_refl Hd) as (image & w1 & E & Hparse).
  exists image, w1. split; [exact E|]. split; [reflexivity|].
  eexists _, _. split; [exact Hparse|]. reflexivity.
Defined.

(** * Further properties *)

(** ** Runs and their traces *)

Lemma ret_pair_inj {A W} (a b : A) (w1 w2 : W) :
  (Ret a, w1) = (Ret b, w2) -> a = b /\ w1 = w2.
Proof. by intros [= -> ->]. Qed.

Lemma is_console_silent tr :
  Forall is_console tr ->
  written_pages tr = [] /\ read_back_pages tr = [] /\ saved_files tr = [].
Proof.
  induction 1 as [|e tr He _ (IH1 & IH2 & IH3)]; [done|].
  destruct e; try done; simpl; auto.
Qed.

Lemma ok_writes_pages byte_array blocks :
  written_pages (ok_writes byte_array blocks) = blocks /\
  read_back_pages (ok_writes byte_array blocks) = [] /\
  saved_files (ok_writes byte_array blocks) = [].
Proof.
  induction blocks as [|p blocks (IH1 & IH2 & IH3)]; [done|].
  repeat split; [|done..]. simpl. f_equal. done.
Qed.

Lemma ok_reads_pages byte_array blocks :
  written_pages (ok_reads byte_array blocks) = [] /\
  read_back_pages (ok_reads byte_array blocks) = blocks /\
  saved_files (ok_reads byte_array blocks) = [].
Proof.
  induction blocks as [|p blocks (IH1 & IH2 & IH3)]; [done|].
  repeat split; [done| |done]. simpl. f_equal. done.
Qed.

Ltac bind_step E a w1 E1 :=
  unfold bind at 1 in E;
  match type of E with
  | (match ?x with _ => _ end) = _ => destruct x as [[a| |] w1] eqn:E1
  end.

Lemma no_file_saved tr : Forall no_file tr -> saved_files tr = [].
Proof.
  induction 1 as [|e tr He _ IH]; [done|]. destruct e; try done; simpl; auto.
Qed.

(** ** Functions that stay away from the tag *)

Section Console.
Context {D : Type} `{Env D}.

Lemma NTAGData_read_page_console ntag p :
  emits is_console (NTAGData.read_page (D:=D) ntag p).
Proof. unfold NTAGData.read_page. emits_auto. Qed.

Lemma NTAGData_read_page_offline ntag p : offline (NTAGData.read_page (D:=D) ntag p).
Proof.
  intros w r w'. unfold NTAGData.read_page.
  destruct (NTAGData.pages ntag !! p); intros E; by injection E as <- <-.
Qed.

Lemma copy_pages_console ntag indices acc :
  emits is_console (copy_pages (D:=D) ntag indices acc).
Proof.
  revert acc. induction indices as [|i rest IH]; intros acc; simpl.
  - emits_auto.
  - apply emits_bind; [apply NTAGData_read_page_console|].
    intros [p|]; [destruct (bool_decide _)|]; apply IH.
Qed.

Lemma create_byte_array_console input_str ntag :
  emits is_console (create_byte_array (D:=D) input_str ntag).
Proof.
  unfold create_byte_array.
  apply emits_bind; [apply copy_pages_console|]. intros pages0_3.
  apply emits_bind; [|intros ?; emits_auto].
  destruct input_str; [apply copy_pages_console|emits_auto].
Qed.

Lemma save_off_tag filename content : emits off_tag (save (D:=D) filename content).
Proof. unfold save. emits_auto. Qed.

Lemma dump_ntag_off_tag kind byte_array ntag :
  emits off_tag (dump_ntag (D:=D) kind byte_array ntag).
Proof.
  unfold dump_ntag, save_raw, save_ndef, save_flipper, unexpected.
  pose proof save_off_tag. emits_auto; auto.
Qed.

End Console.

(** ** The write path, step by step *)

Section WriteRun.
Context {D : Type} `{Env D}.

Lemma write_loop_run byte_array blocks (w : world D) r w' :
  write_loop byte_array blocks w = (r, w') ->
  (r = Ret true /\ trace w' = trace w ++ ok_writes byte_array blocks) \/
  (r = Ret false /\ exists k p got,
     blocks !! k = Some p /\ got ≠ Reply true /\
     trace w' = trace w ++ ok_writes byte_array (take k blocks)
       ++ [WriteBlock p (slice byte_array (p * 4) (p * 4 + 4)) got;
           Log Error (match got with
                      | Fault => MsgErrorWritingPage p
                      | Reply _ => MsgFailedWritingPage p
                      end)]).
Proof.
  revert w. induction blocks as [|p blocks IH]; intros w E.
  - injection E as <- <-. left. by rewrite app_nil_r.
  - simpl in E.
    unfold bind at 1, try_except, bind at 1, pn532_ntag2xx_write_block, call in E.
    destruct (ntag2xx_write_block p _ (hw w)) as [[[|]|] d]; simpl in E.
    + destruct (IH _ E) as [(-> & Htr)|(-> & k & q & got & Hq & Hgot & Htr)];
        simpl in Htr.
      * left. split; [done|]. rewrite Htr, <- app_assoc. done.
      * right. split; [done|]. exists (S k), q, got. split; [done|].
        split; [done|]. rewrite Htr, <- app_assoc. done.
    + injection E as <- <-. right. split; [done|].
      exists 0%nat, p, (Reply false). split; [done|]. split; [done|].
      simpl. rewrite <- app_assoc. done.
    + injection E as <- <-. right. split; [done|].
      exists 0%nat, p, Fault. split; [done|]. split; [done|].
      simpl. rewrite <- app_assoc. done.
Qed.

Lemma write_blocks_ok byte_array start end_ ntag (w : world D) w' :
  write_blocks byte_array start end_ ntag w = (Ret true, w') ->
  exists uid, trace w' = trace w ++ Poll uid
                :: ok_writes byte_array (seq start (end_ + 1 - start)).
Proof.
  intros E. unfold write_blocks, bind at 1, pn532_read_passive_target, call in E.
  destruct (read_passive_target (hw w)) as [[uid|] d]; simpl in E; [|done].
  exists (Reply uid). destruct (bool_decide _); [|done].
  destruct (write_loop_run _ _ _ _ _ E) as [(_ & Htr)|(? & _)]; [|done].
  simpl in Htr. rewrite Htr, <- app_assoc. done.
Qed.

Lemma write_blocks_no_file byte_array start end_ ntag :
  emits no_file (write_blocks (D:=D) byte_array start end_ ntag).
Proof.
  unfold write_blocks, pn532_read_passive_target.
  apply emits_bind; [emits_auto|]. intros uid.
  destruct (bool_decide _); [|emits_auto].
  induction (seq start (end_ + 1 - start)) as [|p blocks IH]; simpl;
    unfold pn532_ntag2xx_write_block; emits_auto.
Qed.

Lemma verify_blocks_no_file byte_array start end_ :
  emits no_file (verify_blocks (D:=D) byte_array start end_).
Proof.
  unfold verify_blocks.
  induction (seq start (end_ + 1 - start)) as [|p blocks IH]; simpl.
  - emits_auto.
  - unfold read_page, pn532_ntag2xx_read_block. emits_auto.
Qed.

Lemma verify_blocks_ok byte_array start end_ (w : world D) w' :
  verify_blocks byte_array start end_ w = (Ret true, w') ->
  trace w' = trace w ++ ok_reads byte_array (seq start (end_ + 1 - start)).
Proof.
  intros E. destruct (verify_loop_run _ _ _ _ _ E) as (k & _ & [(_ & _ & Htr)|(? & _)]);
    done.
Qed.

(** X1.  [write_blocks] on a tag whose UID is the one detected: the pages
    are written in ascending order from [start], each with its four bytes
    of the image, and the first write that is not acknowledged (or that
    the driver fails on) is the last one: it is logged with its page
    number and the function returns [False] without writing a later page. *)
Theorem write_blocks_first_failure byte_array start end_ ntag (w : world D) uid d r w' :
  read_passive_target (hw w) = (Reply uid, d) ->
  uid = NTAGData.uid ntag ->
  write_blocks byte_array start end_ ntag w = (r, w') ->
  let n := (end_ + 1 - start)%nat in
  (r = Ret true /\
   trace w' = trace w ++ Poll (Reply uid) :: ok_writes byte_array (seq start n)) \/
  (r = Ret false /\ exists k got,
     (k < n)%nat /\ got ≠ Reply true /\
     trace w' = trace w ++ Poll (Reply uid) :: ok_writes byte_array (seq start k)
       ++ [WriteBlock (start + k)
             (slice byte_array ((start + k) * 4) ((start + k) * 4 + 4)) got;
           Log Error (match got with
                      | Fault => MsgErrorWritingPage (start + k)
                      | Reply _ => MsgFailedWritingPage (start + k)
                      end)]).
Proof.
  intros Hpoll Huid E n.
  unfold write_blocks, bind at 1, pn532_read_passive_target, call in E.
  rewrite Hpoll in E. rewrite bool_decide_eq_true_2 in E by done. fold n in E.
  destruct (write_loop_run _ _ _ _ _ E)
    as [(-> & Htr)|(-> & k & p & got & Hp & Hgot & Htr)]; simpl in Htr.
  - left. split; [done|]. rewrite Htr, <- app_assoc. done.
  - right. split; [done|]. apply lookup_seq in Hp as [-> Hk].
    exists k, got. split; [done|]. split; [done|].
    rewrite Htr, take_seq, Nat.min_l, <- app_assoc by lia. done.
Qed.

(** A run of [write_ntag]: either no file is saved, or the run went
    through the whole of writing, verifying and dumping. *)
Lemma write_ntag_run id ntag (w : world D) r w' :
  write_ntag id ntag w = (r, w') ->
  exists tr, trace w' = trace w ++ tr /\
    (saved_files tr = [] \/
     exists image (w0 w3 : world D) got pre (w5 : world D) post,
       is_Some (NTAGData.uid ntag) /\
       create_byte_array (encode_faba_id id) ntag w0 = (Ret image, w3) /\
       dump_ntag PyList image ntag w5 = (r, w') /\
       trace w' = trace w5 ++ post /\
       tr = pre ++ Poll got :: ok_writes image (seq 4 8)
              ++ ok_reads image (seq 4 8)
              ++ Log Info MsgSuccessfullyWritten :: post /\
       Forall is_console pre /\ Forall off_tag post).
Proof.
  intros E. unfold write_ntag in E.
  destruct (NTAGData.uid ntag) as [uid|]; simpl in E;
    [|injection E as <- <-; exists []; rewrite app_nil_r; by auto].
  do 3 erewrite bind_ret_eq in E by reflexivity. cbn [hw trace] in E.
  rewrite <- app_assoc in E. simpl app in E.
  set (logs := [Log Info (MsgWritingTag uid); Log Info (MsgFabaID id)]) in E.
  assert (Hlogs : Forall is_console logs) by (repeat constructor).
  unfold bind at 1 in E.
  destruct (create_byte_array (encode_faba_id id) ntag
              (World (hw w) (trace w ++ logs))) as [[image| |] w3] eqn:E3;
    destruct (create_byte_array_console _ _ _ _ _ E3) as (t3 & Ht3 & Hc3);
    cbn [hw trace] in Ht3; rewrite <- app_assoc in Ht3;
    assert (Hpre : Forall is_console (logs ++ t3)) by (by apply Forall_app);
    [|injection E as <- <-; exists (logs ++ t3); split; [done|]; left;
      by destruct (is_console_silent _ Hpre) as (_ & _ & ?)..].
  bind_step E written w4 E4;
    destruct (write_blocks_no_file _ _ _ _ _ _ _ E4) as (t4 & Ht4 & Hn4);
    [destruct written|..];
    [|injection E as <- <-; exists ((logs ++ t3) ++ t4);
      (split; [rewrite Ht4, Ht3, <- !app_assoc; done|]); left;
      rewrite saved_files_app, (no_file_saved _ Hn4);
      by destruct (is_console_silent _ Hpre) as (_ & _ & ->)..].
  apply write_blocks_ok in E4 as (got & Hw4). clear t4 Ht4 Hn4.
  bind_step E verified w5 E5;
    destruct (verify_blocks_no_file _ _ _ _ _ _ E5) as (t5 & Ht5 & Hn5);
    [destruct verified|..];
    [|injection E as <- <-;
      exists ((logs ++ t3) ++ ([Poll got] ++ ok_writes image (seq 4 (11 + 1 - 4))) ++ t5);
      (split; [rewrite Ht5, Hw4, Ht3, <- !app_assoc; done|]); left;
      rewrite !saved_files_app, (no_file_saved _ Hn5);
      destruct (is_console_silent _ Hlogs) as (_ & _ & ->);
      destruct (is_console_silent _ Hc3) as (_ & _ & ->);
      destruct (ok_writes_pages image (seq 4 (11 + 1 - 4))) as (_ & _ & ->);
      done..].
  apply verify_blocks_ok in E5. clear t5 Ht5 Hn5.
  erewrite bind_ret_eq in E by reflexivity.
  destruct (dump_ntag_off_tag _ _ _ _ _ _ E) as (t6 & Ht6 & Hc6).
  exists ((logs ++ t3) ++ Poll got :: ok_writes image (seq 4 8)
            ++ ok_reads image (seq 4 8) ++ Log Info MsgSuccessfullyWritten :: t6).
  split.
  - rewrite Ht6. cbn [trace]. rewrite E5, Hw4, Ht3, <- !app_assoc. reflexivity.
  - right. eexists image, _, w3, got, (logs ++ t3), _, t6.
    split; [by eexists|]. split; [exact E3|]. split; [exact E|].
    split; [exact Ht6|]. done.
Qed.

(** X2.  [write_ntag] saves the dump files only at the end of a run in
    which pages 4 to 11 were all written and then all read back equal to
    the image: a run that saves a file has written the eight pages, read
    the eight pages, logged the success, and saved nothing before. *)
Theorem write_ntag_saves_after_verify id ntag (w : world D) r w' :
  write_ntag id ntag w = (r, w') ->
  exists tr, trace w' = trace w ++ tr /\
    (saved_files tr ≠ [] ->
     exists image uid pre post,
       tr = pre ++ Poll uid :: ok_writes image (seq 4 8)
              ++ ok_reads image (seq 4 8)
              ++ Log Info MsgSuccessfullyWritten :: post /\
       Forall is_console pre /\ Forall off_tag post).
Proof.
  intros E. destruct (write_ntag_run _ _ _ _ _ E) as (tr & Htr & Hcase).
  exists tr. split; [done|]. intros Hs.
  destruct Hcase
    as [|(image & _ & _ & got & pre & _ & post & _ & _ & _ & _ & -> & ? & ?)];
    [done|].
  by exists image, got, pre, post.
Qed.

End WriteRun.

(** ** Computations that leave the reader alone *)

Section Offline.
Context {D : Type}.

Lemma offline_ret {A} (a : A) : offline (ret (D:=D) a).
Proof. intros w r w' E. by injection E as <- <-. Qed.

Lemma offline_raise {A} e : offline (raise (D:=D) (A:=A) e).
Proof. intros w r w' E. by injection E as <- <-. Qed.

Lemma offline_out_of_fuel {A} : offline (out_of_fuel (D:=D) (A:=A)).
Proof. intros w r w' E. by injection E as <- <-. Qed.

Lemma offline_lift {A} e (o : option A) : offline (lift (D:=D) e o).
Proof. destruct o; [apply offline_ret|apply offline_raise]. Qed.

Lemma offline_emit e : offline (emit (D:=D) e).
Proof. intros w r w' E. by injection E as <- <-. Qed.

Lemma offline_bind {A B} (m : M D A) (k : A -> M D B) :
  offline m -> (forall a, offline (k a)) -> offline (bind m k).
Proof.
  intros Hm Hk w r w' E. unfold bind in E.
  destruct (m w) as [[a|e|] w1] eqn:E1; specialize (Hm _ _ _ E1).
  - rewrite <- Hm. by eapply Hk.
  - by injection E as <- <-.
  - by injection E as <- <-.
Qed.

Lemma returns_bind {A B} (Q : B -> Prop) (m : M D A) (k : A -> M D B) :
  (forall a, returns Q (k a)) -> returns Q (bind m k).
Proof.
  intros Hk w b w' E. unfold bind in E.
  destruct (m w) as [[a|e|] w1]; [by eapply Hk|done..].
Qed.

Lemma returns_ret {A} (Q : A -> Prop) a : Q a -> returns Q (ret (D:=D) a).
Proof. intros HQ w b w' E. by injection E as <- <-. Qed.

End Offline.

Ltac offline_step :=
  match goal with
  | |- offline (bind _ _) => apply offline_bind; [| intros ?]
  | |- offline (ret _) => apply offline_ret
  | |- offline (raise _) => apply offline_raise
  | |- offline out_of_fuel => apply offline_out_of_fuel
  | |- offline (lift _ _) => apply offline_lift
  | |- offline (item _ _) => apply offline_lift
  | |- offline (logging _ _) => apply offline_emit
  | |- offline (print _) => apply offline_emit
  | |- offline (NTAGData.read_page _ _) => apply NTAGData_read_page_offline
  | |- offline (match ?x with _ => _ end) => destruct x
  | |- offline _ => solve [auto]
  end.

Ltac offline_auto := repeat offline_step.

(** ** The payload loop *)

Lemma take_payload_bound page_data full_payload remaining_bytes :
  0 <= remaining_bytes ->
  exists added,
    take_payload page_data full_payload remaining_bytes
      = (full_payload ++ added, remaining_bytes - Z.of_nat (length added)) /\
    Z.of_nat (length added) <= remaining_bytes /\ xfe ∉ added.
Proof.
  revert full_payload remaining_bytes.
  induction page_data as [|b rest IH]; intros fp rem Hrem; simpl.
  - exists []. rewrite app_nil_r, Z.sub_0_r. split; [done|]. split; [simpl; lia|].
    apply not_elem_of_nil.
  - case_bool_decide as Hz; [|case_bool_decide as Hb]; simpl.
    + exists []. rewrite app_nil_r, Z.sub_0_r. split; [done|]. split; [simpl; lia|].
      apply not_elem_of_nil.
    + exists []. rewrite app_nil_r, Z.sub_0_r. split; [done|]. split; [simpl; lia|].
      apply not_elem_of_nil.
    + destruct (IH (fp ++ [b]) (rem - 1)) as (added & -> & Hlen & Hno); [lia|].
      exists (b :: added). rewrite <- app_assoc. simpl. split; [f_equal; lia|].
      split; [lia|]. rewrite not_elem_of_cons. split; [congruence|done].
Qed.

Section Payload.
Context {D : Type} `{Env D}.

Lemma read_payload_run fuel ntag full_payload next_page remaining_bytes (w : world D) r w' :
  read_payload fuel ntag full_payload next_page remaining_bytes w = (r, w') ->
  hw w' = hw w /\
  (exists tr, trace w' = trace w ++ tr /\ Forall is_console tr) /\
  (r = OutOfFuel \/
   exists added, r = Ret (full_payload ++ added) /\
     Z.of_nat (length added) <= Z.max 0 remaining_bytes /\ xfe ∉ added).
Proof.
  revert full_payload next_page remaining_bytes w.
  induction fuel as [|fuel IH]; intros fp p rem w E.
  { injection E as <- <-. split; [done|]. split; [|by left].
    exists []. by rewrite app_nil_r. }
  simpl in E. destruct (Z.ltb_spec 0 rem) as [Hrem|Hrem].
  - unfold bind, NTAGData.read_page in E.
    destruct (NTAGData.pages ntag !! p) as [data|]; simpl in E.
    + destruct (take_payload_bound data fp rem) as (a1 & Et & Hl1 & Hn1); [lia|].
      rewrite Et in E. apply IH in E as (Hhw & Htr & Hr).
      split; [done|]. split; [done|].
      destruct Hr as [->|(a2 & -> & Hl2 & Hn2)]; [left; done|right].
      exists (a1 ++ a2). rewrite <- app_assoc. split; [done|].
      rewrite length_app, not_elem_of_app. split; [lia|done].
    + injection E as <- <-. split; [done|]. split.
      * eexists. split; [done|]. repeat constructor.
      * right. exists []. rewrite app_nil_r. split; [done|].
        split; [simpl; lia|apply not_elem_of_nil].
  - injection E as <- <-. split; [done|]. split.
    + exists []. by rewrite app_nil_r.
    + right. exists []. rewrite app_nil_r. split; [done|].
      split; [simpl; lia|apply not_elem_of_nil].
Qed.

(** X3.  The payload loop of [parse_text]: the bytes it adds to the buffer
    are at most [remaining_bytes] (none when that is not positive), none of
    them is the terminator [0xFE], and the loop leaves reader and disk
    alone, printing at most that a page is missing. *)
Theorem read_payload_bound fuel ntag full_payload next_page remaining_bytes
    (w : world D) payload w' :
  read_payload fuel ntag full_payload next_page remaining_bytes w = (Ret payload, w') ->
  exists added,
    payload = full_payload ++ added /\
    Z.of_nat (length added) <= Z.max 0 remaining_bytes /\
    (xfe ∉ added) /\
    hw w' = hw w /\
    (trace w' = trace w \/
     exists page, trace w' = trace w ++ [Stdout (MsgPageNotFound page)]).
Proof.
  intros E. destruct (read_payload_run _ _ _ _ _ _ _ _ E) as (Hhw & _ & [|Hr]); [done|].
  destruct Hr as (added & [= ->] & Hlen & Hno).
  exists added. repeat split; try done. clear Hlen Hno Hhw.
  revert full_payload next_page remaining_bytes added w E.
  induction fuel as [|fuel IH]; intros fp p rem added w E; [done|].
  simpl in E. destruct (0 <? rem); [|injection E as _ <-; by left].
  unfold bind, NTAGData.read_page in E.
  destruct (NTAGData.pages ntag !! p) as [data|]; simpl in E.
  - destruct (take_payload data fp rem) as [fp' rem'] eqn:Et.
    destruct (read_payload_run _ _ _ _ _ _ _ _ E) as (_ & _ & [|Hr]); [done|].
    destruct Hr as (a2 & [= Hr] & _). rewrite Hr in E. by eapply IH.
  - injection E as _ <-. right. by exists p.
Qed.

Lemma parse_text_offline ntag : offline (parse_text (D:=D) ntag).
Proof.
  unfold parse_text. offline_auto.
  intros w r w' E. by destruct (read_payload_run _ _ _ _ _ _ _ _ E) as (-> & _).
Qed.

Lemma read_payload_console fuel ntag full_payload next_page remaining_bytes :
  emits is_console (read_payload (D:=D) fuel ntag full_payload next_page remaining_bytes).
Proof. intros w r w' E. by destruct (read_payload_run _ _ _ _ _ _ _ _ E) as (_ & ? & _). Qed.

Lemma parse_text_console ntag : emits is_console (parse_text (D:=D) ntag).
Proof.
  unfold parse_text. pose proof (NTAGData_read_page_console (D:=D)).
  pose proof read_payload_console. emits_auto; auto.
Qed.

Lemma parse_text_returns ntag :
  returns (fun nt => nt = ntag \/
             exists c, nt = NTAGData.set_code ntag c /\ length c = 4%nat)
    (parse_text (D:=D) ntag).
Proof.
  unfold parse_text. apply returns_bind. intros [page6|].
  2: { apply returns_bind. intros _. apply returns_ret. by left. }
  do 6 (apply returns_bind; intros ?).
  destruct (_ <? _).
  { apply returns_bind. intros _. apply returns_ret. by left. }
  do 2 (apply returns_bind; intros ?).
  destruct (startswith _ _ && _) eqn:Ec.
  - apply returns_bind. intros _. apply returns_ret. right. eexists. split; [done|].
    apply andb_true_iff in Ec as [_ Ec%Z.leb_le].
    unfold slice. rewrite length_take, length_drop. lia.
  - apply returns_bind. intros _. apply returns_ret. by left.
Qed.

(** X5.  [parse_text] only reads the store it is given: a run leaves the
    reader and the disk as they were, adds nothing but log records and
    printed lines to the trace, and returns the store unchanged or with
    [code] set to a text of four characters. *)
Theorem parse_text_frame ntag (w : world D) r w' :
  parse_text ntag w = (r, w') ->
  hw w' = hw w /\
  (exists tr, trace w' = trace w ++ tr /\ Forall is_console tr) /\
  (forall nt, r = Ret nt ->
     nt = ntag \/ exists c, nt = NTAGData.set_code ntag c /\ length c = 4%nat).
Proof.
  intros E. split; [by eapply parse_text_offline|].
  split; [by eapply parse_text_console|].
  intros nt ->. by eapply parse_text_returns.
Qed.

(** X4.  A record header whose payload length (byte 1 of page 6) is smaller
    than the length of the language code (low six bits of byte 3) is
    rejected: whatever the other pages hold, [parse_text] returns without
    decoding anything, the store unchanged, after logging that the data
    are insufficient. *)
Theorem parse_text_insufficient ntag (w : world D) h pl t st :
  NTAGData.pages ntag !! 6%nat = Some [h; pl; t; st] ->
  byte_val pl < Z.land (byte_val st) 0x3F ->
  exists tr,
    parse_text ntag w =
      (Ret ntag, World (hw w) (trace w ++ tr ++ [Log Error MsgInsufficientData])) /\
    Forall is_console tr.
Proof.
  intros H6 Hshort.
  unfold parse_text, bind at 1, NTAGData.read_page at 1. rewrite H6. cbn [ret].
  repeat (erewrite bind_ret_eq by reflexivity).
  unfold bind at 1.
  destruct ((if bool_decide (t ≠ x54)
             then logging Info (MsgNoTextRecord t) else ret tt) w)
    as [r1 w1] eqn:Elog.
  assert (Hlog : r1 = Ret tt /\ hw w1 = hw w /\
                 exists t1, trace w1 = trace w ++ t1 /\ Forall is_console t1).
  { case_bool_decide; injection Elog as <- <-; (split; [done|]); (split; [done|]).
    - eexists. split; [done|]. repeat constructor.
    - exists []. by rewrite app_nil_r. }
  destruct Hlog as (-> & Hhw1 & t1 & Ht1 & Hc1).
  unfold bind at 1.
  match goal with |- context [read_payload ?f ?n ?fp ?p ?r ?w1] =>
    pose proof (read_payload_total f n fp p r w1) as Htot;
    destruct (read_payload f n fp p r w1) as [r2 w2] eqn:E2 end.
  destruct (read_payload_run _ _ _ _ _ _ _ _ E2) as (Hhw2 & (t2 & Ht2 & Hc2) & Hr).
  destruct Hr as [->|(added & -> & Hlen & _)].
  { exfalso. apply Htot; [|done].
    rewrite <- size_dom. apply le_n_S, subseteq_size.
    intros k. rewrite elem_of_filter. tauto. }
  pose proof (byte_val_range pl). cbn [app].
  destruct (Z.ltb_spec (Z.of_nat (length added)) (Z.land (byte_val st) 63)); [|lia].
  exists (t1 ++ t2). split; [|by apply Forall_app].
  unfold bind, logging, emit, ret. cbn [hw trace].
  rewrite Hhw2, Hhw1, Ht2, Ht1, <- !app_assoc. done.
Qed.


Lemma utf8_decode_ascii_app l r :
  Forall (fun b => byte_val b < 128) l ->
  utf8_decode (l ++ r) = (fun s => (byte_val <$> l) ++ s) <$> utf8_decode r.
Proof.
  induction 1 as [|b l Hb _ IH]; simpl.
  - by destruct (utf8_decode r).
  - unfold in_range at 1. pose proof (byte_val_range b).
    destruct (Z.leb_spec 0 (byte_val b)); [|lia].
    destruct (Z.leb_spec (byte_val b) 127); [|lia]. simpl.
    rewrite IH. by destruct (utf8_decode r).
Qed.

Lemma utf8_decode_lone b : 128 <= byte_val b -> utf8_decode [b] = None.
Proof.
  intros Hb. simpl. unfold in_range at 1.
  destruct (Z.leb_spec (byte_val b) 127); [lia|]. rewrite andb_false_r.
  repeat (destruct (in_range _ _ b); [done|]). done.
Qed.

(** The payload of the record that [write_ntag] writes, when one more byte
    [last] follows it in the buffer. *)
Lemma read_payload_faba_record ntag (w : world D) b0 b1 b2 b3 t1 t2 t3 :
  NTAGData.pages ntag !! 7%nat = Some [x65; x6e; x30; x32] ->
  NTAGData.pages ntag !! 8%nat = Some [x31; x39; x30; x35] ->
  NTAGData.pages ntag !! 9%nat = Some [x33; x30; b0; b1] ->
  NTAGData.pages ntag !! 10%nat = Some [b2; b3; x30; x30] ->
  NTAGData.pages ntag !! 11%nat = Some [xfe; t1; t2; t3] ->
  Forall (fun b => 48 <= byte_val b <= 57) [b0; b1; b2; b3] ->
  let record := [x65; x6e; x30; x32; x31; x39; x30; x35; x33; x30; b0; b1; b2; b3;
                 x30; x30] in
  (forall b rest12, NTAGData.pages ntag !! 12%nat = Some (b :: rest12) -> b ≠ xfe ->
     read_payload 7 ntag [] 7 17 w = (Ret (record ++ [b]), w)) /\
  (NTAGData.pages ntag !! 12%nat = None ->
     read_payload 7 ntag [] 7 17 w =
       (Ret record, World (hw w) (trace w ++ [Stdout (MsgPageNotFound 12)]))).
Proof.
  intros H7 H8 H9 H10 H11 Hd record.
  apply Forall_cons in Hd as [Hb0 Hd]. apply Forall_cons in Hd as [Hb1 Hd].
  apply Forall_cons in Hd as [Hb2 Hd]. apply Forall_cons in Hd as [Hb3 _].
  pose proof (digit_byte_not_terminator _ Hb0).
  pose proof (digit_byte_not_terminator _ Hb1).
  pose proof (digit_byte_not_terminator _ Hb2).
  pose proof (digit_byte_not_terminator _ Hb3).
  assert (Hok : forall l : list byte,
    Forall (fun b => b = b0 \/ b = b1 \/ b = b2 \/ b = b3 \/ byte_val b < 128) l ->
    Forall (fun b => b ≠ xfe) l).
  { intros l Hl. eapply Forall_impl; [exact Hl|].
    intros b [->|[->|[->|[->|Hb]]]]; try done.
    intros ->. vm_compute in Hb. done. }
  assert (Hhead : forall f, read_payload (S (S (S (S (S f))))) ntag [] 7 17 w
                  = read_payload f ntag record 12 1 w).
  { intros f.
    rewrite (read_payload_step _ _ _ _ _ _ _ H7) by lia.
    rewrite take_payload_all by
      (first [apply Hok; repeat constructor; by vm_compute | simpl; lia]).
    cbn [fst snd length app]. norm_rem.
    rewrite (read_payload_step _ _ _ _ _ _ _ H8) by lia.
    rewrite take_payload_all by
      (first [apply Hok; repeat constructor; by vm_compute | simpl; lia]).
    cbn [fst snd length app]. norm_rem.
    rewrite (read_payload_step _ _ _ _ _ _ _ H9) by lia.
    rewrite take_payload_all by
      (first [apply Hok; repeat constructor; (by vm_compute) || tauto | simpl; lia]).
    cbn [fst snd length app]. norm_rem.
    rewrite (read_payload_step _ _ _ _ _ _ _ H10) by lia.
    rewrite take_payload_all by
      (first [apply Hok; repeat constructor; (by vm_compute) || tauto | simpl; lia]).
    cbn [fst snd length app]. norm_rem.
    rewrite (read_payload_step _ _ _ _ _ _ _ H11) by lia.
    change (take_payload [xfe; t1; t2; t3] ?fp 1) with (fp, 1).
    reflexivity. }
  split.
  - intros b rest12 H12 Hb. rewrite Hhead.
    rewrite (read_payload_step _ _ _ _ _ _ _ H12) by lia.
    cbn [take_payload]. rewrite bool_decide_eq_false_2 by lia.
    rewrite bool_decide_eq_false_2 by done. cbn [orb].
    change (1 - 1) with 0. rewrite take_payload_zero. reflexivity.
  - intros H12. rewrite Hhead. cbn [read_payload]. change (0 <? 1) with true. cbv iota.
    unfold bind, NTAGData.read_page. rewrite H12. reflexivity.
Qed.

(** [parse_text] on a text record with the header that [write_ntag]
    writes, from the payload on. *)
Lemma parse_text_from_payload ntag (w : world D) f payload w2 :
  NTAGData.pages ntag !! 6%nat = Some [x01; x11; x54; x02] ->
  read_payload f ntag [] 7 17 w = (Ret payload, w2) ->
  (2 <= length payload)%nat ->
  parse_text ntag w =
    (lang_code <- lift UnicodeDecodeError (ascii_decode (take 2 payload)) ;;
     text_content <- lift UnicodeDecodeError (utf8_decode (drop 2 payload)) ;;
     if startswith text_content (lit "02190530")
        && (12 <=? Z.of_nat (length text_content))
     then
       logging Info (MsgFabaID (slice text_content 8 12)) ;;;
       ret (NTAGData.set_code ntag (slice text_content 8 12))
     else logging Info MsgNoValidFabaID ;;; ret ntag) w2.
Proof.
  intros H6 Hrun Hlen.
  unfold parse_text, bind at 1, NTAGData.read_page at 1. rewrite H6. cbn [ret].
  repeat (erewrite bind_ret_eq by reflexivity).
  change (byte_val x11) with 17.
  erewrite bind_ret_eq; cycle 1.
  { rewrite <- Hrun. apply read_payload_fuel.
    - apply read_payload_total.
      rewrite <- size_dom. apply le_n_S, subseteq_size.
      intros k. rewrite elem_of_filter. tauto.
    - by rewrite Hrun. }
  change (Z.land (byte_val x02) 63) with 2.
  change (Z.land (byte_val x02) 128) with 0.
  destruct (Z.ltb_spec (Z.of_nat (length payload)) 2); [lia|].
  rewrite bool_decide_eq_false_2 by (intros Hn; by apply Hn).
  reflexivity.
Qed.

(** X6.  Reading back the record that [write_ntag] writes (pages 6 to 11
    of the image for an identifier of four digits) depends on page 12,
    which [write_ntag] does not write: the payload length of 17 makes the
    loop go on after the terminator and take the first byte of page 12.
    With that byte below 0x80, or with no page 12, the identifier is
    found; with a byte of 0x80 or more other than 0xFE, [parse_text]
    raises [UnicodeDecodeError]. *)
Theorem parse_text_depends_on_page_12 ntag (w : world D) b0 b1 b2 b3 t1 t2 t3 :
  NTAGData.pages ntag !! 6%nat = Some [x01; x11; x54; x02] ->
  NTAGData.pages ntag !! 7%nat = Some [x65; x6e; x30; x32] ->
  NTAGData.pages ntag !! 8%nat = Some [x31; x39; x30; x35] ->
  NTAGData.pages ntag !! 9%nat = Some [x33; x30; b0; b1] ->
  NTAGData.pages ntag !! 10%nat = Some [b2; b3; x30; x30] ->
  NTAGData.pages ntag !! 11%nat = Some [xfe; t1; t2; t3] ->
  Forall (fun b => 48 <= byte_val b <= 57) [b0; b1; b2; b3] ->
  let id := byte_val <$> [b0; b1; b2; b3] in
  (forall b rest12, NTAGData.pages ntag !! 12%nat = Some (b :: rest12) ->
     byte_val b < 128 ->
     parse_text ntag w =
       (Ret (NTAGData.set_code ntag id),
        World (hw w) (trace w ++ [Log Info (MsgFabaID id)]))) /\
  (forall b rest12, NTAGData.pages ntag !! 12%nat = Some (b :: rest12) ->
     128 <= byte_val b -> b ≠ xfe ->
     parse_text ntag w = (Raise UnicodeDecodeError, w)) /\
  (NTAGData.pages ntag !! 12%nat = None ->
     parse_text ntag w =
       (Ret (NTAGData.set_code ntag id),
        World (hw w) (trace w ++ [Stdout (MsgPageNotFound 12);
                                  Log Info (MsgFabaID id)]))).
Proof.
  intros H6 H7 H8 H9 H10 H11 Hd id.
  destruct (read_payload_faba_record ntag w _ _ _ _ _ _ _ H7 H8 H9 H10 H11 Hd)
    as [Hsome Hnone].
  assert (Hdig : Forall (fun b => byte_val b < 128) [b0; b1; b2; b3]).
  { eapply Forall_impl; [exact Hd|]. simpl. lia. }
  apply Forall_cons in Hdig as [Hb0 Hdig]. apply Forall_cons in Hdig as [Hb1 Hdig].
  apply Forall_cons in Hdig as [Hb2 Hdig]. apply Forall_cons in Hdig as [Hb3 _].
  assert (Hascii : Forall (fun b => byte_val b < 128)
            [x30; x32; x31; x39; x30; x35; x33; x30; b0; b1; b2; b3; x30; x30]).
  { repeat constructor; (vm_compute; done) || lia. }
  split; [|split].
  - intros b rest12 H12 Hb.
    assert (b ≠ xfe) as Hne by (intros ->; vm_compute in Hb; done).
    rewrite (parse_text_from_payload _ _ _ _ _ H6 (Hsome _ _ H12 Hne)) by (simpl; lia).
    cbn [take drop app].
    change (ascii_decode [x65; x6e]) with (Some [101; 110]).
    erewrite bind_ret_eq by reflexivity.
    rewrite utf8_decode_ascii.
    2: { repeat constructor; (vm_compute; done) || lia. }
    erewrite bind_ret_eq by reflexivity.
    reflexivity.
  - intros b rest12 H12 Hb Hne.
    rewrite (parse_text_from_payload _ _ _ _ _ H6 (Hsome _ _ H12 Hne)) by (simpl; lia).
    cbn [take drop app].
    change (ascii_decode [x65; x6e]) with (Some [101; 110]).
    erewrite bind_ret_eq by reflexivity.
    change [x30; x32; x31; x39; x30; x35; x33; x30; b0; b1; b2; b3; x30; x30; b]
      with ([x30; x32; x31; x39; x30; x35; x33; x30; b0; b1; b2; b3; x30; x30] ++ [b]).
    rewrite (utf8_decode_ascii_app _ _ Hascii), utf8_decode_lone by done.
    reflexivity.
  - intros H12.
    rewrite (parse_text_from_payload _ _ _ _ _ H6 (Hnone H12)) by (simpl; lia).
    cbn [take drop app].
    change (ascii_decode [x65; x6e]) with (Some [101; 110]).
    erewrite bind_ret_eq by reflexivity.
    rewrite utf8_decode_ascii by exact Hascii.
    erewrite bind_ret_eq by reflexivity.
    match goal with |- context [if ?c then _ else _] => change c with true end.
    cbv iota. unfold bind, logging, emit, ret. cbn [hw trace].
    rewrite <- app_assoc. reflexivity.
Qed.

End Payload.

(** ** The store as a byte image *)

Lemma StronglySorted_seq start n : StronglySorted le (seq start n).
Proof.
  revert start. induction n as [|n IH]; intros start; simpl; constructor; [done|].
  apply Forall_forall. intros k Hk%elem_of_seq. lia.
Qed.

Lemma sorted_pages_seq (pages : gmap nat (list byte)) n :
  (forall k, is_Some (pages !! k) <-> (k < n)%nat) ->
  sorted_pages pages = seq 0 n.
Proof.
  intros Hdom. unfold sorted_pages.
  apply (StronglySorted_unique le).
  - apply StronglySorted_merge_sort; apply _.
  - apply StronglySorted_seq.
  - rewrite merge_sort_Permutation. apply NoDup_Permutation.
    + apply NoDup_fst_map_to_list.
    + apply NoDup_seq.
    + intros k. rewrite elem_of_seq, list_elem_of_fmap. split.
      * intros ([k' data] & -> & Hin%elem_of_map_to_list). simpl.
        assert (k' < n)%nat by (apply Hdom; eauto). lia.
      * intros [_ Hk]. simpl in Hk. apply Hdom in Hk as [data Hdata].
        exists (k, data). split; [done|]. by apply elem_of_map_to_list.
Qed.

Lemma concat_lookups {A} (chunks : list (list A)) (f : nat -> option (list A)) start :
  (forall k, (k < length chunks)%nat -> f (start + k)%nat = chunks !! k) ->
  concat ((fun k => default [] (f k)) <$> seq start (length chunks)) = concat chunks.
Proof.
  revert start. induction chunks as [|c chunks IH]; intros start Hf; [done|].
  simpl. rewrite <- (IH (S start)).
  - specialize (Hf 0%nat). rewrite Nat.add_0_r in Hf. rewrite Hf by (simpl; lia). done.
  - intros k Hk. specialize (Hf (S k)). rewrite Nat.add_succ_r in Hf.
    apply Hf. simpl. lia.
Qed.

Lemma get_all_bytes_chunks (self : NTAGData.t) (chunks : list (list byte)) :
  (forall k, NTAGData.pages self !! k = chunks !! k) ->
  get_all_bytes self = concat chunks.
Proof.
  intros Hp. unfold get_all_bytes.
  rewrite (sorted_pages_seq _ (length chunks)).
  - apply concat_lookups. intros k _. apply Hp.
  - intros k. rewrite Hp. apply lookup_lt_is_Some.
Qed.

Lemma concat_chunks4 {A} (l : list A) : concat (chunks4 l) = l.
Proof.
  assert (forall n (l : list A), (length l <= n)%nat -> concat (chunks4 l) = l) as Hn.
  { clear l. intros n. induction n as [n IH] using lt_wf_ind. intros l Hl.
    destruct l as [|a [|b [|c [|d rest]]]]; try done.
    change (concat (chunks4 (a :: b :: c :: d :: rest)))
      with (a :: b :: c :: d :: concat (chunks4 rest)).
    rewrite (IH (length rest)); [done| |done]. simpl in Hl. lia. }
  by apply (Hn (length l)).
Qed.

(** X7.  [get_all_bytes] gives back the image a store was filled from: the
    pages are concatenated in ascending order of their index, whatever the
    order in which the dictionary holds them, and a last page of fewer than
    four bytes is kept as it is. *)
Theorem get_all_bytes_load_image image ntag :
  get_all_bytes (load_image image ntag) = image.
Proof.
  rewrite (get_all_bytes_chunks _ (chunks4 image)).
  - apply concat_chunks4.
  - intros k. apply load_image_lookup.
Qed.

(** ** Detection, page by page *)

Lemma reads_from_cons page data datas :
  reads_from page (data :: datas)
  = ReadBlock page (Reply (Some data)) :: reads_from (page + 1) datas.
Proof.
  unfold reads_from. simpl. rewrite Nat.add_0_r. f_equal.
  apply imap_ext. intros k d _. simpl. f_equal. lia.
Qed.

Section DetectRun.
Context {D : Type} `{Env D}.

Lemma wait_loop_polling fuel : emits polling (wait_loop (D:=D) fuel).
Proof.
  induction fuel as [|fuel IH]; simpl; unfold pn532_read_passive_target; emits_auto.
Qed.

Lemma wait_for_card_polling fuel : emits polling (wait_for_card (D:=D) fuel).
Proof.
  unfold wait_for_card. pose proof (wait_loop_polling fuel). emits_auto.
Qed.

Lemma wait_loop_uid fuel (w : world D) uid w' :
  wait_loop fuel w = (Ret uid, w') -> uid ≠ [].
Proof.
  revert w. induction fuel as [|fuel IH]; intros w E; [done|].
  simpl in E. bind_step E o w1 E1; [|done..].
  destruct o as [[|b l]|]; [by eapply IH| |by eapply IH].
  unfold bind, logging, emit, ret in E. by injection E as <- _.
Qed.

Lemma wait_for_card_uid fuel (w : world D) uid w' :
  wait_for_card fuel w = (Ret uid, w') -> uid ≠ [].
Proof.
  unfold wait_for_card. erewrite bind_ret_eq by reflexivity. apply wait_loop_uid.
Qed.

Lemma wait_loop_polls fuel (w : world D) uid w' :
  wait_loop fuel w = (Ret uid, w') ->
  exists misses,
    (length misses < fuel)%nat /\
    Forall (fun r => r = Reply None \/ r = Reply (Some [])) misses /\
    polled (trace w') = polled (trace w) ++ misses ++ [Reply (Some uid)].
Proof.
  assert (Hsnoc : forall tr r, polled (tr ++ [Poll r]) = polled tr ++ [r]).
  { intros tr r. unfold polled. by rewrite omap_app. }
  revert w. induction fuel as [|fuel IH]; intros w E; [done|].
  simpl in E. unfold bind at 1, pn532_read_passive_target, call in E.
  destruct (read_passive_target (hw w)) as [[[[|b l]|]|] d]; cbn [hw trace] in E.
  - apply IH in E as (misses & Hlen & Hm & Htr). cbn [trace] in Htr.
    exists (Reply (Some []) :: misses). split; [simpl; lia|].
    split; [constructor; auto|]. rewrite Htr, Hsnoc, <- app_assoc. done.
  - unfold bind, logging, emit, ret in E. cbn [hw trace] in E.
    injection E as <- <-. exists []. split; [simpl; lia|]. split; [constructor|].
    cbn [trace]. unfold polled. rewrite !omap_app. simpl. by rewrite app_nil_r.
  - apply IH in E as (misses & Hlen & Hm & Htr). cbn [trace] in Htr.
    exists (Reply None :: misses). split; [simpl; lia|].
    split; [constructor; auto|]. rewrite Htr, Hsnoc, <- app_assoc. done.
  - done.
Qed.

Lemma read_all_pages_run fuel page ntag (w : world D) nt page' w' :
  read_all_pages fuel page ntag w = (Ret (nt, page'), w') ->
  exists datas last tail,
    page' = (page + length datas)%nat /\
    trace w' = trace w ++ reads_from page datas ++ ReadBlock page' last :: tail /\
    Forall polling tail /\
    (forall data, last = Reply (Some data) -> data = []) /\
    Forall (fun data => data ≠ []) datas /\
    (forall k, NTAGData.pages nt !! k =
               if decide (page <= k < page')%nat then datas !! (k - page)%nat
               else NTAGData.pages ntag !! k) /\
    NTAGData.uid nt = NTAGData.uid ntag.
Proof.
  revert page ntag w. induction fuel as [|fuel IH]; intros page ntag w E; [done|].
  simpl in E. unfold bind in E.
  destruct (read_page_run page w) as (got & tail & _ & Htr & Hr & Htail).
  destruct (read_page page w) as [r1 w1]. simpl in Htr, Hr. subst r1.
  assert (Hstop : ntag = nt -> page = page' -> w1 = w' ->
            (forall data, got = Reply (Some data) -> data = []) ->
            exists datas last tail,
              page' = (page + length datas)%nat /\
              trace w' = trace w ++ reads_from page datas ++ ReadBlock page' last :: tail /\
              Forall polling tail /\
              (forall data, last = Reply (Some data) -> data = []) /\
              Forall (fun data => data ≠ []) datas /\
              (forall k, NTAGData.pages nt !! k =
                         if decide (page <= k < page')%nat then datas !! (k - page)%nat
                         else NTAGData.pages ntag !! k) /\
              NTAGData.uid nt = NTAGData.uid ntag).
  { intros <- <- <- Hgot. exists [], got, tail. split; [simpl; lia|].
    split; [done|]. split; [destruct got; subst tail; repeat constructor|].
    split; [done|]. split; [constructor|]. split; [|done].
    intros k. case_decide; [lia|done]. }
  destruct got as [[[|b l]|]|]; simpl in E.
  - injection E as ? ? ?. apply Hstop; try done. by intros data [= <-].
  - subst tail. apply IH in E
      as (datas & last & tail & -> & Htr' & Htail & Hlast & Hne & Hpages & Huid).
    exists ((b :: l) :: datas), last, tail. split; [simpl; lia|].
    split.
    { rewrite Htr', Htr, reads_from_cons, <- app_assoc. done. }
    split; [done|]. split; [done|]. split; [by constructor|]. split; [|done].
    intros k. rewrite Hpages. simpl.
    repeat case_decide; try lia.
    + replace (k - page)%nat with (S (k - (page + 1)))%nat by lia. done.
    + assert (k = page) as -> by lia. rewrite lookup_insert_eq, Nat.sub_diag. done.
    + rewrite lookup_insert_ne by lia. done.
  - injection E as ? ? ?. apply Hstop; try done.
  - injection E as ? ? ?. apply Hstop; try done.
Qed.

(** X8.  Detection of a tag into a fresh store, and the dump made from it
    ([ntag.get_all_bytes()]): the pages are read in ascending order from
    page 0 until the first read that gives nothing, every page read before
    that one is stored under its index, and no other; the image of the dump
    is the concatenation of what the reader returned, in that order.  More
    than three pages were read, and for a tag of unknown type the size is
    the number of pages read. *)
Theorem detect_card_reads fuel ntag (w : world D) nt b w' :
  NTAGData.pages ntag = ∅ ->
  detect_card fuel ntag w = (Ret (nt, b), w') ->
  exists pre datas last post,
    trace w' = trace w ++ pre ++ reads_from 0 datas
                 ++ ReadBlock (length datas) last :: post /\
    Forall polling pre /\ Forall polling post /\
    (forall data, last = Reply (Some data) -> data = []) /\
    Forall (fun data => data ≠ []) datas /\
    (forall k, NTAGData.pages nt !! k = datas !! k) /\
    get_all_bytes nt = concat datas /\
    (3 < length datas)%nat /\
    (NTAGData.type nt = Unknown -> NTAGData.size nt = length datas).
Proof.
  intros Hempty E. unfold detect_card in E.
  bind_step E uid w1 E1; [|done..].
  destruct (wait_for_card_polling _ _ _ _ E1) as (pre & Hpre & Hcpre).
  bind_step E res w2 E2; [|done..]. destruct res as [nt2 page].
  apply read_all_pages_run in E2
    as (datas & last & tail & Hpage & Htr & Htail & Hlast & Hne & Hpages & _).
  simpl in Hpage. subst page.
  assert (Hlook : forall k, NTAGData.pages nt2 !! k = datas !! k).
  { intros k. rewrite Hpages. simpl. rewrite Hempty, lookup_empty.
    case_decide; [by rewrite Nat.sub_0_r|].
    symmetry. apply lookup_ge_None. lia. }
  unfold bind at 1, NTAGData.read_page in E. rewrite Hlook in E.
  destruct (datas !! 3%nat) as [page3|] eqn:E3; [|done]. cbn [ret] in E.
  apply lookup_lt_Some in E3.
  bind_step E cc_byte w3 E4; [|done..].
  assert (w3 = w2) as ->.
  { unfold item in E4. destruct (page3 !! 2%nat); [|done]. by injection E4 as _ <-. }
  destruct (verify_cc cc_byte (length datas)) as [ty page] eqn:Ecc.
  unfold bind, logging, emit, ret in E. cbn [hw trace] in E. injection E as <- _ <-.
  exists pre, datas, last, (tail ++ [Log Info (MsgType ty cc_byte); Log Info (MsgPages page)]).
  split.
  { cbn [trace]. rewrite Htr, Hpre, <- !app_assoc. done. }
  split; [done|]. split; [apply Forall_app; split; [done|repeat constructor]|].
  split; [done|]. split; [done|]. split; [done|].
  split; [by apply get_all_bytes_chunks|]. split; [done|].
  simpl. intros ->. unfold verify_cc in Ecc.
  repeat (case_bool_decide; try discriminate). by injection Ecc as <-.
Qed.

End DetectRun.

(** ** Erasing *)

Lemma writing_silent tr :
  Forall writing tr -> read_back_pages tr = [] /\ saved_files tr = [].
Proof.
  induction 1 as [|e tr He _ [IH1 IH2]]; [done|].
  destruct e; try done; simpl; auto.
Qed.

Lemma quiet_no_file_silent tr :
  Forall quiet tr -> Forall no_file tr -> written_pages tr = [] /\ saved_files tr = [].
Proof.
  intros Hq Hn. split; [by apply written_pages_quiet|by apply no_file_saved].
Qed.

Lemma list_mul_zeros k :
  list_mul (list_mul [x00] k) 4 = replicate (4 * Z.to_nat k) x00.
Proof.
  unfold list_mul. change (Z.to_nat 4) with 4%nat. simpl. rewrite app_nil_r.
  assert (forall n, concat (replicate n [x00]) = replicate n x00) as ->.
  { intros n. induction n as [|n IH]; [done|]. simpl. by rewrite IH. }
  rewrite <- !replicate_add. f_equal. lia.
Qed.

(** X9.  The image that [erase_ntag] builds is 44 bytes long for a tag of
    up to 11 pages and four bytes per page of the tag beyond that: the
    filler [[0x00] * (ntag.size - 11) * 4] is empty for a size below 11,
    while pages 0 to 5 and the five last pages are always there. *)
Theorem erase_image_length ntag :
  length (erase_image ntag) = (4 * (NTAGData.size ntag `max` 11))%nat.
Proof.
  unfold erase_image. rewrite list_mul_zeros.
  destruct (NTAGData.type ntag); rewrite !length_app, length_replicate; simpl; lia.
Qed.

Section EraseRun.
Context {D : Type} `{Env D} `{Console D}.

Lemma write_blocks_writing byte_array start end_ ntag :
  emits writing (write_blocks (D:=D) byte_array start end_ ntag).
Proof.
  unfold write_blocks, pn532_read_passive_target.
  apply emits_bind; [emits_auto|]. intros uid.
  destruct (bool_decide _); [|emits_auto].
  induction (seq start (end_ + 1 - start)) as [|p blocks IH]; simpl;
    unfold pn532_ntag2xx_write_block; emits_auto.
Qed.

Lemma erase_range size : (size - 1 + 1 - 4 = size - 4)%nat.
Proof. lia. Qed.

(** X10.  [erase_ntag] writes pages in ascending order from page 4 and
    never beyond the last page of the tag, so never pages 0 to 3; it reads
    pages back only after it has written them all, and it saves no
    file. *)
Theorem erase_ntag_pages ntag (w : world D) r w' :
  erase_ntag ntag w = (r, w') ->
  exists tr, trace w' = trace w ++ tr /\
    written_pages tr `prefix_of` seq 4 (NTAGData.size ntag - 4) /\
    (forall p, p ∈ written_pages tr -> (4 <= p < NTAGData.size ntag)%nat) /\
    (read_back_pages tr ≠ [] -> written_pages tr = seq 4 (NTAGData.size ntag - 4)) /\
    saved_files tr = [].
Proof.
  intros E.
  assert (Hin : forall tr, written_pages tr `prefix_of` seq 4 (NTAGData.size ntag - 4) ->
            forall p, p ∈ written_pages tr -> (4 <= p < NTAGData.size ntag)%nat).
  { intros tr [rest Hrest] p Hp.
    assert (p ∈ seq 4 (NTAGData.size ntag - 4)) as Hs
      by (rewrite Hrest; apply elem_of_app; by left).
    apply elem_of_seq in Hs. lia. }
  assert (Hdone : forall tr, trace w' = trace w ++ tr ->
            written_pages tr `prefix_of` seq 4 (NTAGData.size ntag - 4) ->
            (read_back_pages tr ≠ [] -> written_pages tr = seq 4 (NTAGData.size ntag - 4)) ->
            saved_files tr = [] ->
            exists tr, trace w' = trace w ++ tr /\
              written_pages tr `prefix_of` seq 4 (NTAGData.size ntag - 4) /\
              (forall p, p ∈ written_pages tr -> (4 <= p < NTAGData.size ntag)%nat) /\
              (read_back_pages tr ≠ [] ->
               written_pages tr = seq 4 (NTAGData.size ntag - 4)) /\
              saved_files tr = []).
  { intros tr ? ? ? ?. exists tr. eauto 10. }
  unfold erase_ntag in E.
  erewrite bind_ret_eq in E by reflexivity.
  destruct (NTAGData.uid ntag) as [uid|]; cbn [lift] in E.
  2: { erewrite bind_raise_eq in E by reflexivity. injection E as <- <-.
       apply (Hdone []); [by rewrite app_nil_r|apply prefix_nil|done|done]. }
  do 3 erewrite bind_ret_eq in E by reflexivity. cbn [hw trace] in E.
  bind_step E written w4 E4;
    destruct (write_blocks_pages _ _ _ _ _ _ _ E4) as (t4 & Ht4 & Hp4);
    destruct (write_blocks_writing _ _ _ _ _ _ _ E4) as (t4' & Ht4' & Hw4);
    cbn [trace] in Ht4, Ht4';
    rewrite Ht4 in Ht4'; apply app_inv_head in Ht4'; subst t4';
    destruct (writing_silent _ Hw4) as [Hr4 Hs4];
    rewrite erase_range in Hp4;
    [destruct written|..];
    [|injection E as <- <-; by apply (Hdone t4); rewrite ?Hr4..].
  apply write_blocks_ok in E4 as (got & Hok). cbn [trace] in Hok.
  rewrite Ht4 in Hok. apply app_inv_head in Hok. subst t4. clear Hp4 Hw4 Hr4 Hs4.
  rewrite erase_range in Ht4.
  assert (Hwr : written_pages (Poll got :: ok_writes (erase_image ntag)
                                 (seq 4 (NTAGData.size ntag - 4)))
                = seq 4 (NTAGData.size ntag - 4)).
  { by destruct (ok_writes_pages (erase_image ntag) (seq 4 (NTAGData.size ntag - 4)))
      as (? & _ & _). }
  assert (Hsv : saved_files (Poll got :: ok_writes (erase_image ntag)
                               (seq 4 (NTAGData.size ntag - 4))) = []).
  { by destruct (ok_writes_pages (erase_image ntag) (seq 4 (NTAGData.size ntag - 4)))
      as (_ & _ & ?). }
  assert (Hfin : forall w5 t5, trace w5 = trace w4 ++ t5 -> Forall quiet t5 ->
            Forall no_file t5 -> w' = w5 ->
            exists tr, trace w' = trace w ++ tr /\
              written_pages tr `prefix_of` seq 4 (NTAGData.size ntag - 4) /\
              (forall p, p ∈ written_pages tr -> (4 <= p < NTAGData.size ntag)%nat) /\
              (read_back_pages tr ≠ [] ->
               written_pages tr = seq 4 (NTAGData.size ntag - 4)) /\
              saved_files tr = []).
  { intros w5 t5 Ht5 Hq5 Hn5 ->.
    destruct (quiet_no_file_silent _ Hq5 Hn5) as [Hw5 Hs5].
    apply (Hdone ((Poll got :: ok_writes (erase_image ntag)
                     (seq 4 (NTAGData.size ntag - 4))) ++ t5)).
    - by rewrite Ht5, Ht4, <- app_assoc.
    - by rewrite written_pages_app, Hwr, Hw5, app_nil_r.
    - intros _. by rewrite written_pages_app, Hwr, Hw5, app_nil_r.
    - by rewrite saved_files_app, Hsv, Hs5. }
  bind_step E verified w5 E5;
    destruct (verify_blocks_no_file _ _ _ _ _ _ E5) as (t5 & Ht5 & Hn5);
    destruct (verify_loop_quiet _ _ _ _ _ E5) as (t5' & Ht5' & Hq5);
    rewrite Ht5 in Ht5'; apply app_inv_head in Ht5'; subst t5';
    [destruct verified|..];
    try (injection E as <- <-; by apply (Hfin w5 t5)).
  unfold logging_text in E. injection E as _ Hw'. symmetry in Hw'.
  exact (Hfin (World _ (trace w5)) t5 Ht5 Hq5 Hn5 Hw').
Qed.

(** X11.  On a tag of at most four pages whose UID is the one detected,
    [erase_ntag] has nothing to write and nothing to verify: after the
    poll it touches the tag no more, and it reports the tag as
    successfully erased. *)
Theorem erase_ntag_nothing_to_erase ntag (w : world D) uid d :
  NTAGData.uid ntag = Some uid ->
  (NTAGData.size ntag <= 4)%nat ->
  read_passive_target (erase_banner ntag uid (hw w)) = (Reply (Some uid), d) ->
  erase_ntag ntag w =
    (Ret tt,
     World (console_log Info (lit "NTAG successfully erased") d)
       (trace w ++ [Poll (Reply (Some uid))])).
Proof.
  intros Huid Hsize Hpoll. unfold erase_ntag.
  erewrite bind_ret_eq by reflexivity. rewrite Huid. cbn [lift].
  do 3 erewrite bind_ret_eq by reflexivity. cbn [hw trace].
  unfold write_blocks, verify_blocks.
  replace (NTAGData.size ntag - 1 + 1 - 4)%nat with 0%nat by lia. cbn [seq].
  unfold bind at 1 2, pn532_read_passive_target, call. cbn beta. cbn [hw trace].
  fold (erase_banner ntag uid (hw w)). rewrite Hpoll.
  rewrite bool_decide_eq_true_2 by done. reflexivity.
Qed.

End EraseRun.

(** Evaluates the test of a conditional at the head of a computation. *)
Ltac head_test :=
  match goal with
  | |- (if ?c then _ else _) _ = _ =>
      let c' := eval vm_compute in c in change c with c'; cbv iota
  end.

Section EraseRead.
Context {D : Type} `{Env D}.

Lemma erase_image_page_6 ntag :
  chunks4 (erase_image ntag) !! 6%nat
  = Some (if decide (12 <= NTAGData.size ntag)%nat
          then [x00; x00; x00; x00] else [x00; x00; x00; xbd]).
Proof.
  unfold erase_image. rewrite list_mul_zeros. case_decide.
  - replace (4 * Z.to_nat (Z.of_nat (NTAGData.size ntag) - 11))%nat
      with (4 + 4 * (NTAGData.size ntag - 12))%nat by lia.
    destruct (NTAGData.type ntag); reflexivity.
  - replace (4 * Z.to_nat (Z.of_nat (NTAGData.size ntag) - 11))%nat
      with 0%nat by lia.
    destruct (NTAGData.type ntag); reflexivity.
Qed.

(** X12.  A store filled from the image that [erase_ntag] writes holds no
    identifier: [parse_text] finds a record of payload length 0 that is
    not a text record and returns the store as it is, for a tag of 12
    pages or more after decoding an empty text, for a smaller one because
    page 6 is then the first of the five last pages, whose byte 0xBD asks
    for a language code of 61 bytes. *)
Theorem parse_text_erased ntag ntag0 (w : world D) :
  let store := load_image (erase_image ntag) ntag0 in
  parse_text store w =
    (Ret store,
     World (hw w)
       (trace w ++ [Log Info (MsgNoTextRecord x00);
                    if decide (12 <= NTAGData.size ntag)%nat
                    then Log Info MsgNoValidFabaID
                    else Log Error MsgInsufficientData])).
Proof.
  intros store.
  assert (H6 : NTAGData.pages store !! 6%nat
               = Some (if decide (12 <= NTAGData.size ntag)%nat
                       then [x00; x00; x00; x00] else [x00; x00; x00; xbd])).
  { unfold store. rewrite load_image_lookup. apply erase_image_page_6. }
  generalize dependent store. intros store H6.
  unfold parse_text, bind at 1, NTAGData.read_page at 1. rewrite H6. cbn [ret].
  case_decide.
  - repeat (erewrite bind_ret_eq by reflexivity). head_test.
    repeat (erewrite bind_ret_eq by reflexivity). head_test.
    unfold bind, logging, emit, ret. cbn [hw trace]. rewrite <- app_assoc. reflexivity.
  - repeat (erewrite bind_ret_eq by reflexivity). head_test.
    unfold bind, logging, emit, ret. cbn [hw trace]. rewrite <- app_assoc. reflexivity.
Qed.

End EraseRead.

(** ** Images for an identifier, and their files *)

Section FabaImage.
Context {D : Type} `{Env D}.

Lemma create_byte_array_faba id ntag (w : world D) :
  Forall (fun c => 0 <= c < 128) id ->
  exists p03 w1,
    copy_pages ntag (seq 0 4) [] w = (Ret p03, w1) /\ length p03 = 16%nat /\
    create_byte_array (encode_faba_id id) ntag w =
      (Ret (p03 ++ [x01; x03; default xa0 (size_to_mlen !! NTAGData.size ntag); x0c]
            ++ [x34; x03; x15; xd1] ++ [x01; x11; x54; x02]
            ++ (byte_of_Z <$> encode_faba_id id) ++ [xfe; x00; x00; x00]
            ++ list_mul (list_mul [x00] (Z.of_nat (NTAGData.size ntag) - 17)) 4
            ++ last5), w1).
Proof.
  intros Hid.
  assert (Henc : utf8_encode (encode_faba_id id) = Some (byte_of_Z <$> encode_faba_id id)).
  { apply utf8_encode_ascii. unfold encode_faba_id.
    apply Forall_app. split; [repeat constructor; by vm_compute|].
    apply Forall_app. split; [done|repeat constructor; by vm_compute]. }
  destruct (copy_pages_run ntag (seq 0 4) [] w) as (p03 & w1 & E03 & L03).
  exists p03, w1. split; [done|]. split; [done|].
  unfold create_byte_array. erewrite bind_ret_eq by exact E03.
  change (encode_faba_id id) with (101 :: (lit "n02190530" ++ id ++ lit "00")) at 1.
  cbv iota.
  change (101 :: (lit "n02190530" ++ id ++ lit "00")) with (encode_faba_id id).
  rewrite Henc.
  erewrite bind_ret_eq by (unfold bind, lift, ret; rewrite int_pairs_hex; reflexivity).
  reflexivity.
Qed.

(** [dump_ntag] of a list when the bytes 38 to 41 of the image give the
    name. *)
Lemma dump_ntag_stem byte_array ntag (w : world D) uid stem :
  NTAGData.uid ntag = Some uid ->
  43 < Z.of_nat (length byte_array) ->
  concat ((fun b => if printable b then [byte_val b] else [])
            <$> slice byte_array 38 42) = stem ->
  stem ≠ [] ->
  exists w' tr, dump_ntag PyList byte_array ntag w = (Ret tt, w') /\
    trace w' = trace w ++ tr /\
    saved_files tr = [stem ++ lit ".raw"; stem ++ lit ".ndef"; stem ++ lit ".nfc"].
Proof.
  intros Huid Hlen Hstem Hne.
  destruct (dump_ntag_run PyList byte_array ntag w stem Hlen)
    as (w' & tr & E & Htr & Hall & _).
  { cbv zeta. rewrite Hstem, bool_decide_eq_false_2 by done. reflexivity. }
  exists w', tr. split; [done|]. split; [done|].
  apply Hall; [by left|]. rewrite Huid. by eexists.
Qed.

Lemma digits_stem (id : str) :
  Forall (fun c => 48 <= c <= 57) id ->
  concat ((fun b => if printable b then [byte_val b] else [])
            <$> (byte_of_Z <$> id)) = id.
Proof.
  induction 1 as [|d id Hd _ IH]; [done|].
  rewrite !fmap_cons. cbn [concat]. rewrite IH.
  pose proof (byte_val_of_Z d ltac:(lia)) as Hv.
  rewrite (proj2 (printable_range (byte_of_Z d))) by lia. by rewrite Hv.
Qed.


Lemma faba_image_stem (p03 : list byte) mlen (id : str) rest :
  length p03 = 16%nat -> length id = 4%nat ->
  let image := p03 ++ [x01; x03; mlen; x0c] ++ [x34; x03; x15; xd1]
                 ++ [x01; x11; x54; x02] ++ (byte_of_Z <$> encode_faba_id id)
                 ++ rest in
  slice image 38 42 = byte_of_Z <$> id /\ 43 < Z.of_nat (length image).
Proof.
  intros L03 Lid image.
  destruct p03 as [|a0 [|a1 [|a2 [|a3 [|a4 [|a5 [|a6 [|a7 [|a8 [|a9 [|a10 [|a11
    [|a12 [|a13 [|a14 [|a15 [|]]]]]]]]]]]]]]]]]; try discriminate.
  destruct id as [|d0 [|d1 [|d2 [|d3 [|]]]]]; try discriminate.
  split; [reflexivity|]. unfold image. simpl. lia.
Qed.

(** X13.  The files that [write_ntag] saves for an identifier of four
    digits are named after it: a run either saves nothing, or returns
    after saving [id.raw], [id.ndef] and [id.nfc], in this order. *)
Theorem write_ntag_file_names id ntag (w : world D) r w' :
  length id = 4%nat ->
  Forall (fun c => 48 <= c <= 57) id ->
  write_ntag id ntag w = (r, w') ->
  exists tr, trace w' = trace w ++ tr /\
    (saved_files tr = [] \/
     r = Ret tt /\
     saved_files tr = [id ++ lit ".raw"; id ++ lit ".ndef"; id ++ lit ".nfc"]).
Proof.
  intros Lid Hid E. destruct (write_ntag_run _ _ _ _ _ E) as (tr & Htr & Hcase).
  exists tr. split; [done|].
  destruct Hcase as [|(image & w0 & w3 & got & pre & w5 & post
                        & [uid Huid] & E3 & E6 & Ht6 & -> & Hpre & _)]; [by left|].
  right.
  destruct (create_byte_array_faba id ntag w0) as (p03 & w1 & _ & L03 & E3').
  { eapply Forall_impl; [exact Hid|]. simpl. lia. }
  rewrite E3 in E3'. apply ret_pair_inj in E3' as [-> _].
  match type of E6 with
    dump_ntag _ (p03 ++ [_; _; ?mlen; _] ++ _ ++ _ ++ _ ++ ?rest) _ _ = _ =>
    destruct (faba_image_stem p03 mlen id rest L03 Lid) as [Hslice Hlen] end.
  destruct (dump_ntag_stem _ ntag w5 uid id Huid Hlen) as (w6 & t6 & E6' & Ht6' & Hs6).
  { rewrite Hslice. by apply digits_stem. }
  { by destruct id. }
  rewrite E6 in E6'. injection E6' as -> <-.
  rewrite Ht6 in Ht6'. apply app_inv_head in Ht6'. subst t6.
  split; [done|].
  rewrite !saved_files_app. destruct (is_console_silent _ Hpre) as (_ & _ & ->).
  change (Poll got :: ?l) with ([Poll got] ++ l). rewrite !saved_files_app.
  destruct (ok_writes_pages (p03 ++ [x01; x03;
      default xa0 (size_to_mlen !! NTAGData.size ntag); x0c] ++ [x34; x03; x15; xd1]
      ++ [x01; x11; x54; x02] ++ (byte_of_Z <$> encode_faba_id id)
      ++ [xfe; x00; x00; x00]
      ++ list_mul (list_mul [x00] (Z.of_nat (NTAGData.size ntag) - 17)) 4 ++ last5)
      (seq 4 8)) as (_ & _ & ->).
  destruct (ok_reads_pages (p03 ++ [x01; x03;
      default xa0 (size_to_mlen !! NTAGData.size ntag); x0c] ++ [x34; x03; x15; xd1]
      ++ [x01; x11; x54; x02] ++ (byte_of_Z <$> encode_faba_id id)
      ++ [xfe; x00; x00; x00]
      ++ list_mul (list_mul [x00] (Z.of_nat (NTAGData.size ntag) - 17)) 4 ++ last5)
      (seq 4 8)) as (_ & _ & ->).
  change (Log Info MsgSuccessfullyWritten :: post)
    with ([Log Info MsgSuccessfullyWritten] ++ post).
  rewrite saved_files_app, Hs6. reflexivity.
Qed.

End FabaImage.

(** ** Creating the files without a tag *)

Lemma ntag_spec_None type :
  type ∉ [lit "NTAG203"; lit "NTAG213"; lit "NTAG215"; lit "NTAG216"] ->
  ntag_spec type = None.
Proof.
  intros Hn. unfold ntag_spec.
  rewrite (proj2 (list_find_None _ _)); [done|].
  rewrite !not_elem_of_cons in Hn. destruct Hn as (? & ? & ? & ? & _).
  unfold ntag_specs. repeat constructor; simpl; congruence.
Qed.

Lemma ntag_spec_Some type spec :
  ntag_spec type = Some spec ->
  (type, spec) ∈ ntag_specs.
Proof.
  unfold ntag_spec. intros Hs. apply fmap_Some in Hs as ([i [name s]] & Hf & ->).
  apply list_find_Some in Hf as (Hi & Hname & _). simpl in Hname. subst name.
  by eapply list_elem_of_lookup_2.
Qed.

Lemma ntag_spec_mlen type ty capc mlen ntag_size :
  ntag_spec type = Some (ty, capc, mlen, ntag_size) ->
  default xa0 (size_to_mlen !! ntag_size) = mlen /\ (17 <= ntag_size)%nat /\
  type = type_name ty.
Proof.
  intros Hs%ntag_spec_Some. unfold ntag_specs in Hs.
  rewrite !elem_of_cons, elem_of_nil in Hs.
  destruct Hs as [Hs|[Hs|[Hs|[Hs|[]]]]]; apply pair_equal_spec in Hs as [-> Hs];
    injection Hs as -> -> -> ->; (split; [by vm_compute|]); (split; [lia|done]).
Qed.

Section Crete.
Context {D : Type} `{Env D} `{Console D}.

(** X14.  [crete_ntag] accepts only a UID of seven bytes and one of the
    four type names, spelled in upper case as in [ntag_specs]: for any
    other UID or name it raises [ValueError], after its three log records
    and before any file is written. *)
Theorem crete_ntag_rejects uid type id (w : world D) :
  length uid ≠ 7%nat \/
  type ∉ [lit "NTAG203"; lit "NTAG213"; lit "NTAG215"; lit "NTAG216"] ->
  crete_ntag uid type id w =
    (Raise ValueError, World (crete_banner uid type id (hw w)) (trace w)).
Proof.
  intros Hbad. unfold crete_ntag.
  do 3 erewrite bind_ret_eq by reflexivity. cbn [hw trace].
  fold (crete_banner uid type id (hw w)).
  destruct uid as [|u0 [|u1 [|u2 [|u3 [|u4 [|u5 [|u6 [|u7 uid]]]]]]]]; try reflexivity.
  destruct Hbad as [Hlen|Htype]; [done|].
  rewrite (ntag_spec_None _ Htype). reflexivity.
Qed.

(** X15.  For a UID of seven bytes, one of the four type names and an
    identifier of four digits, [crete_ntag] dumps the image written out
    below: the UID with its two check bytes in pages 0 to 2 (the first
    over the cascade tag 0x88 and the first three bytes, the second over
    the last four), the capability byte of the type in page 3, its memory
    length in page 4, the text record of the identifier in pages 5 to 11,
    zeros up to the five last pages; the image has four bytes for every
    page of the type, and the three files are named after the
    identifier. *)
Theorem crete_ntag_image u0 u1 u2 u3 u4 u5 u6 type id (w : world D)
    ty capc mlen ntag_size :
  ntag_spec type = Some (ty, capc, mlen, ntag_size) ->
  length id = 4%nat ->
  Forall (fun c => 48 <= c <= 57) id ->
  let uid := [u0; u1; u2; u3; u4; u5; u6] in
  let bcc0 := byte_xor (byte_xor (byte_xor x88 u0) u1) u2 in
  let bcc1 := byte_xor (byte_xor (byte_xor u3 u4) u5) u6 in
  let image :=
    [u0; u1; u2; bcc0; u3; u4; u5; u6; bcc1; x48; x00; x00; xe1; x10; capc; x00;
     x01; x03; mlen; x0c; x34; x03; x15; xd1; x01; x11; x54; x02]
    ++ (byte_of_Z <$> encode_faba_id id) ++ [xfe; x00; x00; x00]
    ++ replicate (4 * (ntag_size - 17)) x00 ++ last5 in
  length image = (4 * ntag_size)%nat /\
  exists ntag w',
    NTAGData.uid ntag = Some uid /\ NTAGData.type ntag = ty /\
    NTAGData.size ntag = ntag_size /\
    crete_ntag uid type id w =
      dump_ntag PyList image ntag
        (World (crete_banner uid type id (hw w)) (trace w)) /\
    crete_ntag uid type id w = (Ret tt, w') /\
    saved_files (trace w')
    = saved_files (trace w) ++ [id ++ lit ".raw"; id ++ lit ".ndef"; id ++ lit ".nfc"].
Proof.
  intros Hspec Lid Hid uid bcc0 bcc1 image.
  destruct (ntag_spec_mlen _ _ _ _ _ Hspec) as (Hmlen & Hsize & _).
  assert (Limage : length image = (4 * ntag_size)%nat).
  { unfold image. rewrite !length_app, length_fmap, length_replicate.
    unfold encode_faba_id. rewrite !length_app, Lid. simpl. lia. }
  split; [exact Limage|].
  set (ntag := NTAGData.add_page (NTAGData.add_page (NTAGData.add_page
                (NTAGData.add_page (NTAGData.add_page
                  (NTAGData.set_size (NTAGData.set_type
                    (NTAGData.set_uid NTAGData.init (Some uid)) ty) ntag_size)
                  0 [u0; u1; u2; bcc0]) 1 [u3; u4; u5; u6]) 2 [bcc1; x48; x00; x00])
                3 [xe1; x10; capc; x00]) 4 [x01; x03; mlen; x0c]).
  set (w0 := World (crete_banner uid type id (hw w)) (trace w)).
  assert (Ecreate : create_byte_array (encode_faba_id id) ntag w0 = (Ret image, w0)).
  { destruct (create_byte_array_faba id ntag w0) as (p03 & w1 & E03 & _ & ->).
    { eapply Forall_impl; [exact Hid|]. simpl. lia. }
    assert (E03' : copy_pages ntag (seq 0 4) [] w0
              = (Ret [u0; u1; u2; bcc0; u3; u4; u5; u6; bcc1; x48; x00; x00;
                      xe1; x10; capc; x00], w0)) by reflexivity.
    rewrite E03' in E03. apply ret_pair_inj in E03 as [<- <-].
    change (NTAGData.size ntag) with ntag_size. rewrite Hmlen, list_mul_zeros.
    replace (Z.to_nat (Z.of_nat ntag_size - 17)) with (ntag_size - 17)%nat by lia.
    reflexivity. }
  assert (Erun : crete_ntag uid type id w = dump_ntag PyList image ntag w0).
  { unfold crete_ntag. do 3 erewrite bind_ret_eq by reflexivity. cbn [hw trace].
    fold (crete_banner uid type id (hw w)). fold w0.
    rewrite Hspec. unfold uid at 1. cbv beta iota zeta. fold bcc0 bcc1. fold uid.
    fold ntag. erewrite bind_ret_eq by exact Ecreate. reflexivity. }
  destruct (faba_image_stem [u0; u1; u2; bcc0; u3; u4; u5; u6; bcc1; x48; x00; x00;
                             xe1; x10; capc; x00] mlen id
              ([xfe; x00; x00; x00] ++ replicate (4 * (ntag_size - 17)) x00 ++ last5)
              eq_refl Lid) as [Hslice Hlen].
  destruct (dump_ntag_stem image ntag w0 uid id eq_refl Hlen)
    as (w' & tr & Edump & Htr & Hfiles).
  { unfold image. cbn [app]. cbn [app] in Hslice. rewrite Hslice. by apply digits_stem. }
  { by destruct id. }
  exists ntag, w'. split; [done|]. split; [done|]. split; [done|].
  split; [exact Erun|]. split; [by rewrite Erun|].
  rewrite Htr. cbn [trace w0]. by rewrite saved_files_app, Hfiles.
Qed.

End Crete.

(** ** The contents of the files *)







Section Files.
Context {D : Type} `{Env D}.


(** X17.  The [.ndef] file of an image made for an identifier: the bytes
    23 to 43 that [save_ndef] writes, in lower-case hexadecimal between
    the two tags, are the NDEF record itself, 21 bytes as announced by the
    length byte 0x15 of page 5: the header D1 01 11 54, the status byte 02
    and the 16 bytes of the text. *)
Theorem save_ndef_faba_record id ntag (w : world D) image w1 filename (w2 : world D) :
  length id = 4%nat ->
  Forall (fun c => 0 <= c < 128) id ->
  create_byte_array (encode_faba_id id) ntag w = (Ret image, w1) ->
  let record := [xd1; x01; x11; x54; x02] ++ (byte_of_Z <$> encode_faba_id id) in
  length record = 21%nat /\
  nth 22 image x00 = x15 /\
  exists res d tail,
    save_ndef image filename w2 =
      (Ret (bool_decide (res = Written)),
       World d (trace w2 ++ WriteFile (filename ++ lit ".ndef")
                  (lit "<NdefMessage>" ++ hex record ++ lit "</NdefMessage>") res
                  :: tail)) /\
    saved_files tail = [].
Proof.
  intros Lid Hid E record.
  destruct (create_byte_array_faba id ntag w Hid) as (p03 & w1' & _ & L03 & E').
  rewrite E in E'. apply ret_pair_inj in E' as [-> _].
  destruct p03 as [|a0 [|a1 [|a2 [|a3 [|a4 [|a5 [|a6 [|a7 [|a8 [|a9 [|a10 [|a11
    [|a12 [|a13 [|a14 [|a15 [|]]]]]]]]]]]]]]]]]; try discriminate.
  destruct id as [|d0 [|d1 [|d2 [|d3 [|]]]]]; try discriminate.
  split; [reflexivity|]. split; [reflexivity|].
  unfold save_ndef.
  match goal with |- context [save ?f ?c ?w1] =>
    destruct (save_run f c w1) as (res & d & _ & ->) end.
  exists res, d, [outcome_record (filename ++ lit ".ndef") res].
  split; [reflexivity|]. by destruct res.
Qed.

(** X18.  [wait_for_card] polls until the reader reports a UID that is
    not empty: every poll before the last one reported nothing ([None] or
    an empty UID), and the UID of the last one is the one returned. *)
Theorem wait_for_card_polls fuel (w : world D) uid w' :
  wait_for_card fuel w = (Ret uid, w') ->
  uid ≠ [] /\
  exists misses,
    (length misses < fuel)%nat /\
    Forall (fun r => r = Reply None \/ r = Reply (Some [])) misses /\
    polled (trace w') = polled (trace w) ++ misses ++ [Reply (Some uid)].
Proof.
  intros E. split; [by eapply wait_for_card_uid|].
  unfold wait_for_card in E. erewrite bind_ret_eq in E by reflexivity.
  apply wait_loop_polls in E as (misses & Hlen & Hm & Htr). cbn [trace] in Htr.
  exists misses. split; [done|]. split; [done|].
  rewrite Htr. unfold polled. rewrite omap_app. simpl. by rewrite app_nil_r.
Qed.

(** X19.  [dump_ntag] for a store without a UID and an image of more
    than 43 bytes.  When none of the bytes 38 to 41 is printable, the name
    is to be made from the UID and [dump_ntag] raises [TypeError] before
    anything is logged or written.  Otherwise [dump_ntag] returns normally
    and [save_flipper] logs an unexpected error instead of writing the
    [.nfc] file; before that the [.raw] and the [.ndef] file are written
    under the name the bytes give when the image is a list or ends with a
    complete page, and the [.ndef] file alone for a [bytearray] whose last
    page is incomplete, which [save_raw] fails to pad. *)
Theorem dump_ntag_without_uid kind byte_array ntag (w : world D) :
  NTAGData.uid ntag = None ->
  43 < Z.of_nat (length byte_array) ->
  let shown := filter (fun b => 0x20 <= byte_val b <= 0x7E) (slice byte_array 38 42) in
  let stem := byte_val <$> shown in
  (shown = [] -> dump_ntag kind byte_array ntag w = (Raise TypeError, w)) /\
  (shown ≠ [] ->
   exists w' tr, dump_ntag kind byte_array ntag w = (Ret tt, w') /\
     trace w' = trace w ++ tr ++ [Log Error MsgUnexpectedError] /\
     (kind = PyList \/ (length byte_array mod 4 = 0)%nat ->
      saved_files tr = [stem ++ lit ".raw"; stem ++ lit ".ndef"]) /\
     (kind = PyBytearray -> (length byte_array mod 4 ≠ 0)%nat ->
      saved_files tr = [stem ++ lit ".ndef"])).
Proof.
  intros Huid Hlen shown stem. split; intros Hshown.
  - unfold dump_ntag.
    destruct (Z.ltb_spec 43 (Z.of_nat (length byte_array))); [|lia].
    rewrite printable_filter. fold shown. rewrite Hshown, Huid. reflexivity.
  - destruct (dump_ntag_run kind byte_array ntag w stem Hlen)
      as (w' & tr & E & Htr & _ & Hpads & Hragged).
    { cbv zeta. rewrite printable_filter. fold shown. fold stem.
      rewrite bool_decide_eq_false_2 by (unfold stem; by destruct shown).
      reflexivity. }
    destruct (pads_dec kind byte_array) as [Hp|[Hk Hm]].
    + destruct (Hpads Hp Huid) as (tr0 & -> & Hs).
      exists w', tr0. split; [done|]. split; [done|]. split; [done|].
      intros -> Hm. destruct Hp as [|Hp]; [discriminate|]. by destruct Hm.
    + destruct (Hragged Hk Hm) as (tr0 & -> & Hs).
      exists w', tr0. split; [done|]. split; [done|]. split; [|done].
      intros [->|Hm']; [discriminate|]. by destruct Hm.
Qed.

End Files.

(** ** The further properties on the simulated reader *)

(** Writing pages 4 to 11 to a tag of eight pages: page 8 is refused. *)
Lemma write_blocks_first_failure_witness :
  read_passive_target (hw tag_8_pages) = (Reply (Some uid_a), hw tag_8_pages) /\
  Some uid_a = NTAGData.uid detected_213 /\
  exists w' k got,
    write_blocks verify_image 4 11 detected_213 tag_8_pages = (Ret false, w') /\
    written_pages (trace w') = [4; 5; 6; 7; 8]%nat /\
    (k < 8)%nat /\ got ≠ Reply true /\
    trace w' = Poll (Reply (Some uid_a)) :: ok_writes verify_image (seq 4 k)
       ++ [WriteBlock (4 + k)
             (slice verify_image ((4 + k) * 4) ((4 + k) * 4 + 4)) got;
           Log Error (match got with
                      | Fault => MsgErrorWritingPage (4 + k)
                      | Reply _ => MsgFailedWritingPage (4 + k)
                      end)].
Proof.
  assert (Hp : read_passive_target (hw tag_8_pages)
               = (Reply (Some uid_a), hw tag_8_pages)) by reflexivity.
  assert (Hu : Some uid_a = NTAGData.uid detected_213) by (vm_compute; reflexivity).
  split; [exact Hp|]. split; [exact Hu|].
  destruct (write_blocks verify_image 4 11 detected_213 tag_8_pages) as [r w'] eqn:E.
  pose proof (write_blocks_first_failure _ _ _ _ _ _ _ _ _ Hp Hu E) as Hspec.
  cbv zeta in Hspec.
  assert (Hr : r = Ret false /\ written_pages (trace w') = [4; 5; 6; 7; 8]%nat).
  { vm_compute in E. injection E as <- <-. split; vm_compute; reflexivity. }
  destruct Hr as [-> Hw].
  destruct Hspec as [[Hr _]|(_ & k & got & Hk & Hgot & Htr)]; [discriminate Hr|].
  exists w', k, got. split; [reflexivity|]. split; [exact Hw|].
  split; [exact Hk|]. split; [exact Hgot|exact Htr].
Defined.

(** Writing the identifier 1234 to an NTAG213 and saving its files. *)
Lemma write_ntag_saves_after_verify_witness :
  exists w' image uid pre post,
    write_ntag (lit "1234") detected_213 tag_213 = (Ret tt, w') /\
    saved_files (trace w') ≠ [] /\
    trace w' = pre ++ Poll uid :: ok_writes image (seq 4 8)
                 ++ ok_reads image (seq 4 8)
                 ++ Log Info MsgSuccessfullyWritten :: post /\
    Forall is_console pre /\ Forall off_tag post.
Proof.
  destruct (write_ntag (lit "1234") detected_213 tag_213) as [r w'] eqn:E.
  destruct (write_ntag_saves_after_verify _ _ _ _ _ E) as (tr & Htr & Himp).
  change (trace tag_213) with (@nil event) in Htr. rewrite app_nil_l in Htr.
  rewrite <- Htr in Himp. clear Htr tr.
  assert (Hr : r = Ret tt /\ saved_files (trace w') ≠ []).
  { vm_compute in E. injection E as <- <-. split; [reflexivity|].
    vm_compute. intros Hn. discriminate Hn. }
  destruct Hr as [-> Hs].
  destruct (Himp Hs) as (image & uid & pre & post & Heq & Hpre & Hpost).
  exists w', image, uid, pre, post.
  split; [reflexivity|]. split; [exact Hs|]. split; [exact Heq|].
  split; [exact Hpre|exact Hpost].
Defined.

(** The payload of the record of the identifier 1234. *)
Lemma read_payload_bound_witness :
  exists payload w' added,
    read_payload 10 ntag_terminated [] 7 17 tag_213 = (Ret payload, w') /\
    payload = [] ++ added /\ Z.of_nat (length added) <= 17 /\ (xfe ∉ added) /\
    hw w' = hw tag_213.
Proof.
  destruct (read_payload 10 ntag_terminated [] 7 17 tag_213) as [r w'] eqn:E.
  assert (Hr : exists payload, r = Ret payload).
  { vm_compute in E. injection E as <- <-. eexists. reflexivity. }
  destruct Hr as (payload & ->).
  destruct (read_payload_bound _ _ _ _ _ _ _ _ E) as (added & Hp & Hl & Hn & Hhw & _).
  exists payload, w', added. split; [reflexivity|]. split; [exact Hp|].
  split; [exact Hl|]. split; [exact Hn|exact Hhw].
Defined.

(** A payload of one byte for a language code of two. *)
Lemma parse_text_insufficient_witness :
  NTAGData.pages ntag_short_header !! 6%nat = Some [x01; x01; x54; x02] /\
  byte_val x01 < Z.land (byte_val x02) 0x3F /\
  exists tr,
    parse_text ntag_short_header tag_213 =
      (Ret ntag_short_header,
       World (hw tag_213) (trace tag_213 ++ tr ++ [Log Error MsgInsufficientData])) /\
    Forall is_console tr.
Proof.
  assert (H6 : NTAGData.pages ntag_short_header !! 6%nat = Some [x01; x01; x54; x02])
    by (vm_compute; reflexivity).
  assert (Hlt : byte_val x01 < Z.land (byte_val x02) 0x3F) by (vm_compute; reflexivity).
  split; [exact H6|]. split; [exact Hlt|].
  exact (parse_text_insufficient ntag_short_header tag_213 _ _ _ _ H6 Hlt).
Defined.

(** Reading the record of the identifier 1234. *)
Lemma parse_text_frame_witness :
  exists r w',
    parse_text ntag_terminated tag_213 = (r, w') /\
    hw w' = hw tag_213 /\
    (exists tr, trace w' = trace tag_213 ++ tr /\ Forall is_console tr) /\
    (forall nt, r = Ret nt ->
       nt = ntag_terminated \/
       exists c, nt = NTAGData.set_code ntag_terminated c /\ length c = 4%nat).
Proof.
  destruct (parse_text ntag_terminated tag_213) as [r w'] eqn:E.
  exists r, w'. split; [reflexivity|].
  exact (parse_text_frame _ _ _ _ E).
Defined.

(** The record of the identifier 1234 with a page 12 that starts with the
    letter A, and with one that starts with [0xE9]. *)
Lemma parse_text_depends_on_page_12_witness :
  NTAGData.pages ntag_terminated !! 12%nat = Some [x41; x42; x43; x44] /\
  NTAGData.pages ntag_page_12_high !! 12%nat = Some [xe9; x00; x00; x00] /\
  (forall k, (6 <= k <= 11)%nat ->
     NTAGData.pages ntag_page_12_high !! k = NTAGData.pages ntag_terminated !! k) /\
  (exists w', parse_text ntag_terminated tag_213
              = (Ret (NTAGData.set_code ntag_terminated (lit "1234")), w')) /\
  parse_text ntag_page_12_high tag_213 = (Raise UnicodeDecodeError, tag_213).
Proof.
  assert (Hd : Forall (fun b => 48 <= byte_val b <= 57) [x31; x32; x33; x34]).
  { repeat (apply Forall_cons; split; [vm_compute; split; discriminate|]).
    constructor. }
  assert (Ha : NTAGData.pages ntag_terminated !! 12%nat = Some [x41; x42; x43; x44])
    by (vm_compute; reflexivity).
  assert (Hb : NTAGData.pages ntag_page_12_high !! 12%nat = Some [xe9; x00; x00; x00])
    by (vm_compute; reflexivity).
  split; [exact Ha|]. split; [exact Hb|]. split.
  { intros k Hk. unfold ntag_page_12_high, NTAGData.add_page. simpl.
    apply lookup_insert_ne. lia. }
  split.
  - destruct (parse_text_depends_on_page_12 ntag_terminated tag_213
                x31 x32 x33 x34 x00 x00 x00
                ltac:(vm_compute; reflexivity) ltac:(vm_compute; reflexivity)
                ltac:(vm_compute; reflexivity) ltac:(vm_compute; reflexivity)
                ltac:(vm_compute; reflexivity) ltac:(vm_compute; reflexivity) Hd)
      as (Hlow & _ & _).
    eexists. apply (Hlow _ _ Ha). vm_compute. reflexivity.
  - destruct (parse_text_depends_on_page_12 ntag_page_12_high tag_213
                x31 x32 x33 x34 x00 x00 x00
                ltac:(vm_compute; reflexivity) ltac:(vm_compute; reflexivity)
                ltac:(vm_compute; reflexivity) ltac:(vm_compute; reflexivity)
                ltac:(vm_compute; reflexivity) ltac:(vm_compute; reflexivity) Hd)
      as (_ & Hhigh & _).
    apply (Hhigh _ _ Hb).
    + vm_compute. intros Hn. discriminate Hn.
    + intros Hn. discriminate Hn.
Defined.

(** Detecting the tag of 16 pages. *)
Lemma detect_card_reads_witness :
  NTAGData.pages NTAGData.init = ∅ /\
  exists nt w' datas,
    detect_card 17 NTAGData.init tag_16_pages = (Ret (nt, true), w') /\
    read_back_pages (trace w') = seq 0 17 /\
    get_all_bytes nt = concat datas /\
    (3 < length datas)%nat /\
    NTAGData.size nt = length datas.
Proof.
  split; [reflexivity|].
  destruct (detect_card 17 NTAGData.init tag_16_pages) as [r w'] eqn:E.
  assert (Hr : exists nt, r = Ret (nt, true) /\ NTAGData.type nt = Unknown /\
                 read_back_pages (trace w') = seq 0 17).
  { vm_compute in E. injection E as <- <-. eexists. split; [reflexivity|].
    split; vm_compute; reflexivity. }
  destruct Hr as (nt & -> & Hty & Hrb).
  destruct (detect_card_reads 17 NTAGData.init tag_16_pages nt true w' eq_refl E)
    as (pre & datas & last & post & _ & _ & _ & _ & _ & _ & Hbytes & Hlen & Hsize).
  exists nt, w', datas. split; [reflexivity|]. split; [exact Hrb|].
  split; [exact Hbytes|]. split; [exact Hlen|exact (Hsize Hty)].
Defined.

(** Erasing the tag of 16 pages. *)
Lemma erase_ntag_pages_witness :
  exists w',
    erase_ntag detected_16 tag_16_pages_c = (Ret tt, w') /\
    written_pages (trace w') = seq 4 12 /\
    read_back_pages (trace w') = seq 4 12 /\
    (forall p, p ∈ written_pages (trace w') ->
       (4 <= p < NTAGData.size detected_16)%nat) /\
    saved_files (trace w') = [].
Proof.
  destruct (erase_ntag detected_16 tag_16_pages_c) as [r w'] eqn:E.
  destruct (erase_ntag_pages _ _ _ _ E) as (tr & Htr & _ & Hin & _ & Hs).
  change (trace tag_16_pages_c) with (@nil event) in Htr. rewrite app_nil_l in Htr.
  rewrite <- Htr in Hin, Hs. clear Htr tr.
  assert (Hr : r = Ret tt /\ written_pages (trace w') = seq 4 12 /\
               read_back_pages (trace w') = seq 4 12).
  { vm_compute in E. injection E as <- <-. split; [reflexivity|].
    split; vm_compute; reflexivity. }
  destruct Hr as (-> & Hw & Hrb).
  exists w'. split; [reflexivity|]. split; [exact Hw|]. split; [exact Hrb|].
  split; [exact Hin|exact Hs].
Defined.

(** Erasing a tag of four pages. *)
Lemma erase_ntag_nothing_to_erase_witness :
  NTAGData.uid ntag_4_pages = Some uid_a /\
  (NTAGData.size ntag_4_pages <= 4)%nat /\
  exists w',
    erase_ntag ntag_4_pages tag_4_pages_c = (Ret tt, w') /\
    trace w' = [Poll (Reply (Some uid_a))] /\
    last (sim_console (hw w')) = Some (Info, lit "NTAG successfully erased").
Proof.
  assert (Hsize : (NTAGData.size ntag_4_pages <= 4)%nat) by (vm_compute; lia).
  split; [reflexivity|]. split; [exact Hsize|].
  eexists. split.
  - apply (erase_ntag_nothing_to_erase ntag_4_pages tag_4_pages_c uid_a
             (erase_banner ntag_4_pages uid_a (hw tag_4_pages_c)) eq_refl Hsize).
    reflexivity.
  - split; [reflexivity|]. vm_compute. reflexivity.
Defined.

(** The files of the identifier 1234. *)
Lemma write_ntag_file_names_witness :
  length (lit "1234") = 4%nat /\
  Forall (fun c => 48 <= c <= 57) (lit "1234") /\
  exists w',
    write_ntag (lit "1234") detected_213 tag_213 = (Ret tt, w') /\
    saved_files (trace w')
    = [lit "1234" ++ lit ".raw"; lit "1234" ++ lit ".ndef"; lit "1234" ++ lit ".nfc"].
Proof.
  assert (Hd : Forall (fun c => 48 <= c <= 57) (lit "1234")).
  { repeat (apply Forall_cons; split; [vm_compute; split; discriminate|]). constructor. }
  split; [reflexivity|]. split; [exact Hd|].
  destruct (write_ntag (lit "1234") detected_213 tag_213) as [r w'] eqn:E.
  destruct (write_ntag_file_names (lit "1234") detected_213 tag_213 r w' eq_refl Hd E) as (tr & Htr & Hcase).
  change (trace tag_213) with (@nil event) in Htr. rewrite app_nil_l in Htr.
  rewrite <- Htr in Hcase. clear Htr tr.
  assert (Hs : saved_files (trace w') ≠ []).
  { vm_compute in E. injection E as <- <-. vm_compute. intros Hn. discriminate Hn. }
  destruct Hcase as [Hnone|[-> Hfiles]]; [destruct (Hs Hnone)|].
  exists w'. split; [reflexivity|exact Hfiles].
Defined.

(** A type name in lower case. *)
Lemma crete_ntag_rejects_witness :
  (lit "ntag215" ∉ [lit "NTAG203"; lit "NTAG213"; lit "NTAG215"; lit "NTAG216"]) /\
  crete_ntag uid_a (lit "ntag215") (lit "1234") no_tag =
    (Raise ValueError,
     World (crete_banner uid_a (lit "ntag215") (lit "1234") (hw no_tag)) []).
Proof.
  assert (Hn : lit "ntag215"
               ∉ [lit "NTAG203"; lit "NTAG213"; lit "NTAG215"; lit "NTAG216"]).
  { rewrite !not_elem_of_cons.
    repeat (split; [intros Hn; vm_compute in Hn; discriminate Hn|]).
    apply not_elem_of_nil. }
  split; [exact Hn|].
  exact (crete_ntag_rejects uid_a (lit "ntag215") (lit "1234") no_tag (or_intror Hn)).
Defined.

(** The files of the identifier 1234 for an NTAG215 of UID
    [04 74 2F F1 78 00 00]. *)
Lemma crete_ntag_image_witness :
  ntag_spec (lit "NTAG215") = Some (NTAG215, x3e, xe0, 135%nat) /\
  exists w',
    crete_ntag uid_a (lit "NTAG215") (lit "1234") no_tag = (Ret tt, w') /\
    saved_files (trace w')
    = [lit "1234" ++ lit ".raw"; lit "1234" ++ lit ".ndef"; lit "1234" ++ lit ".nfc"].
Proof.
  assert (Hspec : ntag_spec (lit "NTAG215") = Some (NTAG215, x3e, xe0, 135%nat))
    by (vm_compute; reflexivity).
  assert (Hd : Forall (fun c => 48 <= c <= 57) (lit "1234")).
  { repeat (apply Forall_cons; split; [vm_compute; split; discriminate|]). constructor. }
  split; [exact Hspec|].
  destruct (crete_ntag_image x04 x74 x2f xf1 x78 x00 x00 (lit "NTAG215") (lit "1234")
              no_tag _ _ _ _ Hspec eq_refl Hd)
    as (_ & ntag & w' & _ & _ & _ & _ & E & Hfiles).
  exists w'. split; [exact E|exact Hfiles].
Defined.

(** The [.ndef] file of the identifier 1234. *)
Lemma save_ndef_faba_record_witness :
  length (lit "1234") = 4%nat /\
  Forall (fun c => 0 <= c < 128) (lit "1234") /\
  exists image w1 res d tail,
    create_byte_array (encode_faba_id (lit "1234")) detected_213 tag_213
      = (Ret image, w1) /\
    save_ndef image (lit "1234") tag_213 =
      (Ret (bool_decide (res = Written)),
       World d (trace tag_213 ++ WriteFile (lit "1234" ++ lit ".ndef")
                  (lit "<NdefMessage>"
                   ++ hex ([xd1; x01; x11; x54; x02]
                           ++ (byte_of_Z <$> encode_faba_id (lit "1234")))
                   ++ lit "</NdefMessage>") res :: tail)).
Proof.
  assert (Hd : Forall (fun c => 0 <= c < 128) (lit "1234")).
  { repeat (apply Forall_cons; split; [vm_compute; split; [discriminate|reflexivity]|]).
    constructor. }
  split; [reflexivity|]. split; [exact Hd|].
  destruct (create_byte_array (encode_faba_id (lit "1234")) detected_213 tag_213)
    as [r w1] eqn:E.
  assert (Hr : exists image, r = Ret image).
  { vm_compute in E. injection E as <- <-. eexists. reflexivity. }
  destruct Hr as (image & ->).
  destruct (save_ndef_faba_record (lit "1234") detected_213 tag_213 image w1
              (lit "1234") tag_213 eq_refl Hd E)
    as (_ & _ & res & d & tail & Es & _).
  exists image, w1, res, d, tail. split; [reflexivity|exact Es].
Defined.

(** A tag in the field at the first poll. *)
Lemma wait_for_card_polls_witness :
  exists w', wait_for_card 1 tag_213 = (Ret uid_a, w') /\
    uid_a ≠ [] /\
    polled (trace w') = [Reply (Some uid_a)].
Proof.
  destruct (wait_for_card 1 tag_213) as [r w'] eqn:E.
  assert (Hr : r = Ret uid_a).
  { vm_compute in E. injection E as <- <-. reflexivity. }
  subst r.
  destruct (wait_for_card_polls _ _ _ _ E) as (Hne & misses & Hlen & _ & Htr).
  exists w'. split; [reflexivity|]. split; [exact Hne|].
  destruct misses as [|miss misses]; [exact Htr|]. simpl in Hlen. lia.
Defined.

(** An image whose bytes 38 to 41 are [31 00 32 33], for a store that has
    no UID: as a list of 48 bytes, and cut to 46 bytes as a [bytearray]. *)
Lemma dump_ntag_without_uid_witness :
  NTAGData.uid NTAGData.init = None /\
  43 < Z.of_nat (length image_mixed) /\
  43 < Z.of_nat (length image_ragged) /\
  (length image_ragged mod 4 ≠ 0)%nat /\
  (exists w',
     dump_ntag PyList image_mixed NTAGData.init tag_213 = (Ret tt, w') /\
     saved_files (trace w') = [lit "123.raw"; lit "123.ndef"] /\
     last (trace w') = Some (Log Error MsgUnexpectedError)) /\
  (exists w',
     dump_ntag PyBytearray image_ragged NTAGData.init tag_213 = (Ret tt, w') /\
     saved_files (trace w') = [lit "123.ndef"] /\
     last (trace w') = Some (Log Error MsgUnexpectedError)).
Proof.
  assert (Hlen : 43 < Z.of_nat (length image_mixed)) by (vm_compute; reflexivity).
  assert (Hlen' : 43 < Z.of_nat (length image_ragged)) by (vm_compute; reflexivity).
  assert (Hm' : (length image_ragged mod 4 ≠ 0)%nat)
    by (vm_compute; intros Hn; discriminate Hn).
  split; [reflexivity|]. split; [exact Hlen|]. split; [exact Hlen'|].
  split; [exact Hm'|]. split.
  - destruct (dump_ntag_without_uid PyList image_mixed NTAGData.init tag_213
                eq_refl Hlen) as [_ Hsome].
    destruct Hsome as (w' & tr & E & Htr & Hfiles & _).
    { vm_compute. intros Hn. discriminate Hn. }
    exists w'. split; [exact E|].
    change (trace tag_213) with (@nil event) in Htr. rewrite app_nil_l in Htr.
    rewrite Htr, saved_files_app, (Hfiles (or_introl eq_refl)).
    split; [vm_compute; reflexivity|]. apply last_snoc.
  - destruct (dump_ntag_without_uid PyBytearray image_ragged NTAGData.init tag_213
                eq_refl Hlen') as [_ Hsome].
    destruct Hsome as (w' & tr & E & Htr & _ & Hfiles).
    { vm_compute. intros Hn. discriminate Hn. }
    exists w'. split; [exact E|].
    change (trace tag_213) with (@nil event) in Htr. rewrite app_nil_l in Htr.
    rewrite Htr, saved_files_app, (Hfiles eq_refl Hm').
    split; [vm_compute; reflexivity|]. apply last_snoc.
Defined.

